(** * Decision core of the trading bot: entry, exit, confidence, regime, cooldown

    A shallow embedding of the five modules under [backend/]:
    [cooldown_v2.py], [market_regime_v2.py], [confidence_v2.py],
    [entry_logic_v2.py] and [exit_logic_v2.py].

    Modelling conventions.
    - A Python [int] is a [Z] (unbounded).
    - A Python [float] is modelled twice.  In the modules [Regime],
      [Confidence], [Entry] and [Exit] it is an exact rational [Q]: every
      comparison of the source is the comparison of the rationals, every
      sum, difference, product and quotient is the exact one; this is the
      behaviour on values that are numbers, without rounding.  In the modules
      [RegimeIeee], [ConfidenceIeee] and [EntryIeee] it is a binary64 float
      of the kernel ([PrimFloat.float]), with its rounding, its infinities and
      its NaN, on which every comparison is false; what depends on NaN is
      stated there.
    - [Optional[T]] is [option T]; Python truthiness ([x or 0.0],
      [if current_price and ...]) is written out.
    - A [str] is a [string]; [str.upper] is the ASCII upper-casing (the only
      strings whose upper-casing is "CE" or "PE" are ASCII ones).
    - A [datetime.time] is its four fields, ordered lexicographically.
    - A method of a class takes the object's fields as a record; a mutating
      method returns the new record. *)

From Stdlib Require Import ZArith QArith Qabs Bool List String Ascii Lia Lqa.
From Stdlib Require Floats Uint63.

#[global] Set Warnings "-inexact-float".
Import ListNotations.

Local Open Scope Z_scope.

(** ** Comparisons and built-ins of Python on numbers *)

Module Py.

Local Open Scope Q_scope.

(** [a <= b], [a < b], [a >= b], [a > b] on floats. *)
Definition le (a b : Q) : bool := Qle_bool a b.
Definition lt (a b : Q) : bool := negb (Qle_bool b a).
Definition ge (a b : Q) : bool := le b a.
Definition gt (a b : Q) : bool := lt b a.

(** [min(a, b)] keeps its first argument unless the second is strictly
    smaller; [max(a, b)] keeps its first unless the second is strictly
    larger. *)
Definition min (a b : Q) : Q := if lt b a then b else a.
Definition max (a b : Q) : Q := if gt b a then b else a.

(** Truthiness of an optional float: [None] and zero are false. *)
Definition truthy (x : option Q) : bool :=
  match x with
  | None => false
  | Some v => negb (Qeq_bool v 0)
  end.

(** [float(x or 0.0)]. *)
Definition or_zero (x : option Q) : Q :=
  match x with
  | Some v => if truthy x then v else 0
  | None => 0
  end.

(** [sum(xs)] for a list of floats (left to right, from 0). *)
Definition sum (xs : list Q) : Q := fold_left Qplus xs 0.

(** [xs[-n:]] for [n > 0]: the last [n] elements, all of them when the list
    is shorter. *)
Definition last_n {A : Type} (n : nat) (xs : list A) : list A :=
  skipn (List.length xs - n)%nat xs.

(** [c.upper()] on one ASCII character. *)
Definition upper_ascii (c : ascii) : ascii :=
  let n := nat_of_ascii c in
  if andb (Nat.leb 97 n) (Nat.leb n 122) then ascii_of_nat (n - 32)%nat else c.

(** [s.upper()]. *)
Fixpoint upper (s : string) : string :=
  match s with
  | EmptyString => EmptyString
  | String c r => String (upper_ascii c) (upper r)
  end.

(** [sep.join(parts)]. *)
Definition join (sep : string) (parts : list string) : string :=
  String.concat sep parts.

End Py.

(** ** cooldown_v2.py *)

Module Cooldown.

Inductive CooldownReason : Type :=
| EXIT.

Record CooldownState : Type := mkCooldownState {
  active : bool;
  candles_remaining : Z;
  reason : option CooldownReason
}.

(** The fields of a [CooldownManager] object. *)
Record CooldownManager : Type := mkCooldownManager {
  cooldown_duration : Z;
  _remaining : Z;
  _reason : option CooldownReason
}.

Definition DEFAULT_COOLDOWN_CANDLES : Z := 3.

(** [CooldownManager(cooldown_candles=n)]. *)
Definition init (cooldown_candles : Z) : CooldownManager :=
  {| cooldown_duration := cooldown_candles;
     _remaining := 0;
     _reason := None |}.

(** [CooldownManager()]. *)
Definition init_default : CooldownManager := init DEFAULT_COOLDOWN_CANDLES.

Definition reset (self : CooldownManager) : CooldownManager :=
  {| cooldown_duration := cooldown_duration self;
     _remaining := 0;
     _reason := None |}.

Definition activate (self : CooldownManager) (reason : CooldownReason)
    (cooldown_candles : option Z) : CooldownManager :=
  let duration :=
    match cooldown_candles with
    | None => cooldown_duration self
    | Some c => c
    end in
  {| cooldown_duration := cooldown_duration self;
     _remaining := Z.max 0 duration;
     _reason := Some reason |}.

Definition advance (self : CooldownManager) : CooldownManager :=
  if 0 <? _remaining self then
    let remaining := _remaining self - 1 in
    if remaining <=? 0 then
      {| cooldown_duration := cooldown_duration self;
         _remaining := 0;
         _reason := None |}
    else
      {| cooldown_duration := cooldown_duration self;
         _remaining := remaining;
         _reason := _reason self |}
  else self.

Definition can_enter (self : CooldownManager) : bool :=
  _remaining self <=? 0.

Definition get_state (self : CooldownManager) : CooldownState :=
  {| active := 0 <? _remaining self;
     candles_remaining := _remaining self;
     reason := _reason self |}.

(** A call of one of the three mutating methods. *)
Inductive call : Type :=
| Reset
| Activate (reason : CooldownReason) (cooldown_candles : option Z)
| Advance.

Definition step (self : CooldownManager) (c : call) : CooldownManager :=
  match c with
  | Reset => reset self
  | Activate r d => activate self r d
  | Advance => advance self
  end.

(** The calls of a list made one after the other, first one first. *)
Definition run (self : CooldownManager) (cs : list call) : CooldownManager :=
  fold_left step cs self.

(** The states a manager built with [cooldown_candles = n] can be in. *)
Inductive reachable (n : Z) : CooldownManager -> Prop :=
| reach_init : reachable n (init n)
| reach_step (m : CooldownManager) (c : call) :
    reachable n m -> reachable n (step m c).

(** [advance()] called [k] times. *)
Fixpoint advance_n (k : nat) (self : CooldownManager) : CooldownManager :=
  match k with
  | O => self
  | S k' => advance_n k' (advance self)
  end.

(** The state INACTIVE of the specification's state machine. *)
Definition inactive (self : CooldownManager) : Prop :=
  get_state self = {| active := false; candles_remaining := 0; reason := None |}.

(** The state ACTIVE(n) of the specification's state machine. *)
Definition is_active_with (n : Z) (self : CooldownManager) : Prop :=
  active (get_state self) = true /\ candles_remaining (get_state self) = n.

(** The duration [activate] counts down from. *)
Definition duration_of (self : CooldownManager) (cooldown_candles : option Z) : Z :=
  match cooldown_candles with
  | None => cooldown_duration self
  | Some c => c
  end.

(** A counter at zero comes with a cleared reason. *)
Definition cleared_at_zero (m : CooldownManager) : Prop :=
  _remaining m = 0 -> _reason m = None.

End Cooldown.

(** ** market_regime_v2.py *)

Module Regime.

Local Open Scope Q_scope.

Inductive MarketRegime : Type :=
| SIDEWAYS
| TRENDING.

(** [RegimeInfo]; [detect] returns it through [as_dict], which keeps the five
    entries under the same names. *)
Record RegimeInfo : Type := mkRegimeInfo {
  method : string;
  adx : option Q;
  adx_threshold : Q;
  st_distance_pct : option Q;
  st_distance_threshold_pct : Q
}.

(** The fields of a [MarketRegimeDetector] object. *)
Record MarketRegimeDetector : Type := mkDetector {
  self_use_adx : bool;
  self_adx_threshold : Q;
  self_st_distance_sideways_threshold_pct : Q
}.

Definition DEFAULT_ST_DISTANCE_SIDEWAYS_THRESHOLD_PCT : Q := 0.15.
Definition DEFAULT_ADX_THRESHOLD : Q := 20.

(** [MarketRegimeDetector(use_adx=.., adx_threshold=..,
    st_distance_sideways_threshold_pct=..)]; an omitted keyword is [None]. *)
Definition init (use_adx : option bool) (adx_threshold : option Q)
    (st_distance_sideways_threshold_pct : option Q) : MarketRegimeDetector :=
  {| self_use_adx := match use_adx with Some b => b | None => false end;
     self_adx_threshold :=
       match adx_threshold with Some t => t | None => DEFAULT_ADX_THRESHOLD end;
     self_st_distance_sideways_threshold_pct :=
       match st_distance_sideways_threshold_pct with
       | Some t => t
       | None => DEFAULT_ST_DISTANCE_SIDEWAYS_THRESHOLD_PCT
       end |}.

(** The first statement of [detect]: the distance of the price to the
    SuperTrend line in percent of the price, when it can be computed. *)
Definition distance_pct (current_price supertrend_value : option Q) : option Q :=
  match current_price, supertrend_value with
  | Some p, Some s =>
      if Py.truthy current_price && Py.gt p 0
      then Some (Qabs (p - s) / p * 100)
      else None
  | _, _ => None
  end.

Definition detect (self : MarketRegimeDetector)
    (current_price supertrend_value adx : option Q)
    : MarketRegime * RegimeInfo :=
  let st_distance_pct := distance_pct current_price supertrend_value in
  match self_use_adx self, adx with
  | true, Some a =>
      let regime :=
        if Py.lt a (self_adx_threshold self) then SIDEWAYS else TRENDING in
      (regime,
       {| method := "ADX";
          adx := Some a;
          adx_threshold := self_adx_threshold self;
          st_distance_pct := st_distance_pct;
          st_distance_threshold_pct :=
            self_st_distance_sideways_threshold_pct self |})
  | _, _ =>
      let regime :=
        match st_distance_pct with
        | None => SIDEWAYS
        | Some d =>
            if Py.lt d (self_st_distance_sideways_threshold_pct self)
            then SIDEWAYS else TRENDING
        end in
      (regime,
       {| method := "ST_DISTANCE";
          adx := adx;
          adx_threshold := self_adx_threshold self;
          st_distance_pct := st_distance_pct;
          st_distance_threshold_pct :=
            self_st_distance_sideways_threshold_pct self |})
  end.

End Regime.

(** ** confidence_v2.py *)

Module Confidence.

Local Open Scope Q_scope.

(** [ConfidenceBreakdown].  The [notes] field, a rendering of the body
    percentage and of the distance for the logs, is left out. *)
Record ConfidenceBreakdown : Type := mkBreakdown {
  total : Q;
  st_strength : Q;
  candle_body_strength : Q;
  macd_momentum : Q;
  volatility_expansion : Q
}.

Definition MIN_ENTRY_CONFIDENCE : Q := 65.
Definition MIN_RUNTIME_CONFIDENCE : Q := 40.

Definition _ST_STRONG_THRESHOLD_PCT : Q := 0.25.
Definition _BODY_STRONG_THRESHOLD_PCT : Q := 60.
Definition _VOL_EXPANSION_WINDOW : nat := 14.

(** [len(xs)] as a float. *)
Definition len (xs : list Q) : Q := inject_Z (Z.of_nat (List.length xs)).

(** The body of the candle in percent of its range, [0.0] for a candle
    without range. *)
Definition body_pct_of (candle_open candle_high candle_low candle_close : Q) : Q :=
  let candle_range := candle_high - candle_low in
  if Py.gt candle_range 0
  then Qabs (candle_close - candle_open) / candle_range * 100
  else 0.

Definition st_strength_of (supertrend_distance_pct : Q) : Q :=
  if Py.gt supertrend_distance_pct _ST_STRONG_THRESHOLD_PCT then 30 else 0.

Definition candle_body_strength_of (body_pct : Q) : Q :=
  if Py.ge body_pct _BODY_STRONG_THRESHOLD_PCT then 20 else 0.

Definition macd_momentum_of (macd_histogram : option Q) : Q :=
  match macd_histogram with
  | None => 0
  | Some m =>
      let h := Qabs m in
      if Py.ge h 1.5 then 30
      else if Py.ge h 1 then 25
      else if Py.ge h 0.75 then 20
      else if Py.ge h 0.5 then 15
      else 0
  end.

Definition volatility_expansion_of (candle_range : Q)
    (recent_ranges : option (list Q)) : Q :=
  if Py.gt candle_range 0 then
    let ranges := match recent_ranges with Some l => l | None => [] end in
    if (3 <=? List.length ranges)%nat then
      let window := Py.last_n _VOL_EXPANSION_WINDOW ranges in
      let avg_range :=
        match window with
        | [] => 0
        | _ => Py.sum window / len window
        end in
      if Py.gt avg_range 0 && Py.gt candle_range avg_range then 20 else 0
    else 0
  else 0.

Definition calculate_entry_confidence
    (supertrend_distance_pct candle_open candle_high candle_low candle_close : Q)
    (macd_histogram : option Q) (recent_ranges : option (list Q))
    : ConfidenceBreakdown :=
  let st_strength := st_strength_of supertrend_distance_pct in
  let candle_range := candle_high - candle_low in
  let body_pct := body_pct_of candle_open candle_high candle_low candle_close in
  let candle_body_strength := candle_body_strength_of body_pct in
  let macd_momentum := macd_momentum_of macd_histogram in
  let volatility_expansion := volatility_expansion_of candle_range recent_ranges in
  let total := st_strength + candle_body_strength + macd_momentum + volatility_expansion in
  let total := Py.max 0 (Py.min 100 total) in
  {| total := total;
     st_strength := st_strength;
     candle_body_strength := candle_body_strength;
     macd_momentum := macd_momentum;
     volatility_expansion := volatility_expansion |}.

(** The sum of the four sub-scores, before the clamp. *)
Definition subscore_sum (b : ConfidenceBreakdown) : Q :=
  st_strength b + candle_body_strength b + macd_momentum b + volatility_expansion b.

Definition DEFAULT_DECAY_AFTER_CANDLES : Z := 10.

Definition calculate_runtime_confidence (previous_confidence : Q)
    (candle_body_pct macd_histogram prev_macd_histogram : option Q)
    (candles_held decay_after_candles : Z) : Q * string :=
  let conf := previous_confidence in
  let reasons : list string := [] in
  (* Decay: weak candle body *)
  let '(conf, reasons) :=
    match candle_body_pct with
    | Some b =>
        if Py.lt b 30 then (conf - 10, reasons ++ ["WEAK_BODY"%string])
        else (conf, reasons)
    | None => (conf, reasons)
    end in
  (* Decay: MACD histogram shrinking *)
  let '(conf, reasons) :=
    match macd_histogram, prev_macd_histogram with
    | Some m, Some pm =>
        if Py.lt (Qabs m) (Qabs pm)
        then (conf - 10, reasons ++ ["MACD_SHRINK"%string])
        else (conf, reasons)
    | _, _ => (conf, reasons)
    end in
  (* Time-based decay after N candles *)
  let '(conf, reasons) :=
    if (decay_after_candles <? candles_held)%Z
    then (conf - 5, reasons ++ ["TIME_DECAY"%string])
    else (conf, reasons) in
  (* Optional boost: strong continuation candle *)
  let '(conf, reasons) :=
    match candle_body_pct with
    | Some b =>
        if Py.ge b 60 then (conf + 5, reasons ++ ["CONTINUATION"%string])
        else (conf, reasons)
    | None => (conf, reasons)
    end in
  let conf := Py.max 0 (Py.min 100 conf) in
  (conf, match reasons with
         | [] => "NO_CHANGE"%string
         | _ => Py.join "+" reasons
         end).

(** *** The runtime update as the specification lists it *)

(** WEAK_BODY: the body percentage is known and below 30. *)
Definition weak_body (candle_body_pct : option Q) : bool :=
  match candle_body_pct with Some b => Py.lt b 30 | None => false end.

(** MACD_SHRINK: both histograms are known and the magnitude of the current
    one is below that of the previous one. *)
Definition macd_shrink (macd_histogram prev_macd_histogram : option Q) : bool :=
  match macd_histogram, prev_macd_histogram with
  | Some m, Some pm => Py.lt (Qabs m) (Qabs pm)
  | _, _ => false
  end.

(** TIME_DECAY: the position is held for more candles than the window. *)
Definition time_decay (candles_held decay_after_candles : Z) : bool :=
  (candles_held >? decay_after_candles)%Z.

(** CONTINUATION: the body percentage is known and at least 60. *)
Definition continuation (candle_body_pct : option Q) : bool :=
  match candle_body_pct with Some b => Py.ge b 60 | None => false end.

(** An adjustment: whether it applies, what it adds, and its tag. *)
Record rule : Type := mkRule {
  applies : bool;
  delta : Q;
  tag : string
}.

(** The four adjustments in their fixed order. *)
Definition rules (candle_body_pct macd_histogram prev_macd_histogram : option Q)
    (candles_held decay_after_candles : Z) : list rule :=
  [ mkRule (weak_body candle_body_pct) (-10) "WEAK_BODY";
    mkRule (macd_shrink macd_histogram prev_macd_histogram) (-10) "MACD_SHRINK";
    mkRule (time_decay candles_held decay_after_candles) (-5) "TIME_DECAY";
    mkRule (continuation candle_body_pct) 5 "CONTINUATION" ].

(** Every applicable adjustment added to the confidence, one after the
    other. *)
Definition apply_rules (conf : Q) (rs : list rule) : Q :=
  fold_left (fun c r => if applies r then c + delta r else c) rs conf.

(** The tags of the applicable adjustments, in order. *)
Definition tags (rs : list rule) : list string :=
  map tag (filter applies rs).

(** The tags joined by "+", "NO_CHANGE" when there is none. *)
Definition reason_string (ts : list string) : string :=
  match ts with
  | [] => "NO_CHANGE"%string
  | _ => Py.join "+" ts
  end.

(** A value brought into [0, 100]. *)
Definition clamp_0_100 (x : Q) : Q :=
  if Py.le x 0 then 0 else if Py.ge x 100 then 100 else x.

End Confidence.

(** ** entry_logic_v2.py *)

Module Entry.

Local Open Scope Q_scope.

Inductive EntryDirection : Type :=
| BULLISH
| BEARISH.

Record EntryDecision : Type := mkEntryDecision {
  should_enter : bool;
  direction : option EntryDirection;
  reason : string
}.

Definition MACD_HIST_MIN : Q := 0.5.
Definition DEFAULT_MIN_ENTRY_CONFIDENCE : Q := 65.

Definition check_entry (market_regime_is_trending : bool)
    (st_direction : Z) (prev_st_direction : option Z)
    (supertrend_value candle_close : Q) (macd_histogram : option Q)
    (entry_confidence min_entry_confidence : Q) : EntryDecision :=
  if negb market_regime_is_trending then
    mkEntryDecision false None "SIDEWAYS_REGIME"
  else
  match prev_st_direction with
  | None => mkEntryDecision false None "NO_PREV_ST"
  | Some prev =>
  if (st_direction =? prev)%Z then
    mkEntryDecision false None "NO_ST_FLIP"
  else
  (* Determine flip direction *)
  let flip :=
    if (prev =? -1)%Z && (st_direction =? 1)%Z then Some BULLISH
    else if (prev =? 1)%Z && (st_direction =? -1)%Z then Some BEARISH
    else None in
  match flip with
  | None => mkEntryDecision false None "INVALID_ST_FLIP"
  | Some dir =>
  (* Price confirmation vs SuperTrend line *)
  if match dir with BULLISH => negb (Py.gt candle_close supertrend_value)
                  | BEARISH => false end then
    mkEntryDecision false None "PRICE_NOT_ABOVE_ST"
  else
  if match dir with BEARISH => negb (Py.lt candle_close supertrend_value)
                  | BULLISH => false end then
    mkEntryDecision false None "PRICE_NOT_BELOW_ST"
  else
  (* Momentum confirmation (MACD histogram) *)
  if match macd_histogram with
     | None => true
     | Some m => Py.lt (Qabs m) MACD_HIST_MIN
     end then
    mkEntryDecision false None "MACD_HIST_TOO_SMALL"
  else
  (* Confidence gate *)
  if Py.lt entry_confidence min_entry_confidence then
    mkEntryDecision false None "LOW_ENTRY_CONFIDENCE"
  else
    mkEntryDecision true (Some dir) "OK"
  end
  end.

(** *** The seven gates as the specification lists them *)

(** The inputs of one evaluation. *)
Record inputs : Type := mkInputs {
  market_regime_is_trending : bool;
  st_direction : Z;
  prev_st_direction : option Z;
  supertrend_value : Q;
  candle_close : Q;
  macd_histogram : option Q;
  entry_confidence : Q;
  min_entry_confidence : Q
}.

Definition check_entry_on (i : inputs) : EntryDecision :=
  check_entry (market_regime_is_trending i) (st_direction i)
    (prev_st_direction i) (supertrend_value i) (candle_close i)
    (macd_histogram i) (entry_confidence i) (min_entry_confidence i).

(** Gate 1: the regime is trending. *)
Definition gate_regime (i : inputs) : bool := market_regime_is_trending i.

(** Gate 2: the previous SuperTrend direction is known. *)
Definition gate_prev_known (i : inputs) : bool :=
  match prev_st_direction i with Some _ => true | None => false end.

(** Gate 3: the SuperTrend direction differs from the previous one. *)
Definition gate_flip (i : inputs) : bool :=
  match prev_st_direction i with
  | Some p => negb (st_direction i =? p)%Z
  | None => true
  end.

(** The direction of a valid flip: -1 to 1 is bullish, 1 to -1 bearish. *)
Definition flip_direction (i : inputs) : option EntryDirection :=
  match prev_st_direction i, st_direction i with
  | Some (-1)%Z, 1%Z => Some BULLISH
  | Some 1%Z, (-1)%Z => Some BEARISH
  | _, _ => None
  end.

(** Gate 4: the flip is one of the two valid transitions. *)
Definition gate_valid_flip (i : inputs) : bool :=
  match flip_direction i with Some _ => true | None => false end.

(** Gate 5: the close is strictly above the line for a bullish flip,
    strictly below it for a bearish one. *)
Definition gate_price (i : inputs) : bool :=
  match flip_direction i with
  | Some BULLISH => Py.gt (candle_close i) (supertrend_value i)
  | Some BEARISH => Py.lt (candle_close i) (supertrend_value i)
  | None => false
  end.

(** Gate 6: the histogram is present and its magnitude is at least 0.5. *)
Definition gate_macd (i : inputs) : bool :=
  match macd_histogram i with
  | Some m => Py.ge (Qabs m) 0.5
  | None => false
  end.

(** Gate 7: the entry confidence is at least the minimum. *)
Definition gate_confidence (i : inputs) : bool :=
  Py.ge (entry_confidence i) (min_entry_confidence i).

(** The reason code of gate 5 depends on the direction of the flip. *)
Definition price_reason (i : inputs) : string :=
  match flip_direction i with
  | Some BEARISH => "PRICE_NOT_BELOW_ST"
  | _ => "PRICE_NOT_ABOVE_ST"
  end.

(** The gates in the listed order, each with its reason code. *)
Definition gates (i : inputs) : list (bool * string) :=
  [ (gate_regime i, "SIDEWAYS_REGIME"%string);
    (gate_prev_known i, "NO_PREV_ST"%string);
    (gate_flip i, "NO_ST_FLIP"%string);
    (gate_valid_flip i, "INVALID_ST_FLIP"%string);
    (gate_price i, price_reason i);
    (gate_macd i, "MACD_HIST_TOO_SMALL"%string);
    (gate_confidence i, "LOW_ENTRY_CONFIDENCE"%string) ].

(** The reason code of the first gate that fails, if one does. *)
Fixpoint first_failing (gs : list (bool * string)) : option string :=
  match gs with
  | [] => None
  | (true, _) :: rest => first_failing rest
  | (false, r) :: _ => Some r
  end.

Definition all_pass (gs : list (bool * string)) : bool :=
  forallb fst gs.

End Entry.

(** ** exit_logic_v2.py *)

Module Exit.

Local Open Scope Q_scope.

Inductive ExitReason : Type :=
| SL_HIT
| TSL_HIT
| CONFIDENCE_DROP
| ST_REVERSAL
| EOD_EXIT.

Record ExitSignal : Type := mkExitSignal {
  should_exit : bool;
  reason : option ExitReason
}.

(** A naive [datetime.time]. *)
Record time : Type := mkTime {
  hour : nat;
  minute : nat;
  second : nat;
  microsecond : nat
}.

(** The order of [datetime.time]: the four fields, lexicographically. *)
Definition time_compare (a b : time) : comparison :=
  match Nat.compare (hour a) (hour b) with
  | Eq =>
      match Nat.compare (minute a) (minute b) with
      | Eq =>
          match Nat.compare (second a) (second b) with
          | Eq => Nat.compare (microsecond a) (microsecond b)
          | c => c
          end
      | c => c
      end
  | c => c
  end.

(** [a >= b] on times. *)
Definition time_ge (a b : time) : bool :=
  match time_compare a b with
  | Lt => false
  | _ => true
  end.

Definition EOD_CUTOFF : time := mkTime 15 20 0 0.
Definition DEFAULT_MIN_RUNTIME_CONFIDENCE : Q := 40.

(** [(position_type or "").upper()]. *)
Definition position_upper (position_type : option string) : string :=
  Py.upper match position_type with Some s => s | None => ""%string end.

Definition check_exit (is_open_position : bool)
    (current_option_ltp : option Q) (hard_sl trailing_sl : option Q)
    (runtime_confidence min_runtime_confidence : Q)
    (st_direction prev_st_direction : option Z)
    (position_type : option string) (current_time_ist : time)
    (bypass_eod_exit : bool) : ExitSignal :=
  if negb is_open_position then mkExitSignal false None
  else
  let ltp := Py.or_zero current_option_ltp in
  (* 1) Hard stop loss *)
  if match hard_sl with
     | Some sl => Py.gt ltp 0 && Py.le ltp sl
     | None => false
     end then
    mkExitSignal true (Some SL_HIT)
  else
  (* 2) Trailing stop loss *)
  if match trailing_sl with
     | Some sl => Py.gt ltp 0 && Py.le ltp sl
     | None => false
     end then
    mkExitSignal true (Some TSL_HIT)
  else
  (* 3) Confidence-based exit *)
  if Py.le runtime_confidence min_runtime_confidence then
    mkExitSignal true (Some CONFIDENCE_DROP)
  else
  (* 4) SuperTrend reversal *)
  let reversal :=
    match st_direction, prev_st_direction with
    | Some st, Some prev =>
        if negb (st =? prev)%Z then
          let pt := position_upper position_type in
          if String.eqb pt "CE" && (prev =? 1)%Z && (st =? -1)%Z then true
          else if String.eqb pt "PE" && (prev =? -1)%Z && (st =? 1)%Z then true
          else false
        else false
    | _, _ => false
    end in
  if reversal then mkExitSignal true (Some ST_REVERSAL)
  else
  (* 5) Time-based safety exit *)
  if negb bypass_eod_exit && time_ge current_time_ist EOD_CUTOFF then
    mkExitSignal true (Some EOD_EXIT)
  else
    mkExitSignal false None.

(** *** The five exit conditions as the specification lists them *)

(** The inputs of one evaluation with an open position. *)
Record inputs : Type := mkInputs {
  current_option_ltp : option Q;
  hard_sl : option Q;
  trailing_sl : option Q;
  runtime_confidence : Q;
  min_runtime_confidence : Q;
  st_direction : option Z;
  prev_st_direction : option Z;
  position_type : option string;
  current_time_ist : time;
  bypass_eod_exit : bool
}.

Definition check_exit_on (is_open_position : bool) (i : inputs) : ExitSignal :=
  check_exit is_open_position (current_option_ltp i) (hard_sl i)
    (trailing_sl i) (runtime_confidence i) (min_runtime_confidence i)
    (st_direction i) (prev_st_direction i) (position_type i)
    (current_time_ist i) (bypass_eod_exit i).

(** The last traded price, [0] when it is absent. *)
Definition ltp_of (i : inputs) : Q :=
  match current_option_ltp i with Some v => v | None => 0 end.

(** 1. Hard stop loss: LTP <= hard_sl and LTP > 0. *)
Definition cond_hard_sl (i : inputs) : bool :=
  match hard_sl i with
  | Some sl => Py.le (ltp_of i) sl && Py.gt (ltp_of i) 0
  | None => false
  end.

(** 2. Trailing stop loss: LTP <= trailing_sl and LTP > 0. *)
Definition cond_trailing_sl (i : inputs) : bool :=
  match trailing_sl i with
  | Some sl => Py.le (ltp_of i) sl && Py.gt (ltp_of i) 0
  | None => false
  end.

(** 3. Runtime confidence <= minimum. *)
Definition cond_confidence (i : inputs) : bool :=
  Py.le (runtime_confidence i) (min_runtime_confidence i).

(** The position is a call (CE) or a put (PE) position. *)
Definition is_CE (i : inputs) : bool :=
  String.eqb (position_upper (position_type i)) "CE".
Definition is_PE (i : inputs) : bool :=
  String.eqb (position_upper (position_type i)) "PE".

(** 4. SuperTrend reversal against the position: CE with a flip 1 -> -1,
    PE with a flip -1 -> 1. *)
Definition cond_st_reversal (i : inputs) : bool :=
  match prev_st_direction i, st_direction i with
  | Some 1%Z, Some (-1)%Z => is_CE i
  | Some (-1)%Z, Some 1%Z => is_PE i
  | _, _ => false
  end.

(** 5. End of day: the time is 15:20 or later and the bypass is not set. *)
Definition cond_eod (i : inputs) : bool :=
  time_ge (current_time_ist i) EOD_CUTOFF && negb (bypass_eod_exit i).

(** The conditions in descending priority, each with its exit reason. *)
Definition conditions (i : inputs) : list (bool * ExitReason) :=
  [ (cond_hard_sl i, SL_HIT);
    (cond_trailing_sl i, TSL_HIT);
    (cond_confidence i, CONFIDENCE_DROP);
    (cond_st_reversal i, ST_REVERSAL);
    (cond_eod i, EOD_EXIT) ].

(** The reason of the first condition that holds, if one does. *)
Fixpoint first_match (cs : list (bool * ExitReason)) : option ExitReason :=
  match cs with
  | [] => None
  | (true, r) :: _ => Some r
  | (false, _) :: rest => first_match rest
  end.

(** The signal for the outcome of the priority list. *)
Definition signal_of (r : option ExitReason) : ExitSignal :=
  match r with
  | Some x => mkExitSignal true (Some x)
  | None => mkExitSignal false None
  end.

End Exit.

(** ** Notions used to state further properties of the five modules *)

Module Derived.

Local Open Scope Z_scope.

(** A call that, made on a manager built with [cooldown_candles = n], is not
    an activation with a duration of zero or less. *)
Definition positive_activation (n : Z) (c : Cooldown.call) : Prop :=
  match c with
  | Cooldown.Activate _ (Some d) => 0 < d
  | Cooldown.Activate _ None => 0 < n
  | _ => True
  end.

(** A call that is not an activation with a duration of its own. *)
Definition default_activation (c : Cooldown.call) : Prop :=
  match c with
  | Cooldown.Activate _ (Some _) => False
  | _ => True
  end.

(** The other direction. *)
Definition mirror_direction (d : Entry.EntryDirection) : Entry.EntryDirection :=
  match d with
  | Entry.BULLISH => Entry.BEARISH
  | Entry.BEARISH => Entry.BULLISH
  end.

(** The reason code for the other direction: the two codes of the price
    confirmation change places, the others stay. *)
Definition mirror_reason (r : string) : string :=
  if String.eqb r "PRICE_NOT_ABOVE_ST" then "PRICE_NOT_BELOW_ST"
  else if String.eqb r "PRICE_NOT_BELOW_ST" then "PRICE_NOT_ABOVE_ST"
  else r.

(** A decision seen from the other direction. *)
Definition mirror_decision (d : Entry.EntryDecision) : Entry.EntryDecision :=
  Entry.mkEntryDecision (Entry.should_enter d)
    (option_map mirror_direction (Entry.direction d))
    (mirror_reason (Entry.reason d)).

End Derived.

(** ** The same functions on binary64 floats *)

(** Comparisons and built-ins of Python on floats that may be NaN or
    infinite.  Every comparison with a NaN is false. *)

Module Ieee.

Import PrimFloat.

(** [a < b], [a <= b], [a > b], [a >= b]. *)
Definition lt (a b : float) : bool := ltb a b.
Definition le (a b : float) : bool := leb a b.
Definition gt (a b : float) : bool := ltb b a.
Definition ge (a b : float) : bool := leb b a.

(** [min(a, b)] and [max(a, b)]: the first argument unless the second is
    strictly smaller, respectively larger. *)
Definition min (a b : float) : float := if lt b a then b else a.
Definition max (a b : float) : float := if gt b a then b else a.

(** Truthiness of an optional float: [None] and the two zeros are false, NaN
    is true. *)
Definition truthy (x : option float) : bool :=
  match x with
  | None => false
  | Some v => negb (eqb v 0)
  end.

(** [len(xs)] as a float. *)
Definition len (xs : list float) : float :=
  of_uint63 (Uint63.of_Z (Z.of_nat (List.length xs))).

(** [sum(xs)]: from the integer 0, left to right. *)
Definition sum (xs : list float) : float := fold_left add xs 0%float.

End Ieee.

(** [entry_logic_v2.py] on floats. *)

Module EntryIeee.

Import PrimFloat.

Definition MACD_HIST_MIN : float := 0.5.
Definition DEFAULT_MIN_ENTRY_CONFIDENCE : float := 65.

Definition check_entry (market_regime_is_trending : bool)
    (st_direction : Z) (prev_st_direction : option Z)
    (supertrend_value candle_close : float) (macd_histogram : option float)
    (entry_confidence min_entry_confidence : float) : Entry.EntryDecision :=
  if negb market_regime_is_trending then
    Entry.mkEntryDecision false None "SIDEWAYS_REGIME"
  else
  match prev_st_direction with
  | None => Entry.mkEntryDecision false None "NO_PREV_ST"
  | Some prev =>
  if (st_direction =? prev)%Z then
    Entry.mkEntryDecision false None "NO_ST_FLIP"
  else
  (* Determine flip direction *)
  let flip :=
    if ((prev =? -1)%Z && (st_direction =? 1)%Z)%bool then Some Entry.BULLISH
    else if ((prev =? 1)%Z && (st_direction =? -1)%Z)%bool then Some Entry.BEARISH
    else None in
  match flip with
  | None => Entry.mkEntryDecision false None "INVALID_ST_FLIP"
  | Some dir =>
  (* Price confirmation vs SuperTrend line *)
  if match dir with
     | Entry.BULLISH => negb (Ieee.gt candle_close supertrend_value)
     | Entry.BEARISH => false
     end then
    Entry.mkEntryDecision false None "PRICE_NOT_ABOVE_ST"
  else
  if match dir with
     | Entry.BEARISH => negb (Ieee.lt candle_close supertrend_value)
     | Entry.BULLISH => false
     end then
    Entry.mkEntryDecision false None "PRICE_NOT_BELOW_ST"
  else
  (* Momentum confirmation (MACD histogram) *)
  if match macd_histogram with
     | None => true
     | Some m => Ieee.lt (abs m) MACD_HIST_MIN
     end then
    Entry.mkEntryDecision false None "MACD_HIST_TOO_SMALL"
  else
  (* Confidence gate *)
  if Ieee.lt entry_confidence min_entry_confidence then
    Entry.mkEntryDecision false None "LOW_ENTRY_CONFIDENCE"
  else
    Entry.mkEntryDecision true (Some dir) "OK"
  end
  end.

(** The flip of the SuperTrend direction is one of the two valid ones and the
    close is on the right side of the line: gates 2 to 5 of the
    specification. *)
Definition confirmed_flip (st_direction : Z) (prev_st_direction : option Z)
    (supertrend_value candle_close : float) (d : Entry.EntryDirection) : Prop :=
  match d with
  | Entry.BULLISH =>
      prev_st_direction = Some (-1)%Z /\ st_direction = 1%Z /\
      Ieee.gt candle_close supertrend_value = true
  | Entry.BEARISH =>
      prev_st_direction = Some 1%Z /\ st_direction = (-1)%Z /\
      Ieee.lt candle_close supertrend_value = true
  end.

End EntryIeee.

(** [market_regime_v2.py] on floats. *)

Module RegimeIeee.

Import PrimFloat.

Record RegimeInfo : Type := mkRegimeInfo {
  method : string;
  adx : option float;
  adx_threshold : float;
  st_distance_pct : option float;
  st_distance_threshold_pct : float
}.

Record MarketRegimeDetector : Type := mkDetector {
  self_use_adx : bool;
  self_adx_threshold : float;
  self_st_distance_sideways_threshold_pct : float
}.

Definition DEFAULT_ST_DISTANCE_SIDEWAYS_THRESHOLD_PCT : float := 0.15.
Definition DEFAULT_ADX_THRESHOLD : float := 20.

(** [MarketRegimeDetector(use_adx=.., adx_threshold=..,
    st_distance_sideways_threshold_pct=..)]; an omitted keyword is [None]. *)
Definition init (use_adx : option bool) (adx_threshold : option float)
    (st_distance_sideways_threshold_pct : option float) : MarketRegimeDetector :=
  {| self_use_adx := match use_adx with Some b => b | None => false end;
     self_adx_threshold :=
       match adx_threshold with Some t => t | None => DEFAULT_ADX_THRESHOLD end;
     self_st_distance_sideways_threshold_pct :=
       match st_distance_sideways_threshold_pct with
       | Some t => t
       | None => DEFAULT_ST_DISTANCE_SIDEWAYS_THRESHOLD_PCT
       end |}.

Definition distance_pct (current_price supertrend_value : option float)
    : option float :=
  match current_price, supertrend_value with
  | Some p, Some s =>
      if (Ieee.truthy current_price && Ieee.gt p 0)%bool
      then Some (abs (p - s) / p * 100)%float
      else None
  | _, _ => None
  end.

Definition detect (self : MarketRegimeDetector)
    (current_price supertrend_value adx : option float)
    : Regime.MarketRegime * RegimeInfo :=
  let st_distance_pct := distance_pct current_price supertrend_value in
  match self_use_adx self, adx with
  | true, Some a =>
      let regime :=
        if Ieee.lt a (self_adx_threshold self)
        then Regime.SIDEWAYS else Regime.TRENDING in
      (regime,
       {| method := "ADX";
          adx := Some a;
          adx_threshold := self_adx_threshold self;
          st_distance_pct := st_distance_pct;
          st_distance_threshold_pct :=
            self_st_distance_sideways_threshold_pct self |})
  | _, _ =>
      let regime :=
        match st_distance_pct with
        | None => Regime.SIDEWAYS
        | Some d =>
            if Ieee.lt d (self_st_distance_sideways_threshold_pct self)
            then Regime.SIDEWAYS else Regime.TRENDING
        end in
      (regime,
       {| method := "ST_DISTANCE";
          adx := adx;
          adx_threshold := self_adx_threshold self;
          st_distance_pct := st_distance_pct;
          st_distance_threshold_pct :=
            self_st_distance_sideways_threshold_pct self |})
  end.

End RegimeIeee.

(** [confidence_v2.py] on floats. *)

Module ConfidenceIeee.

Import PrimFloat.

(** [ConfidenceBreakdown], without its [notes]. *)
Record ConfidenceBreakdown : Type := mkBreakdown {
  total : float;
  st_strength : float;
  candle_body_strength : float;
  macd_momentum : float;
  volatility_expansion : float
}.

Definition MIN_ENTRY_CONFIDENCE : float := 65.

Definition _ST_STRONG_THRESHOLD_PCT : float := 0.25.
Definition _BODY_STRONG_THRESHOLD_PCT : float := 60.
Definition _VOL_EXPANSION_WINDOW : nat := 14.

Definition body_pct_of (candle_open candle_high candle_low candle_close : float)
    : float :=
  let candle_range := (candle_high - candle_low)%float in
  if Ieee.gt candle_range 0
  then (abs (candle_close - candle_open) / candle_range * 100)%float
  else 0%float.

Definition st_strength_of (supertrend_distance_pct : float) : float :=
  if Ieee.gt supertrend_distance_pct _ST_STRONG_THRESHOLD_PCT then 30 else 0.

Definition candle_body_strength_of (body_pct : float) : float :=
  if Ieee.ge body_pct _BODY_STRONG_THRESHOLD_PCT then 20 else 0.

Definition macd_momentum_of (macd_histogram : option float) : float :=
  match macd_histogram with
  | None => 0
  | Some m =>
      let h := abs m in
      if Ieee.ge h 1.5 then 30
      else if Ieee.ge h 1 then 25
      else if Ieee.ge h 0.75 then 20
      else if Ieee.ge h 0.5 then 15
      else 0
  end.

Definition volatility_expansion_of (candle_range : float)
    (recent_ranges : option (list float)) : float :=
  if Ieee.gt candle_range 0 then
    let ranges := match recent_ranges with Some l => l | None => [] end in
    if (3 <=? List.length ranges)%nat then
      let window := Py.last_n _VOL_EXPANSION_WINDOW ranges in
      let avg_range :=
        match window with
        | [] => 0%float
        | _ => (Ieee.sum window / Ieee.len window)%float
        end in
      if (Ieee.gt avg_range 0 && Ieee.gt candle_range avg_range)%bool
      then 20 else 0
    else 0
  else 0.

Definition calculate_entry_confidence
    (supertrend_distance_pct candle_open candle_high candle_low candle_close : float)
    (macd_histogram : option float) (recent_ranges : option (list float))
    : ConfidenceBreakdown :=
  let st_strength := st_strength_of supertrend_distance_pct in
  let candle_range := (candle_high - candle_low)%float in
  let body_pct := body_pct_of candle_open candle_high candle_low candle_close in
  let candle_body_strength := candle_body_strength_of body_pct in
  let macd_momentum := macd_momentum_of macd_histogram in
  let volatility_expansion := volatility_expansion_of candle_range recent_ranges in
  let total :=
    (st_strength + candle_body_strength + macd_momentum + volatility_expansion)%float in
  let total := Ieee.max 0 (Ieee.min 100 total) in
  {| total := total;
     st_strength := st_strength;
     candle_body_strength := candle_body_strength;
     macd_momentum := macd_momentum;
     volatility_expansion := volatility_expansion |}.

Definition calculate_runtime_confidence (previous_confidence : float)
    (candle_body_pct macd_histogram prev_macd_histogram : option float)
    (candles_held decay_after_candles : Z) : float * string :=
  let conf := previous_confidence in
  let reasons : list string := [] in
  (* Decay: weak candle body *)
  let '(conf, reasons) :=
    match candle_body_pct with
    | Some b =>
        if Ieee.lt b 30 then ((conf - 10)%float, reasons ++ ["WEAK_BODY"%string])
        else (conf, reasons)
    | None => (conf, reasons)
    end in
  (* Decay: MACD histogram shrinking *)
  let '(conf, reasons) :=
    match macd_histogram, prev_macd_histogram with
    | Some m, Some pm =>
        if Ieee.lt (abs m) (abs pm)
        then ((conf - 10)%float, reasons ++ ["MACD_SHRINK"%string])
        else (conf, reasons)
    | _, _ => (conf, reasons)
    end in
  (* Time-based decay after N candles *)
  let '(conf, reasons) :=
    if (decay_after_candles <? candles_held)%Z
    then ((conf - 5)%float, reasons ++ ["TIME_DECAY"%string])
    else (conf, reasons) in
  (* Optional boost: strong continuation candle *)
  let '(conf, reasons) :=
    match candle_body_pct with
    | Some b =>
        if Ieee.ge b 60 then ((conf + 5)%float, reasons ++ ["CONTINUATION"%string])
        else (conf, reasons)
    | None => (conf, reasons)
    end in
  let conf := Ieee.max 0 (Ieee.min 100 conf) in
  (conf, match reasons with
         | [] => "NO_CHANGE"%string
         | _ => Py.join "+" reasons
         end).

End ConfidenceIeee.

(** * Properties *)

(** ** Facts on the comparisons and the clamp *)

Module PyFacts.

Local Open Scope Q_scope.

Import Py.

Lemma le_iff (a b : Q) : le a b = true <-> a <= b.
Proof. unfold le. apply Qle_bool_iff. Qed.

Lemma lt_iff (a b : Q) : lt a b = true <-> a < b.
Proof.
  unfold lt. rewrite negb_true_iff.
  split.
  - intros H. apply Qnot_le_lt. intros Hle.
    apply Qle_bool_iff in Hle. congruence.
  - intros H. destruct (Qle_bool b a) eqn:E; [|reflexivity].
    apply Qle_bool_iff in E. exfalso. exact (Qlt_not_le _ _ H E).
Qed.

Lemma lt_false_iff (a b : Q) : lt a b = false <-> b <= a.
Proof.
  unfold lt. rewrite negb_false_iff. apply Qle_bool_iff.
Qed.

Lemma le_false_iff (a b : Q) : le a b = false <-> b < a.
Proof.
  rewrite <- lt_iff. unfold lt, le. destruct (Qle_bool a b); simpl; intuition congruence.
Qed.

Lemma ge_iff (a b : Q) : ge a b = true <-> b <= a.
Proof. unfold ge. apply le_iff. Qed.

Lemma gt_iff (a b : Q) : gt a b = true <-> b < a.
Proof. unfold gt. apply lt_iff. Qed.

(** [float(x or 0.0)] has the value of [x], and 0 when [x] is absent. *)
Lemma or_zero_value (x : option Q) :
  or_zero x == match x with Some v => v | None => 0 end.
Proof.
  destruct x as [v|]; simpl; [|reflexivity].
  destruct (Qeq_bool v 0) eqn:E; simpl; [|reflexivity].
  apply Qeq_bool_iff in E. symmetry. exact E.
Qed.

Lemma le_compat (a a' b b' : Q) : a == a' -> b == b' -> le a b = le a' b'.
Proof. intros Ha Hb. unfold le. rewrite Ha, Hb. reflexivity. Qed.

Lemma lt_compat (a a' b b' : Q) : a == a' -> b == b' -> lt a b = lt a' b'.
Proof. intros Ha Hb. unfold lt. rewrite Ha, Hb. reflexivity. Qed.

End PyFacts.

(** ** CooldownManager *)

Module CooldownFacts.

Import Cooldown.
Local Open Scope Z_scope.

Lemma advance_pos (m : CooldownManager) :
  1 < _remaining m ->
  advance m = {| cooldown_duration := cooldown_duration m;
                 _remaining := _remaining m - 1;
                 _reason := _reason m |}.
Proof.
  intros H. unfold advance.
  destruct (0 <? _remaining m) eqn:E1; [|apply Z.ltb_ge in E1; lia].
  destruct (_remaining m - 1 <=? 0) eqn:E2; [apply Z.leb_le in E2; lia|].
  reflexivity.
Qed.

Lemma advance_last (m : CooldownManager) :
  _remaining m = 1 ->
  advance m = {| cooldown_duration := cooldown_duration m;
                 _remaining := 0;
                 _reason := None |}.
Proof.
  intros H. unfold advance. rewrite H. reflexivity.
Qed.

Lemma advance_n_succ (k : nat) (m : CooldownManager) :
  advance_n (S k) m = advance (advance_n k m).
Proof.
  revert m. induction k as [|k IH]; intros m; [reflexivity|].
  change (advance_n (S (S k)) m) with (advance_n (S k) (advance m)).
  rewrite IH. reflexivity.
Qed.

(** While fewer calls were made than candles remained, the counter has gone
    down by the number of calls and the reason is the one given. *)
Lemma advance_n_before (k : nat) (m : CooldownManager) :
  Z.of_nat k < _remaining m ->
  advance_n k m = {| cooldown_duration := cooldown_duration m;
                     _remaining := _remaining m - Z.of_nat k;
                     _reason := _reason m |}.
Proof.
  induction k as [|k IH]; intros H.
  - simpl. rewrite Z.sub_0_r. destruct m; reflexivity.
  - rewrite advance_n_succ, IH by lia.
    rewrite advance_pos by (simpl; lia). simpl.
    f_equal. lia.
Qed.

(** The call that uses up the last candle leaves the manager idle. *)
Lemma advance_n_exact (k : nat) (m : CooldownManager) :
  0 < _remaining m -> Z.of_nat k = _remaining m ->
  advance_n k m = {| cooldown_duration := cooldown_duration m;
                     _remaining := 0;
                     _reason := None |}.
Proof.
  intros Hpos Hk. destruct k as [|k]; [simpl in Hk; lia|].
  rewrite advance_n_succ, advance_n_before by lia.
  rewrite advance_last by (simpl; lia). reflexivity.
Qed.

(** The counter is never negative, whatever calls are made. *)
Lemma step_remaining_nonneg (m : CooldownManager) (c : call) :
  0 <= _remaining m -> 0 <= _remaining (step m c).
Proof.
  intros H. destruct c as [|r d|]; simpl; [lia|lia|].
  unfold advance.
  destruct (0 <? _remaining m) eqn:E1; [|exact H].
  destruct (_remaining m - 1 <=? 0) eqn:E2; simpl; [lia|].
  apply Z.leb_gt in E2. lia.
Qed.

Lemma reachable_remaining_nonneg (n : Z) (m : CooldownManager) :
  reachable n m -> 0 <= candles_remaining (get_state m).
Proof.
  induction 1 as [|m c _ IH]; simpl in *; [lia|].
  apply step_remaining_nonneg. exact IH.
Qed.

(** [reset] and [advance] keep the reason cleared at zero; so does [activate]
    when it counts down from a positive duration. *)
Lemma reset_cleared (m : CooldownManager) : cleared_at_zero (reset m).
Proof. intros _. reflexivity. Qed.

Lemma advance_cleared (m : CooldownManager) :
  cleared_at_zero m -> cleared_at_zero (advance m).
Proof.
  unfold cleared_at_zero, advance. intros H.
  destruct (0 <? _remaining m) eqn:E1; [|exact H].
  destruct (_remaining m - 1 <=? 0) eqn:E2; simpl; [reflexivity|].
  apply Z.leb_gt in E2. lia.
Qed.

Lemma activate_cleared (m : CooldownManager) (r : CooldownReason) (d : option Z) :
  0 < duration_of m d -> cleared_at_zero (activate m r d).
Proof.
  unfold cleared_at_zero, activate, duration_of. simpl. intros H. lia.
Qed.

(** What the manager keeps: the counter is never negative, and as long as
    every activation counts down from a positive duration, a counter at zero
    comes with a cleared reason. *)
Lemma run_positive_cleared (cs : list call) (m : CooldownManager) :
  0 <= _remaining m -> cleared_at_zero m ->
  Forall (fun c => match c with
                   | Activate _ (Some d) => 0 < d
                   | Activate _ None => 0 < cooldown_duration m
                   | _ => True
                   end) cs ->
  0 <= _remaining (run m cs) /\ cleared_at_zero (run m cs).
Proof.
  revert m. induction cs as [|c cs IH]; intros m Hn Hc Hall; [split; assumption|].
  inversion Hall as [|c' cs' Hhd Htl]; subst.
  change (run m (c :: cs)) with (run (step m c) cs).
  assert (Hd : cooldown_duration (step m c) = cooldown_duration m).
  { destruct c; simpl; try reflexivity. unfold advance.
    destruct (0 <? _remaining m); [|reflexivity].
    destruct (_remaining m - 1 <=? 0); reflexivity. }
  apply IH.
  - apply step_remaining_nonneg. exact Hn.
  - destruct c as [|r d|]; simpl.
    + apply reset_cleared.
    + apply activate_cleared. destruct d; exact Hhd.
    + apply advance_cleared. exact Hc.
  - rewrite Hd. exact Htl.
Qed.

(** C3: a manager built with the default duration and activated with a
    duration of 0 is in a reachable state whose counter is zero and whose
    reason is still EXIT, not cleared. *)
Theorem cooldown_zero_duration_keeps_reason :
  reachable 3 (activate init_default EXIT (Some 0)) /\
  get_state (activate init_default EXIT (Some 0)) =
    {| active := false; candles_remaining := 0; reason := Some EXIT |} /\
  ~ (forall n m, reachable n m ->
       0 <= candles_remaining (get_state m) /\
       (candles_remaining (get_state m) = 0 -> reason (get_state m) = None)).
Proof.
  assert (R : reachable 3 (activate init_default EXIT (Some 0))).
  { exact (reach_step 3 (init 3) (Activate EXIT (Some 0)) (reach_init 3)). }
  split; [exact R|]. split; [reflexivity|].
  intros H. destruct (H _ _ R) as [_ H0].
  specialize (H0 eq_refl). discriminate H0.
Qed.

(** C8: after [activate] with a duration [n >= 1] the manager is in
    ACTIVE(n); [advance] called exactly [n] times brings it to INACTIVE;
    after [k < n] calls it is in ACTIVE(n - k) and [can_enter] is false;
    [can_enter] is true exactly when the counter is at most 0; [activate]
    sets the counter to [max(0, duration)]; [reset] brings any state to
    INACTIVE. *)
Theorem cooldown_activate_advance (m : CooldownManager) (r : CooldownReason)
    (d : option Z) :
  1 <= duration_of m d ->
  let n := duration_of m d in
  let a := activate m r d in
  is_active_with n a /\
  inactive (advance_n (Z.to_nat n) a) /\
  can_enter (advance_n (Z.to_nat n) a) = true /\
  (forall k : nat, (k < Z.to_nat n)%nat ->
     is_active_with (n - Z.of_nat k) (advance_n k a) /\
     reason (get_state (advance_n k a)) = Some r /\
     can_enter (advance_n k a) = false) /\
  (forall m' : CooldownManager, can_enter m' = true <-> _remaining m' <= 0) /\
  (forall m' r' d', _remaining (activate m' r' d') = Z.max 0 (duration_of m' d')) /\
  (forall m' : CooldownManager, inactive (reset m')).
Proof.
  intros Hn n a.
  assert (Hn' : 1 <= n) by exact Hn.
  assert (Ha : _remaining a = n).
  { unfold a, activate, n, duration_of in *. simpl. destruct d; lia. }
  assert (Hr : _reason a = Some r) by reflexivity.
  clearbody a n.
  assert (Hexact : advance_n (Z.to_nat n) a =
                   {| cooldown_duration := cooldown_duration a;
                      _remaining := 0; _reason := None |}).
  { apply advance_n_exact; rewrite Ha; lia. }
  assert (Hbefore : forall k : nat, (k < Z.to_nat n)%nat ->
            advance_n k a = {| cooldown_duration := cooldown_duration a;
                               _remaining := n - Z.of_nat k;
                               _reason := Some r |}).
  { intros k Hk. rewrite advance_n_before by (rewrite Ha; lia).
    rewrite Ha, Hr. reflexivity. }
  split; [|split; [|split; [|split; [|split; [|split]]]]].
  - split; unfold get_state; simpl; [apply Z.ltb_lt; lia|exact Ha].
  - unfold inactive. rewrite Hexact. reflexivity.
  - rewrite Hexact. reflexivity.
  - intros k Hk. rewrite (Hbefore k Hk).
    split; [split|split]; unfold get_state, can_enter; simpl.
    + apply Z.ltb_lt. lia.
    + reflexivity.
    + reflexivity.
    + apply Z.leb_gt. lia.
  - intros m'. unfold can_enter. apply Z.leb_le.
  - intros m' r' d'. reflexivity.
  - intros m'. reflexivity.
Qed.

(** The default manager, activated without an argument, counts down from 3:
    after three calls of [advance] it is INACTIVE, after two it still refuses
    entries. *)
Lemma cooldown_activate_advance_witness :
  1 <= duration_of init_default None /\
  inactive (advance_n 3 (activate init_default EXIT None)) /\
  can_enter (advance_n 2 (activate init_default EXIT None)) = false.
Proof.
  assert (H : 1 <= duration_of init_default None) by (vm_compute; discriminate).
  split; [exact H|].
  pose proof (cooldown_activate_advance init_default EXIT None H) as T.
  cbv zeta in T.
  destruct T as [_ [T1 [_ [T2 _]]]].
  split; [exact T1|].
  destruct (T2 2%nat) as [_ [_ T3]]; [vm_compute; repeat constructor|exact T3].
Defined.

End CooldownFacts.

(** ** MarketRegimeDetector *)

Module RegimeFacts.

Import Regime.
Local Open Scope Q_scope.

(** The distance is computed exactly when price and line are given and the
    price is positive, and then it is |price - line| / price * 100. *)
Lemma distance_pct_some (price st : option Q) (d : Q) :
  distance_pct price st = Some d <->
  exists p s, price = Some p /\ st = Some s /\ 0 < p /\
              d = Qabs (p - s) / p * 100.
Proof.
  unfold distance_pct. split.
  - destruct price as [p|]; [|discriminate].
    destruct st as [s|]; [|discriminate].
    destruct (Py.truthy (Some p) && Py.gt p 0)%bool eqn:E; [|discriminate].
    intros H. injection H as <-.
    apply andb_true_iff in E. destruct E as [_ E].
    apply PyFacts.gt_iff in E.
    exists p, s. repeat split. exact E.
  - intros (p & s & -> & -> & Hp & ->).
    assert (E1 : Py.gt p 0 = true) by (apply PyFacts.gt_iff; exact Hp).
    assert (E2 : Py.truthy (Some p) = true).
    { simpl. destruct (Qeq_bool p 0) eqn:E; [|reflexivity].
      apply Qeq_bool_iff in E. rewrite E in Hp.
      exfalso. exact (Qlt_irrefl 0 Hp). }
    rewrite E1, E2. reflexivity.
Qed.

(** Without a price, or with a price that is not positive, there is no
    distance. *)
Lemma distance_pct_none (price st : option Q) :
  price = None \/ (exists p, price = Some p /\ p <= 0) ->
  distance_pct price st = None.
Proof.
  intros [->|(p & -> & Hp)]; [reflexivity|].
  unfold distance_pct. destruct st as [s|]; [|reflexivity].
  assert (E : Py.gt p 0 = false) by (apply PyFacts.lt_false_iff; exact Hp).
  rewrite E, andb_false_r. reflexivity.
Qed.

(** The regime of the distance method. *)
Lemma distance_regime (thr : Q) (price st : option Q) :
  let regime :=
    match distance_pct price st with
    | None => SIDEWAYS
    | Some d => if Py.lt d thr then SIDEWAYS else TRENDING
    end in
  (regime = TRENDING <->
     exists p s, price = Some p /\ st = Some s /\ 0 < p /\
                 thr <= Qabs (p - s) / p * 100) /\
  (price = None \/ (exists p, price = Some p /\ p <= 0) -> regime = SIDEWAYS).
Proof.
  cbv zeta. split.
  - destruct (distance_pct price st) as [d|] eqn:Ed.
    + apply distance_pct_some in Ed.
      destruct Ed as (p & s & Hp & Hs & Hpos & Hd). subst price st d.
      destruct (Py.lt (Qabs (p - s) / p * 100) thr) eqn:E.
      * apply PyFacts.lt_iff in E. split; [discriminate|].
        intros (p' & s' & Hp' & Hs' & _ & Hge). exfalso.
        injection Hp' as Hp'. injection Hs' as Hs'. subst p' s'.
        exact (Qlt_not_le _ _ E Hge).
      * apply PyFacts.lt_false_iff in E. split; [|reflexivity].
        intros _. exists p, s. auto.
    + split; [discriminate|].
      intros (p & s & Hp & Hs & Hpos & _). exfalso.
      assert (H : distance_pct price st = Some (Qabs (p - s) / p * 100)).
      { apply distance_pct_some. exists p, s. auto. }
      congruence.
  - intros H. rewrite (distance_pct_none price st H). reflexivity.
Qed.

(** On rationals: [detect] uses the ADX method exactly when the detector has
    the ADX flag and an adx value is given, and then the regime is TRENDING iff
    adx >= adx_threshold; in every other case it uses the distance method, and
    the regime is TRENDING iff the distance |price - line| / price * 100 can be
    computed and is >= the sideways threshold; it is SIDEWAYS whenever the
    price is absent or not positive.  The thresholds default to 20 and 0.15,
    the flag to off. *)
Theorem detect_method_and_regime (self : MarketRegimeDetector)
    (current_price supertrend_value adx : option Q) :
  let regime := fst (detect self current_price supertrend_value adx) in
  let info := snd (detect self current_price supertrend_value adx) in
  let adx_used := self_use_adx self = true /\ adx <> None in
  (adx_used -> method info = "ADX"%string) /\
  (~ adx_used -> method info = "ST_DISTANCE"%string) /\
  (adx_used ->
     forall a, adx = Some a ->
       (regime = TRENDING <-> self_adx_threshold self <= a) /\
       (regime = SIDEWAYS <-> a < self_adx_threshold self)) /\
  (~ adx_used ->
     (regime = TRENDING <->
        exists p s, current_price = Some p /\ supertrend_value = Some s /\
                    0 < p /\
                    self_st_distance_sideways_threshold_pct self
                      <= Qabs (p - s) / p * 100) /\
     (current_price = None \/ (exists p, current_price = Some p /\ p <= 0) ->
        regime = SIDEWAYS)) /\
  st_distance_pct info = distance_pct current_price supertrend_value /\
  init None None None =
    {| self_use_adx := false;
       self_adx_threshold := 20;
       self_st_distance_sideways_threshold_pct := 0.15 |}.
Proof.
  cbv zeta.
  pose proof (distance_regime (self_st_distance_sideways_threshold_pct self)
                current_price supertrend_value) as D.
  cbv zeta in D.
  unfold detect.
  destruct (self_use_adx self) eqn:Eu; destruct adx as [a|]; simpl;
    try (split; [intros [H1 H2]; congruence|];
         split; [reflexivity|];
         split; [intros [H1 H2]; congruence|];
         split; [intros _; exact D|];
         split; reflexivity).
  (* ADX method *)
  split; [reflexivity|].
  split; [intros H; exfalso; apply H; split; congruence|].
  split; [|split; [intros H; exfalso; apply H; split; congruence|split; reflexivity]].
  intros _ a' Ha'. injection Ha' as Ha'. subst a'.
  destruct (Py.lt a (self_adx_threshold self)) eqn:E; simpl.
  - apply PyFacts.lt_iff in E. split; split; try discriminate; try reflexivity.
    + intros H. exfalso. exact (Qlt_not_le _ _ E H).
    + intros _. exact E.
  - apply PyFacts.lt_false_iff in E. split; split; try discriminate; try reflexivity.
    + intros _. exact E.
    + intros H. exfalso. exact (Qlt_not_le _ _ H E).
Qed.

(** The two scenarios of the fallback: price 100 with the line at 99.8 is
    TRENDING under the defaults, with the line at 99.9 it is SIDEWAYS. *)
Example detect_fallback_scenarios :
  fst (detect (init None None None) (Some 100) (Some 99.8) None) = TRENDING /\
  fst (detect (init None None None) (Some 100) (Some 99.9) None) = SIDEWAYS.
Proof. split; vm_compute; reflexivity. Qed.

End RegimeFacts.

(** ** ConfidenceCalculator *)

Module ConfidenceFacts.

Import Confidence.
Local Open Scope Q_scope.

(** The clamp of the source, [max(0.0, min(100.0, x))], is the clamp to
    [0, 100]. *)
Lemma clamp_python (x : Q) : Py.max 0 (Py.min 100 x) = clamp_0_100 x.
Proof.
  unfold Py.max, Py.min, clamp_0_100, Py.gt, Py.ge, Py.lt, Py.le.
  destruct (Qle_bool 100 x) eqn:E1; simpl.
  - destruct (Qle_bool x 0) eqn:E2; [|reflexivity].
    apply Qle_bool_iff in E1, E2. exfalso.
    assert (H : 100 <= 0) by (eapply Qle_trans; eassumption).
    revert H. apply Qlt_not_le. reflexivity.
  - destruct (Qle_bool x 0); reflexivity.
Qed.

Lemma clamp_0_100_bounds (x : Q) : 0 <= clamp_0_100 x /\ clamp_0_100 x <= 100.
Proof.
  unfold clamp_0_100.
  destruct (Py.le x 0) eqn:E1; [split; discriminate|].
  destruct (Py.ge x 100) eqn:E2; [split; discriminate|].
  apply PyFacts.le_false_iff in E1. apply PyFacts.le_false_iff in E2.
  split; apply Qlt_le_weak; assumption.
Qed.

(** The clamp never raises a value above a bound that is itself at least 0. *)
Lemma clamp_0_100_le (x p : Q) : 0 <= p -> x <= p -> clamp_0_100 x <= p.
Proof.
  intros Hp Hx. unfold clamp_0_100.
  destruct (Py.le x 0) eqn:E1; [exact Hp|].
  destruct (Py.ge x 100) eqn:E2; [|exact Hx].
  apply PyFacts.ge_iff in E2. eapply Qle_trans; eassumption.
Qed.

(** *** Entry confidence *)

Lemma st_strength_values (d : Q) :
  st_strength_of d = 0 \/ st_strength_of d = 30.
Proof. unfold st_strength_of. destruct (Py.gt _ _); auto. Qed.

Lemma candle_body_strength_values (b : Q) :
  candle_body_strength_of b = 0 \/ candle_body_strength_of b = 20.
Proof. unfold candle_body_strength_of. destruct (Py.ge _ _); auto. Qed.

Lemma macd_momentum_values (m : option Q) :
  macd_momentum_of m = 0 \/ macd_momentum_of m = 15 \/ macd_momentum_of m = 20 \/
  macd_momentum_of m = 25 \/ macd_momentum_of m = 30.
Proof.
  unfold macd_momentum_of. destruct m as [m|]; [|auto].
  cbv zeta.
  destruct (Py.ge (Qabs m) 1.5); [auto 6|].
  destruct (Py.ge (Qabs m) 1); [auto 6|].
  destruct (Py.ge (Qabs m) 0.75); [auto 6|].
  destruct (Py.ge (Qabs m) 0.5); auto 6.
Qed.

Lemma volatility_expansion_values (r : Q) (rs : option (list Q)) :
  volatility_expansion_of r rs = 0 \/ volatility_expansion_of r rs = 20.
Proof.
  unfold volatility_expansion_of.
  destruct (Py.gt r 0); [|auto].
  cbv zeta.
  destruct (3 <=? _)%nat; [|auto].
  destruct (_ && _)%bool; auto.
Qed.

(** The tiers of the MACD score follow the magnitude of the histogram. *)
Lemma macd_momentum_tiers (m : Q) :
  (1.5 <= Qabs m -> macd_momentum_of (Some m) = 30) /\
  (1 <= Qabs m -> Qabs m < 1.5 -> macd_momentum_of (Some m) = 25) /\
  (0.75 <= Qabs m -> Qabs m < 1 -> macd_momentum_of (Some m) = 20) /\
  (0.5 <= Qabs m -> Qabs m < 0.75 -> macd_momentum_of (Some m) = 15) /\
  (Qabs m < 0.5 -> macd_momentum_of (Some m) = 0).
Proof.
  assert (T : forall a b, a <= b -> Py.ge b a = true)
    by (intros a b H; apply PyFacts.ge_iff; exact H).
  assert (F : forall a b, b < a -> Py.ge b a = false)
    by (intros a b H; apply PyFacts.le_false_iff; exact H).
  assert (L1 : (0.5 : Q) < 0.75) by reflexivity.
  assert (L2 : (0.75 : Q) < 1) by reflexivity.
  assert (L3 : (1 : Q) < 1.5) by reflexivity.
  unfold macd_momentum_of. cbv zeta.
  repeat split.
  - intros H. rewrite (T _ _ H). reflexivity.
  - intros H1 H2. rewrite (F _ _ H2), (T _ _ H1). reflexivity.
  - intros H1 H2.
    rewrite (F 1.5 (Qabs m)) by (eapply Qlt_trans; eassumption).
    rewrite (F _ _ H2), (T _ _ H1). reflexivity.
  - intros H1 H2.
    assert (H3 : Qabs m < 1) by (eapply Qlt_trans; eassumption).
    rewrite (F 1.5 (Qabs m)) by (eapply Qlt_trans; eassumption).
    rewrite (F _ _ H3), (F _ _ H2), (T _ _ H1). reflexivity.
  - intros H.
    assert (H2 : Qabs m < 0.75) by (eapply Qlt_trans; eassumption).
    assert (H3 : Qabs m < 1) by (eapply Qlt_trans; eassumption).
    rewrite (F 1.5 (Qabs m)) by (eapply Qlt_trans; eassumption).
    rewrite (F _ _ H3), (F _ _ H2), (F _ _ H). reflexivity.
Qed.

(** C4: the total of the breakdown is in [0, 100] and is the sum of the four
    sub-scores, which the clamp leaves as it is; each sub-score is a value of
    its fixed set: st_strength 0 or 30, candle_body_strength 0 or 20,
    macd_momentum 0, 15, 20, 25 or 30, volatility_expansion 0 or 20. *)
Theorem entry_confidence_total_and_subscores
    (supertrend_distance_pct candle_open candle_high candle_low candle_close : Q)
    (macd_histogram : option Q) (recent_ranges : option (list Q)) :
  let b := calculate_entry_confidence supertrend_distance_pct candle_open
             candle_high candle_low candle_close macd_histogram recent_ranges in
  (0 <= total b /\ total b <= 100) /\
  total b = subscore_sum b /\
  Py.max 0 (Py.min 100 (subscore_sum b)) = subscore_sum b /\
  (st_strength b = 0 \/ st_strength b = 30) /\
  (candle_body_strength b = 0 \/ candle_body_strength b = 20) /\
  (macd_momentum b = 0 \/ macd_momentum b = 15 \/ macd_momentum b = 20 \/
   macd_momentum b = 25 \/ macd_momentum b = 30) /\
  (volatility_expansion b = 0 \/ volatility_expansion b = 20).
Proof.
  cbv zeta. unfold calculate_entry_confidence, subscore_sum. cbv zeta.
  cbn [total st_strength candle_body_strength macd_momentum volatility_expansion].
  pose proof (st_strength_values supertrend_distance_pct) as H1.
  pose proof (candle_body_strength_values
                (body_pct_of candle_open candle_high candle_low candle_close)) as H2.
  pose proof (macd_momentum_values macd_histogram) as H3.
  pose proof (volatility_expansion_values (candle_high - candle_low) recent_ranges) as H4.
  set (s1 := st_strength_of _) in *.
  set (s2 := candle_body_strength_of _) in *.
  set (s3 := macd_momentum_of _) in *.
  set (s4 := volatility_expansion_of _ _) in *.
  clearbody s1 s2 s3 s4.
  split; [|split; [|split]]; [| | |tauto].
  - destruct H1 as [-> | ->]; destruct H2 as [-> | ->];
      destruct H3 as [-> | [-> | [-> | [-> | ->]]]]; destruct H4 as [-> | ->];
      vm_compute; split; discriminate.
  - destruct H1 as [-> | ->]; destruct H2 as [-> | ->];
      destruct H3 as [-> | [-> | [-> | [-> | ->]]]]; destruct H4 as [-> | ->];
      vm_compute; reflexivity.
  - destruct H1 as [-> | ->]; destruct H2 as [-> | ->];
      destruct H3 as [-> | [-> | [-> | [-> | ->]]]]; destruct H4 as [-> | ->];
      vm_compute; reflexivity.
Qed.

(** The full score: a strong line, a full body, a histogram of 2 and a range
    above the average of three earlier ones give 30 + 20 + 30 + 20 = 100. *)
Example entry_confidence_full :
  calculate_entry_confidence 0.3 100 110 100 110 (Some 2) (Some [5; 5; 5]) =
    {| total := 100; st_strength := 30; candle_body_strength := 20;
       macd_momentum := 30; volatility_expansion := 20 |}.
Proof. vm_compute. reflexivity. Qed.

(** *** Runtime confidence *)

(** The update of the source is the four adjustments of the specification,
    applied in their order to the previous confidence, then the clamp; the
    reason is made of the tags of the adjustments that applied. *)
Lemma runtime_confidence_refines (previous_confidence : Q)
    (candle_body_pct macd_histogram prev_macd_histogram : option Q)
    (candles_held decay_after_candles : Z) :
  calculate_runtime_confidence previous_confidence candle_body_pct
    macd_histogram prev_macd_histogram candles_held decay_after_candles =
  let rs := rules candle_body_pct macd_histogram prev_macd_histogram
              candles_held decay_after_candles in
  (clamp_0_100 (apply_rules previous_confidence rs), reason_string (tags rs)).
Proof.
  cbv zeta.
  unfold calculate_runtime_confidence, rules, time_decay, weak_body,
    macd_shrink, continuation.
  rewrite Z.gtb_ltb.
  destruct (decay_after_candles <? candles_held)%Z;
    destruct candle_body_pct as [b|];
    destruct macd_histogram as [m|];
    destruct prev_macd_histogram as [pm|];
    try destruct (Py.lt b 30); try destruct (Py.ge b 60);
    try destruct (Py.lt (Qabs m) (Qabs pm));
    cbv beta iota zeta; rewrite clamp_python; reflexivity.
Qed.

(** An adjustment that is not the bonus takes away or leaves. *)
Lemma apply_rules_le (rs : list rule) (conf : Q) :
  Forall (fun r => applies r = true -> delta r <= 0) rs ->
  apply_rules conf rs <= conf.
Proof.
  unfold apply_rules. revert conf.
  induction rs as [|r rs IH]; intros conf H; [apply Qle_refl|].
  inversion H as [|r' rs' Hr Hrs]; subst. simpl.
  eapply Qle_trans; [apply IH; exact Hrs|].
  destruct (applies r); [|apply Qle_refl].
  specialize (Hr eq_refl).
  rewrite <- (Qplus_0_r conf) at 2.
  apply Qplus_le_compat; [apply Qle_refl|exact Hr].
Qed.

(** C5: the four adjustments are applied independently and cumulatively in
    the order WEAK_BODY (-10), MACD_SHRINK (-10), TIME_DECAY (-5),
    CONTINUATION (+5), each under its own condition; the result is clamped to
    [0, 100] and comes with the applied tags joined by "+", or "NO_CHANGE";
    previous = 45 with a weak body, a shrinking histogram, 11 candles held and
    a window of 10 gives (20, "WEAK_BODY+MACD_SHRINK+TIME_DECAY"). *)
Theorem runtime_confidence_adjustments (previous_confidence : Q)
    (candle_body_pct macd_histogram prev_macd_histogram : option Q)
    (candles_held decay_after_candles : Z) :
  let rs := rules candle_body_pct macd_histogram prev_macd_histogram
              candles_held decay_after_candles in
  calculate_runtime_confidence previous_confidence candle_body_pct
    macd_histogram prev_macd_histogram candles_held decay_after_candles =
    (clamp_0_100 (apply_rules previous_confidence rs), reason_string (tags rs)) /\
  map (fun r => (delta r, tag r)) rs =
    [ (-10, "WEAK_BODY"%string); (-10, "MACD_SHRINK"%string);
      (-5, "TIME_DECAY"%string); (5, "CONTINUATION"%string) ] /\
  (nth 0 (map applies rs) false = true <->
     exists b, candle_body_pct = Some b /\ b < 30) /\
  (nth 1 (map applies rs) false = true <->
     exists m pm, macd_histogram = Some m /\ prev_macd_histogram = Some pm /\
                  Qabs m < Qabs pm) /\
  (nth 2 (map applies rs) false = true <->
     (candles_held > decay_after_candles)%Z) /\
  (nth 3 (map applies rs) false = true <->
     exists b, candle_body_pct = Some b /\ 60 <= b) /\
  calculate_runtime_confidence 45 (Some 20) (Some 1) (Some 2) 11 10 =
    (20, "WEAK_BODY+MACD_SHRINK+TIME_DECAY"%string) /\
  calculate_runtime_confidence 45 (Some 50) None None 3 10 =
    (45, "NO_CHANGE"%string).
Proof.
  cbv zeta.
  split; [apply runtime_confidence_refines|].
  split; [reflexivity|].
  unfold rules. cbn [map nth applies].
  split; [|split; [|split; [|split; [|split]]]].
  - unfold weak_body. destruct candle_body_pct as [b|].
    + rewrite PyFacts.lt_iff. split.
      * intros H. exists b. auto.
      * intros (b' & Hb & H). injection Hb as Hb. subst b'. exact H.
    + split; [discriminate|]. intros (b' & Hb & _). discriminate.
  - unfold macd_shrink.
    destruct macd_histogram as [m|], prev_macd_histogram as [pm|];
      try (split; [discriminate|]; intros (m' & pm' & H1 & H2 & _); discriminate).
    rewrite PyFacts.lt_iff. split.
    + intros H. exists m, pm. auto.
    + intros (m' & pm' & H1 & H2 & H).
      injection H1 as H1. injection H2 as H2. subst m' pm'. exact H.
  - unfold time_decay. rewrite Z.gtb_ltb, Z.ltb_lt. lia.
  - unfold continuation. destruct candle_body_pct as [b|].
    + rewrite PyFacts.ge_iff. split.
      * intros H. exists b. auto.
      * intros (b' & Hb & H). injection Hb as Hb. subst b'. exact H.
    + split; [discriminate|]. intros (b' & Hb & _). discriminate.
  - vm_compute. reflexivity.
  - vm_compute. reflexivity.
Qed.

(** C6: when the CONTINUATION bonus does not apply (the body percentage is
    absent or below 60) and the previous confidence is in [0, 100], the new
    confidence is at most the previous one; and whatever the inputs, the new
    confidence is in [0, 100]. *)
Theorem runtime_confidence_non_increasing (previous_confidence : Q)
    (candle_body_pct macd_histogram prev_macd_histogram : option Q)
    (candles_held decay_after_candles : Z) :
  0 <= previous_confidence <= 100 ->
  (candle_body_pct = None \/ exists b, candle_body_pct = Some b /\ b < 60) ->
  fst (calculate_runtime_confidence previous_confidence candle_body_pct
         macd_histogram prev_macd_histogram candles_held decay_after_candles)
    <= previous_confidence /\
  (forall (p : Q) (b m pm : option Q) (h d : Z),
     0 <= fst (calculate_runtime_confidence p b m pm h d) <= 100).
Proof.
  intros [Hlo Hhi] Hb. split.
  - rewrite runtime_confidence_refines. cbv zeta. cbn [fst].
    apply clamp_0_100_le; [exact Hlo|].
    apply apply_rules_le. unfold rules.
    assert (Hc : continuation candle_body_pct = false).
    { destruct Hb as [->|(b & -> & Hb)]; [reflexivity|].
      apply PyFacts.le_false_iff. exact Hb. }
    rewrite Hc.
    repeat (apply Forall_cons; [cbn [applies delta]; intros H; discriminate|]).
    apply Forall_nil.
  - intros p b m pm h d. rewrite runtime_confidence_refines. cbv zeta. cbn [fst].
    apply clamp_0_100_bounds.
Qed.

(** At previous = 45 with a weak body, a shrinking histogram and 11 candles
    held for a window of 10, the new confidence, 20, is at most 45. *)
Lemma runtime_confidence_non_increasing_witness :
  fst (calculate_runtime_confidence 45 (Some 20) (Some 1) (Some 2) 11 10) <= 45.
Proof.
  refine (proj1 (runtime_confidence_non_increasing 45 (Some 20) (Some 1) (Some 2)
                   11 10 _ _)).
  - split; discriminate.
  - right. exists 20. split; reflexivity.
Defined.

(** The decay rules stack down to the floor: from 12 the three of them would
    give -13, the result is 0. *)
Example runtime_confidence_floor :
  calculate_runtime_confidence 12 (Some 20) (Some 1) (Some 2) 11 10 =
    (0, "WEAK_BODY+MACD_SHRINK+TIME_DECAY"%string).
Proof. vm_compute. reflexivity. Qed.

End ConfidenceFacts.

(** ** EntryLogic *)

Module EntryFacts.

Import Entry.
Local Open Scope Q_scope.

(** The two valid transitions, as the source tests them. *)
Lemma flip_direction_eqb (st prev : Z) :
  match Some prev, st with
  | Some (-1)%Z, 1%Z => Some BULLISH
  | Some 1%Z, (-1)%Z => Some BEARISH
  | _, _ => None
  end =
  if ((prev =? -1) && (st =? 1))%Z%bool then Some BULLISH
  else if ((prev =? 1) && (st =? -1))%Z%bool then Some BEARISH
  else None.
Proof.
  destruct prev as [|pp|pp]; destruct st as [|sp|sp]; try reflexivity;
    destruct pp; try reflexivity; destruct sp; reflexivity.
Qed.

(** All gates pass exactly when no gate is the first to fail. *)
Lemma all_pass_first_failing (gs : list (bool * string)) :
  all_pass gs = true <-> first_failing gs = None.
Proof.
  unfold all_pass. induction gs as [|[[|] r] gs IH]; simpl.
  - tauto.
  - exact IH.
  - split; discriminate.
Qed.

(** [check_entry] returns the refusal of the first gate that fails, and the
    entry in the direction of the flip when none does. *)
Lemma check_entry_first_failing (i : inputs) :
  check_entry_on i =
  match first_failing (gates i) with
  | Some r => mkEntryDecision false None r
  | None => mkEntryDecision true (flip_direction i) "OK"
  end.
Proof.
  destruct i as [tr st prev stv close macd conf minc].
  unfold check_entry_on, check_entry, gates, gate_regime, gate_prev_known,
    gate_flip, gate_valid_flip, gate_price, price_reason, gate_macd,
    gate_confidence, flip_direction, MACD_HIST_MIN.
  cbn [market_regime_is_trending st_direction prev_st_direction supertrend_value
       candle_close macd_histogram entry_confidence min_entry_confidence].
  destruct tr; [|reflexivity].
  destruct prev as [p|]; [|reflexivity].
  rewrite flip_direction_eqb.
  unfold Py.ge, Py.gt, Py.lt, Py.le.
  cbn [negb first_failing].
  destruct (st =? p)%Z; [reflexivity|].
  cbn [negb first_failing].
  destruct ((p =? -1) && (st =? 1))%Z%bool.
  - destruct (Qle_bool close stv); [reflexivity|].
    destruct macd as [m|]; [|reflexivity].
    destruct (Qle_bool 0.5 (Qabs m)); [|reflexivity].
    destruct (Qle_bool minc conf); reflexivity.
  - destruct ((p =? 1) && (st =? -1))%Z%bool; [|reflexivity].
    destruct (Qle_bool stv close); [reflexivity|].
    destruct macd as [m|]; [|reflexivity].
    destruct (Qle_bool 0.5 (Qabs m)); [|reflexivity].
    destruct (Qle_bool minc conf); reflexivity.
Qed.

(** What the gates on numbers say. *)
Lemma gates_meaning (i : inputs) :
  (gate_flip i = true <-> Some (st_direction i) <> prev_st_direction i) /\
  (gate_valid_flip i = true <->
     (prev_st_direction i = Some (-1)%Z /\ st_direction i = 1%Z) \/
     (prev_st_direction i = Some 1%Z /\ st_direction i = (-1)%Z)) /\
  (gate_macd i = true <->
     exists m, macd_histogram i = Some m /\ 0.5 <= Qabs m) /\
  (gate_confidence i = true <-> min_entry_confidence i <= entry_confidence i).
Proof.
  split; [|split; [|split]].
  - unfold gate_flip. destruct (prev_st_direction i) as [p|].
    + rewrite negb_true_iff. destruct (Z.eqb_spec (st_direction i) p) as [->|Hne].
      * split; [discriminate|]. intros H. exfalso. apply H. reflexivity.
      * split; [|reflexivity]. intros _ H. injection H as H. contradiction.
    + split; [discriminate|reflexivity].
  - unfold gate_valid_flip, flip_direction.
    destruct (prev_st_direction i) as [[|[pp|pp|]|[pp|pp|]]|];
      destruct (st_direction i) as [|[sp|sp|]|[sp|sp|]];
      try (split; [discriminate|intros [[H1 H2]|[H1 H2]]; discriminate]).
    + split; [intros _; right; auto|reflexivity].
    + split; [intros _; left; auto|reflexivity].
  - unfold gate_macd. destruct (macd_histogram i) as [m|].
    + rewrite PyFacts.ge_iff. split.
      * intros H. exists m. auto.
      * intros (m' & Hm & H). injection Hm as Hm. subst m'. exact H.
    + split; [discriminate|]. intros (m & H & _). discriminate.
  - unfold gate_confidence. apply PyFacts.ge_iff.
Qed.

(** On rationals: [check_entry] returns should_enter = True if and only if
    all seven gates pass; when a gate fails the result is should_enter = False with the
    reason code of the first failing gate in the listed order (and no
    direction); when all pass the result is should_enter = True with the
    direction of the flip and the reason "OK". *)
Theorem check_entry_seven_gates (i : inputs) :
  (should_enter (check_entry_on i) = true <->
     gate_regime i = true /\ gate_prev_known i = true /\ gate_flip i = true /\
     gate_valid_flip i = true /\ gate_price i = true /\ gate_macd i = true /\
     gate_confidence i = true) /\
  (forall r, first_failing (gates i) = Some r ->
     check_entry_on i = mkEntryDecision false None r) /\
  (all_pass (gates i) = true ->
     exists d, flip_direction i = Some d /\
               check_entry_on i = mkEntryDecision true (Some d) "OK") /\
  map snd (gates i) =
    [ "SIDEWAYS_REGIME"; "NO_PREV_ST"; "NO_ST_FLIP"; "INVALID_ST_FLIP";
      price_reason i; "MACD_HIST_TOO_SMALL"; "LOW_ENTRY_CONFIDENCE" ]%string /\
  (price_reason i = "PRICE_NOT_ABOVE_ST"%string \/
   price_reason i = "PRICE_NOT_BELOW_ST"%string).
Proof.
  assert (Hall : all_pass (gates i) = true <->
     gate_regime i = true /\ gate_prev_known i = true /\ gate_flip i = true /\
     gate_valid_flip i = true /\ gate_price i = true /\ gate_macd i = true /\
     gate_confidence i = true).
  { unfold all_pass, gates. cbn [forallb fst].
    rewrite !andb_true_iff. tauto. }
  split; [|split; [|split; [|split]]].
  - rewrite <- Hall, check_entry_first_failing.
    destruct (first_failing (gates i)) as [r|] eqn:E; cbn [should_enter].
    + split; [discriminate|]. intros H.
      apply all_pass_first_failing in H. congruence.
    + split; [|reflexivity]. intros _. apply all_pass_first_failing. exact E.
  - intros r H. rewrite check_entry_first_failing, H. reflexivity.
  - intros H. pose proof H as H'. apply Hall in H'.
    destruct H' as (_ & _ & _ & Hv & _).
    unfold gate_valid_flip in Hv.
    destruct (flip_direction i) as [d|] eqn:Ed; [|discriminate].
    exists d. split; [reflexivity|].
    apply all_pass_first_failing in H.
    rewrite check_entry_first_failing, H, Ed. reflexivity.
  - reflexivity.
  - unfold price_reason. destruct (flip_direction i) as [[|]|]; auto.
Qed.

(** The scenario of the confidence gate: with every other gate passing, a
    confidence of 65 enters BULLISH, a confidence of 64.9 is refused with
    LOW_ENTRY_CONFIDENCE. *)
Example check_entry_confidence_scenario :
  check_entry true 1 (Some (-1)%Z) 100 101 (Some 0.5) 65
    DEFAULT_MIN_ENTRY_CONFIDENCE = mkEntryDecision true (Some BULLISH) "OK" /\
  check_entry true 1 (Some (-1)%Z) 100 101 (Some 0.5) 64.9
    DEFAULT_MIN_ENTRY_CONFIDENCE = mkEntryDecision false None "LOW_ENTRY_CONFIDENCE".
Proof. split; vm_compute; reflexivity. Qed.

(** The reason codes in their order, each one reached: one input per gate,
    failing that gate and passing the ones before it. *)
Example check_entry_reason_codes :
  map reason
    [ check_entry false 1 (Some (-1)%Z) 100 101 (Some 1) 80 65;
      check_entry true 1 None 100 101 (Some 1) 80 65;
      check_entry true 1 (Some 1%Z) 100 101 (Some 1) 80 65;
      check_entry true 2 (Some 1%Z) 100 101 (Some 1) 80 65;
      check_entry true 1 (Some (-1)%Z) 100 100 (Some 1) 80 65;
      check_entry true (-1) (Some 1%Z) 100 100 (Some 1) 80 65;
      check_entry true 1 (Some (-1)%Z) 100 101 None 80 65;
      check_entry true 1 (Some (-1)%Z) 100 101 (Some (-0.4)) 80 65;
      check_entry true 1 (Some (-1)%Z) 100 101 (Some (-0.5)) 64 65;
      check_entry true (-1) (Some 1%Z) 100 99 (Some (-0.5)) 65 65 ] =
    [ "SIDEWAYS_REGIME"; "NO_PREV_ST"; "NO_ST_FLIP"; "INVALID_ST_FLIP";
      "PRICE_NOT_ABOVE_ST"; "PRICE_NOT_BELOW_ST"; "MACD_HIST_TOO_SMALL";
      "MACD_HIST_TOO_SMALL"; "LOW_ENTRY_CONFIDENCE"; "OK" ]%string.
Proof. vm_compute. reflexivity. Qed.

End EntryFacts.

(** ** ExitLogic *)

Module ExitFacts.

Import Exit.
Local Open Scope Q_scope.

(** The stop-loss test of the source, on [float(ltp or 0.0)], is the test of
    the specification on the price. *)
Lemma stop_loss_test (ltp : option Q) (sl : Q) :
  (Py.gt (Py.or_zero ltp) 0 && Py.le (Py.or_zero ltp) sl)%bool =
  (Py.le (match ltp with Some v => v | None => 0 end) sl &&
   Py.gt (match ltp with Some v => v | None => 0 end) 0)%bool.
Proof.
  pose proof (PyFacts.or_zero_value ltp) as H.
  unfold Py.gt.
  rewrite (PyFacts.lt_compat 0 0 _ _ (Qeq_refl 0) H).
  rewrite (PyFacts.le_compat _ _ sl sl H (Qeq_refl sl)).
  apply andb_comm.
Qed.

(** The reversal test of the source, on the upper-cased position type, is the
    test of the specification on the two opposing flips. *)
Lemma reversal_test (st prev : option Z) (pt : string) :
  match st, prev with
  | Some s, Some p =>
      if negb (s =? p)%Z then
        if (String.eqb pt "CE" && (p =? 1)%Z && (s =? -1)%Z)%bool then true
        else if (String.eqb pt "PE" && (p =? -1)%Z && (s =? 1)%Z)%bool then true
        else false
      else false
  | _, _ => false
  end =
  match prev, st with
  | Some 1%Z, Some (-1)%Z => String.eqb pt "CE"
  | Some (-1)%Z, Some 1%Z => String.eqb pt "PE"
  | _, _ => false
  end.
Proof.
  destruct st as [s|]; destruct prev as [p|]; try reflexivity.
  - destruct (String.eqb pt "CE"); destruct (String.eqb pt "PE");
      destruct (Z.eqb_spec s p) as [->|Hne]; cbn [negb andb];
      destruct p as [|[pp|pp|]|[pp|pp|]]; try reflexivity;
      destruct s as [|[sp|sp|]|[sp|sp|]]; try reflexivity.
  - destruct p as [|[pp|pp|]|[pp|pp|]]; reflexivity.
Qed.

(** With an open position [check_exit] returns the signal of the first
    condition that holds, in the order of the list. *)
Lemma check_exit_first_match (i : inputs) :
  check_exit_on true i = signal_of (first_match (conditions i)).
Proof.
  destruct i as [ltp hsl tsl conf minc st prev pt now bypass].
  unfold check_exit_on, check_exit, conditions, cond_hard_sl, cond_trailing_sl,
    cond_confidence, cond_st_reversal, cond_eod, is_CE, is_PE, ltp_of.
  cbn [current_option_ltp hard_sl trailing_sl runtime_confidence
       min_runtime_confidence st_direction prev_st_direction position_type
       current_time_ist bypass_eod_exit negb].
  cbv zeta.
  rewrite reversal_test.
  rewrite (andb_comm (negb bypass)).
  assert (Hh : match hsl with
               | Some sl => (Py.gt (Py.or_zero ltp) 0 && Py.le (Py.or_zero ltp) sl)%bool
               | None => false
               end =
               match hsl with
               | Some sl =>
                   (Py.le (match ltp with Some v => v | None => 0 end) sl &&
                    Py.gt (match ltp with Some v => v | None => 0 end) 0)%bool
               | None => false
               end).
  { destruct hsl; [apply stop_loss_test|reflexivity]. }
  assert (Ht : match tsl with
               | Some sl => (Py.gt (Py.or_zero ltp) 0 && Py.le (Py.or_zero ltp) sl)%bool
               | None => false
               end =
               match tsl with
               | Some sl =>
                   (Py.le (match ltp with Some v => v | None => 0 end) sl &&
                    Py.gt (match ltp with Some v => v | None => 0 end) 0)%bool
               | None => false
               end).
  { destruct tsl; [apply stop_loss_test|reflexivity]. }
  rewrite Hh, Ht.
  cbn [first_match].
  repeat match goal with
         | |- context [if ?c then _ else _] => destruct c
         end; reflexivity.
Qed.

(** What the first two conditions say about the price. *)
Lemma cond_hard_sl_iff (i : inputs) :
  cond_hard_sl i = true <->
  exists sl, hard_sl i = Some sl /\ ltp_of i <= sl /\ 0 < ltp_of i.
Proof.
  unfold cond_hard_sl. destruct (hard_sl i) as [sl|].
  - rewrite andb_true_iff, PyFacts.le_iff, PyFacts.gt_iff. split.
    + intros H. exists sl. tauto.
    + intros (sl' & Hsl & H). injection Hsl as Hsl. subst sl'. exact H.
  - split; [discriminate|]. intros (sl & H & _). discriminate.
Qed.

Lemma cond_trailing_sl_iff (i : inputs) :
  cond_trailing_sl i = true <->
  exists sl, trailing_sl i = Some sl /\ ltp_of i <= sl /\ 0 < ltp_of i.
Proof.
  unfold cond_trailing_sl. destruct (trailing_sl i) as [sl|].
  - rewrite andb_true_iff, PyFacts.le_iff, PyFacts.gt_iff. split.
    + intros H. exists sl. tauto.
    + intros (sl' & Hsl & H). injection Hsl as Hsl. subst sl'. exact H.
  - split; [discriminate|]. intros (sl & H & _). discriminate.
Qed.

(** The reversal condition holds for the two opposing flips only. *)
Lemma cond_st_reversal_iff (i : inputs) :
  cond_st_reversal i = true <->
  (is_CE i = true /\ prev_st_direction i = Some 1%Z /\
   st_direction i = Some (-1)%Z) \/
  (is_PE i = true /\ prev_st_direction i = Some (-1)%Z /\
   st_direction i = Some 1%Z).
Proof.
  unfold cond_st_reversal.
  destruct (prev_st_direction i) as [[|[pp|pp|]|[pp|pp|]]|];
    destruct (st_direction i) as [[|[sp|sp|]|[sp|sp|]]|];
    try (split; [discriminate|intros [(_ & H1 & H2)|(_ & H1 & H2)]; discriminate]).
  - split; [intros H; left; auto|].
    intros [(H & _ & _)|(_ & H1 & _)]; [exact H|discriminate].
  - split; [intros H; right; auto|].
    intros [(_ & H1 & _)|(H & _ & _)]; [discriminate|exact H].
Qed.

(** Without a price, or with a price that is not positive, neither stop-loss
    condition holds. *)
Lemma no_price_no_stop_loss (i : inputs) :
  current_option_ltp i = None \/
  (exists v, current_option_ltp i = Some v /\ v <= 0) ->
  cond_hard_sl i = false /\ cond_trailing_sl i = false.
Proof.
  intros H.
  assert (Hl : Py.gt (ltp_of i) 0 = false).
  { apply PyFacts.lt_false_iff. unfold ltp_of.
    destruct H as [->|(v & -> & Hv)]; [apply Qle_refl|exact Hv]. }
  unfold cond_hard_sl, cond_trailing_sl. rewrite Hl.
  destruct (hard_sl i), (trailing_sl i); rewrite ?andb_false_r; auto.
Qed.

(** C2: with an open position [check_exit] goes through its five conditions
    in descending priority (hard stop loss, trailing stop loss, runtime
    confidence at or below the minimum, opposing SuperTrend reversal, end of
    day) and returns the signal of the first one that holds; when the hard
    stop-loss condition holds the result is SL_HIT, also when the trailing one
    holds too, as for hard_sl = 100, trailing_sl = 110 and a price of 95. *)
Theorem check_exit_priority (i : inputs) :
  check_exit_on true i = signal_of (first_match (conditions i)) /\
  conditions i =
    [ (cond_hard_sl i, SL_HIT); (cond_trailing_sl i, TSL_HIT);
      (cond_confidence i, CONFIDENCE_DROP); (cond_st_reversal i, ST_REVERSAL);
      (cond_eod i, EOD_EXIT) ] /\
  (cond_hard_sl i = true ->
     check_exit_on true i = mkExitSignal true (Some SL_HIT)) /\
  (cond_hard_sl i = false -> cond_trailing_sl i = true ->
     check_exit_on true i = mkExitSignal true (Some TSL_HIT)) /\
  (cond_hard_sl i = false -> cond_trailing_sl i = false ->
   cond_confidence i = true ->
     check_exit_on true i = mkExitSignal true (Some CONFIDENCE_DROP)) /\
  (cond_hard_sl i = false -> cond_trailing_sl i = false ->
   cond_confidence i = false -> cond_st_reversal i = true ->
     check_exit_on true i = mkExitSignal true (Some ST_REVERSAL)) /\
  (cond_hard_sl i = false -> cond_trailing_sl i = false ->
   cond_confidence i = false -> cond_st_reversal i = false ->
   cond_eod i = true ->
     check_exit_on true i = mkExitSignal true (Some EOD_EXIT)) /\
  (cond_hard_sl i = false -> cond_trailing_sl i = false ->
   cond_confidence i = false -> cond_st_reversal i = false ->
   cond_eod i = false ->
     check_exit_on true i = mkExitSignal false None) /\
  check_exit true (Some 95) (Some 100) (Some 110) 80 40 (Some 1%Z) (Some 1%Z)
    (Some "CE"%string) (mkTime 10 0 0 0) false = mkExitSignal true (Some SL_HIT).
Proof.
  split; [apply check_exit_first_match|].
  split; [reflexivity|].
  rewrite check_exit_first_match. unfold conditions. cbn [first_match].
  repeat split; intros; 
    repeat match goal with H : _ = _ |- _ => rewrite H; clear H end;
    reflexivity.
Qed.

(** Without an open position there is no exit, whatever the other inputs. *)
Lemma check_exit_no_position (i : inputs) :
  check_exit_on false i = mkExitSignal false None.
Proof. reflexivity. Qed.

(** C9: with an open position and none of the three conditions of higher
    priority met, a position of type "CE" with the flip 1 -> -1, and a position
    of type "PE" with the flip -1 -> 1, exits with ST_REVERSAL; the exit is
    ST_REVERSAL exactly when the type of the position reads CE and the flip is
    1 -> -1, or reads PE and the flip is -1 -> 1; a position of type "CE" with
    the flip -1 -> 1 does not exit with ST_REVERSAL: only the end of the day is
    left to close it. *)
Theorem st_reversal_only_against_position (i : inputs) :
  cond_hard_sl i = false -> cond_trailing_sl i = false ->
  cond_confidence i = false ->
  (position_type i = Some "CE"%string -> prev_st_direction i = Some 1%Z ->
   st_direction i = Some (-1)%Z ->
   check_exit_on true i = mkExitSignal true (Some ST_REVERSAL)) /\
  (position_type i = Some "PE"%string -> prev_st_direction i = Some (-1)%Z ->
   st_direction i = Some 1%Z ->
   check_exit_on true i = mkExitSignal true (Some ST_REVERSAL)) /\
  (reason (check_exit_on true i) = Some ST_REVERSAL <->
   (position_upper (position_type i) = "CE"%string /\
    prev_st_direction i = Some 1%Z /\ st_direction i = Some (-1)%Z) \/
   (position_upper (position_type i) = "PE"%string /\
    prev_st_direction i = Some (-1)%Z /\ st_direction i = Some 1%Z)) /\
  (position_type i = Some "CE"%string -> prev_st_direction i = Some (-1)%Z ->
   st_direction i = Some 1%Z ->
   reason (check_exit_on true i) <> Some ST_REVERSAL /\
   check_exit_on true i = signal_of (first_match [(cond_eod i, EOD_EXIT)])).
Proof.
  intros H1 H2 H3.
  assert (R : check_exit_on true i =
              signal_of (first_match [ (cond_st_reversal i, ST_REVERSAL);
                                       (cond_eod i, EOD_EXIT) ])).
  { rewrite check_exit_first_match. unfold conditions. cbn [first_match].
    rewrite H1, H2, H3. reflexivity. }
  assert (U : forall s : string,
            (String.eqb (position_upper (position_type i)) s = true <->
             position_upper (position_type i) = s))
    by (intros s; apply String.eqb_eq).
  assert (Hiff : cond_st_reversal i = true <->
            (position_upper (position_type i) = "CE"%string /\
             prev_st_direction i = Some 1%Z /\ st_direction i = Some (-1)%Z) \/
            (position_upper (position_type i) = "PE"%string /\
             prev_st_direction i = Some (-1)%Z /\ st_direction i = Some 1%Z)).
  { rewrite cond_st_reversal_iff. unfold is_CE, is_PE. rewrite !U. tauto. }
  split; [|split; [|split]].
  - intros Hp Hprev Hst. rewrite R. cbn [first_match].
    replace (cond_st_reversal i) with true; [reflexivity|].
    symmetry. apply Hiff. left. rewrite Hp. repeat split; assumption.
  - intros Hp Hprev Hst. rewrite R. cbn [first_match].
    replace (cond_st_reversal i) with true; [reflexivity|].
    symmetry. apply Hiff. right. rewrite Hp. repeat split; assumption.
  - rewrite <- Hiff, R. cbn [first_match].
    destruct (cond_st_reversal i); [split; reflexivity|].
    destruct (cond_eod i); split; discriminate.
  - intros Hp Hprev Hst.
    assert (Hn : cond_st_reversal i = false).
    { apply not_true_is_false. intros E.
      apply Hiff in E. rewrite Hp, Hprev, Hst in E.
      destruct E as [(_ & E & _)|(E & _ & _)]; discriminate. }
    rewrite R. cbn [first_match]. rewrite Hn.
    split; [|reflexivity].
    destruct (cond_eod i); discriminate.
Qed.

(** A CE position far from its stops, with a confidence of 80 for a minimum of
    40, at 10:00: the flip 1 -> -1 closes it with ST_REVERSAL. *)
Lemma st_reversal_only_against_position_witness :
  check_exit true (Some 120) (Some 100) (Some 110) 80 40 (Some (-1)%Z) (Some 1%Z)
    (Some "CE"%string) (mkTime 10 0 0 0) false =
    mkExitSignal true (Some ST_REVERSAL).
Proof.
  refine (proj1 (st_reversal_only_against_position
           (mkInputs (Some 120) (Some 100) (Some 110) 80 40 (Some (-1)%Z)
              (Some 1%Z) (Some "CE"%string) (mkTime 10 0 0 0) false)
           _ _ _) _ _ _); reflexivity.
Defined.

(** The two scenarios of the reversal rule for a CE position, with the stops
    and the confidence out of reach and before the cutoff: the flip 1 -> -1
    exits with ST_REVERSAL, the flip -1 -> 1 does not exit; the type of the
    position is read without regard to case. *)
Example st_reversal_scenarios :
  check_exit true (Some 120) (Some 100) (Some 110) 80 40 (Some (-1)%Z) (Some 1%Z)
    (Some "CE"%string) (mkTime 10 0 0 0) false = mkExitSignal true (Some ST_REVERSAL) /\
  check_exit true (Some 120) (Some 100) (Some 110) 80 40 (Some 1%Z) (Some (-1)%Z)
    (Some "CE"%string) (mkTime 10 0 0 0) false = mkExitSignal false None /\
  check_exit true (Some 120) (Some 100) (Some 110) 80 40 (Some 1%Z) (Some (-1)%Z)
    (Some "pe"%string) (mkTime 10 0 0 0) false = mkExitSignal true (Some ST_REVERSAL).
Proof. repeat split; vm_compute; reflexivity. Qed.

(** C10: with an open position and the last traded price absent or not
    positive, [check_exit] returns neither SL_HIT nor TSL_HIT, whatever the two
    stops are; its result is the signal of the first of the three remaining
    conditions (confidence, reversal, end of day) that holds. *)
Theorem no_stop_loss_without_price (i : inputs) :
  current_option_ltp i = None \/
  (exists v, current_option_ltp i = Some v /\ v <= 0) ->
  reason (check_exit_on true i) <> Some SL_HIT /\
  reason (check_exit_on true i) <> Some TSL_HIT /\
  check_exit_on true i =
    signal_of (first_match [ (cond_confidence i, CONFIDENCE_DROP);
                             (cond_st_reversal i, ST_REVERSAL);
                             (cond_eod i, EOD_EXIT) ]).
Proof.
  intros H. destruct (no_price_no_stop_loss i H) as [H1 H2].
  rewrite check_exit_first_match. unfold conditions. cbn [first_match].
  rewrite H1, H2.
  destruct (cond_confidence i); [repeat split; discriminate|].
  destruct (cond_st_reversal i); [repeat split; discriminate|].
  destruct (cond_eod i); repeat split; discriminate.
Qed.

(** A position without a price, both stops at 100 and a confidence of 30 for
    a minimum of 40: the exit is CONFIDENCE_DROP. *)
Lemma no_stop_loss_without_price_witness :
  check_exit true None (Some 100) (Some 100) 30 40 (Some 1%Z) (Some 1%Z)
    (Some "CE"%string) (mkTime 10 0 0 0) false =
    mkExitSignal true (Some CONFIDENCE_DROP).
Proof.
  exact (proj2 (proj2 (no_stop_loss_without_price
           (mkInputs None (Some 100) (Some 100) 30 40 (Some 1%Z) (Some 1%Z)
              (Some "CE"%string) (mkTime 10 0 0 0) false)
           (or_introl eq_refl)))).
Defined.

(** Each of the three remaining conditions still exits when the price is
    absent, zero or negative and both stops are set. *)
Example lower_priority_exits_without_price :
  check_exit true (Some 0) (Some 100) (Some 100) 40 40 (Some 1%Z) (Some 1%Z)
    (Some "CE"%string) (mkTime 10 0 0 0) false =
    mkExitSignal true (Some CONFIDENCE_DROP) /\
  check_exit true (Some (-5)) (Some 100) (Some 100) 80 40 (Some 1%Z) (Some (-1)%Z)
    (Some "PE"%string) (mkTime 10 0 0 0) false =
    mkExitSignal true (Some ST_REVERSAL) /\
  check_exit true None (Some 100) (Some 100) 80 40 (Some 1%Z) (Some 1%Z)
    (Some "CE"%string) (mkTime 15 20 0 0) false =
    mkExitSignal true (Some EOD_EXIT) /\
  check_exit true None (Some 100) (Some 100) 80 40 (Some 1%Z) (Some 1%Z)
    (Some "CE"%string) (mkTime 15 19 59 0) false =
    mkExitSignal false None /\
  check_exit true None (Some 100) (Some 100) 80 40 (Some 1%Z) (Some 1%Z)
    (Some "CE"%string) (mkTime 15 20 0 0) true =
    mkExitSignal false None.
Proof. repeat split; vm_compute; reflexivity. Qed.

End ExitFacts.

(** * Further properties *)

(** ** CooldownManager: runs of calls *)

Module CooldownRuns.

Import Cooldown Derived.
Local Open Scope Z_scope.

Lemma step_keeps_duration (m : CooldownManager) (c : call) :
  cooldown_duration (step m c) = cooldown_duration m.
Proof.
  destruct c; simpl; try reflexivity. unfold advance.
  destruct (0 <? _remaining m); [|reflexivity].
  destruct (_remaining m - 1 <=? 0); reflexivity.
Qed.

(** What holds at the start and is kept by every call holds after a run. *)
Lemma run_invariant (P : CooldownManager -> Prop) (cs : list call) :
  forall m, P m -> (forall m' c, P m' -> P (step m' c)) -> P (run m cs).
Proof.
  induction cs as [|c cs IH]; intros m H0 Hstep; [exact H0|].
  change (run m (c :: cs)) with (run (step m c) cs).
  apply IH; [apply Hstep; exact H0|exact Hstep].
Qed.

Lemma run_keeps_duration (cs : list call) (m : CooldownManager) :
  cooldown_duration (run m cs) = cooldown_duration m.
Proof.
  apply (run_invariant (fun x => cooldown_duration x = cooldown_duration m));
    [reflexivity|].
  intros m' c H. rewrite step_keeps_duration. exact H.
Qed.

Lemma advance_at_rest (m : CooldownManager) :
  _remaining m <= 0 -> advance m = m.
Proof.
  intros H. unfold advance.
  destruct (0 <? _remaining m) eqn:E; [apply Z.ltb_lt in E; lia|reflexivity].
Qed.

Lemma advance_n_at_rest (k : nat) (m : CooldownManager) :
  _remaining m <= 0 -> advance_n k m = m.
Proof.
  intros H. induction k as [|k IH]; [reflexivity|].
  simpl. rewrite advance_at_rest by exact H. exact IH.
Qed.

Lemma advance_n_add (a b : nat) (m : CooldownManager) :
  advance_n (a + b) m = advance_n b (advance_n a m).
Proof.
  revert m. induction a as [|a IH]; intros m; [reflexivity|].
  simpl. apply IH.
Qed.

(** Whatever calls are made on a manager built with [cooldown_candles = n]:
    the counter is never negative, the configured duration stays [n],
    [can_enter()] is the negation of [get_state().active], and when no
    activation brings a duration of its own the counter never exceeds
    [max(0, n)]. *)
Theorem cooldown_run_bounds (n : Z) (cs : list call) :
  0 <= _remaining (run (init n) cs) /\
  cooldown_duration (run (init n) cs) = n /\
  can_enter (run (init n) cs) = negb (active (get_state (run (init n) cs))) /\
  (Forall default_activation cs -> _remaining (run (init n) cs) <= Z.max 0 n).
Proof.
  split; [|split; [|split]].
  - apply (run_invariant (fun x => 0 <= _remaining x)); [simpl; lia|].
    intros m c H. apply CooldownFacts.step_remaining_nonneg. exact H.
  - apply run_keeps_duration.
  - unfold can_enter, get_state. simpl. apply Z.leb_antisym.
  - intros Hall.
    assert (G : forall cs' m, Forall default_activation cs' ->
                cooldown_duration m = n -> _remaining m <= Z.max 0 n ->
                _remaining (run m cs') <= Z.max 0 n).
    { clear cs Hall. induction cs' as [|c cs' IH]; intros m Hd Hn Hr; [exact Hr|].
      inversion Hd as [|c' l Hc Hl]; subst c' l.
      change (run m (c :: cs')) with (run (step m c) cs').
      apply IH; [exact Hl|rewrite step_keeps_duration; exact Hn|].
      destruct c as [|r [d|]|]; simpl.
      - lia.
      - contradiction.
      - rewrite Hn. lia.
      - unfold advance.
        destruct (0 <? _remaining m) eqn:E1; [|exact Hr].
        destruct (_remaining m - 1 <=? 0) eqn:E2; simpl; lia. }
    apply G; [exact Hall|reflexivity|simpl; lia].
Qed.

(** As long as no activation has a duration of zero or less, the state is
    consistent after every run: it is active exactly when it has a reason. *)
Theorem cooldown_active_iff_reason (n : Z) (cs : list call) :
  Forall (positive_activation n) cs ->
  (active (get_state (run (init n) cs)) = true <->
   reason (get_state (run (init n) cs)) <> None).
Proof.
  intros Hall.
  assert (G : forall cs' m, Forall (positive_activation n) cs' ->
              cooldown_duration m = n -> 0 <= _remaining m ->
              (0 < _remaining m <-> _reason m <> None) ->
              (0 < _remaining (run m cs') <-> _reason (run m cs') <> None)).
  { clear cs Hall. induction cs' as [|c cs' IH]; intros m Hd Hn H0 Hi; [exact Hi|].
    inversion Hd as [|c' l Hc Hl]; subst c' l.
    change (run m (c :: cs')) with (run (step m c) cs').
    apply IH; [exact Hl|rewrite step_keeps_duration; exact Hn| |].
    - apply CooldownFacts.step_remaining_nonneg. exact H0.
    - destruct c as [|r d|]; simpl.
      + split; [lia|congruence].
      + split; [discriminate|]. intros _.
        destruct d as [d|]; simpl in Hc; [lia|rewrite Hn; lia].
      + unfold advance.
        destruct (0 <? _remaining m) eqn:E1; [|exact Hi].
        apply Z.ltb_lt in E1.
        destruct (_remaining m - 1 <=? 0) eqn:E2; simpl.
        * split; [lia|congruence].
        * apply Z.leb_gt in E2. split; [intros _; apply Hi; exact E1|lia]. }
  unfold get_state. simpl. rewrite Z.ltb_lt.
  apply G; [exact Hall|reflexivity|simpl; lia|].
  simpl. split; [lia|congruence].
Qed.

(** A run of the default manager with an activation, a candle, and an
    activation with a duration of 2 followed by two candles. *)
Lemma cooldown_active_iff_reason_witness :
  active (get_state (run (init 3)
    [Activate EXIT None; Advance; Activate EXIT (Some 2); Advance])) = true <->
  reason (get_state (run (init 3)
    [Activate EXIT None; Advance; Activate EXIT (Some 2); Advance])) <> None.
Proof.
  apply (cooldown_active_iff_reason 3
           [Activate EXIT None; Advance; Activate EXIT (Some 2); Advance]).
  repeat constructor.
Defined.

(** After [k] calls of [advance] entries are allowed exactly when [k] is at
    least the number of candles that remained: the cooldown ends after that
    many candles and stays ended. *)
Theorem can_enter_after_advances (m : CooldownManager) (k : nat) :
  can_enter (advance_n k m) = (_remaining m <=? Z.of_nat k).
Proof.
  destruct (Z_le_gt_dec (_remaining m) 0) as [Hr|Hr].
  - rewrite advance_n_at_rest by exact Hr.
    unfold can_enter. symmetry.
    transitivity true; [apply Z.leb_le; lia|symmetry; apply Z.leb_le; exact Hr].
  - destruct (Z_lt_le_dec (Z.of_nat k) (_remaining m)) as [Hk|Hk].
    + rewrite CooldownFacts.advance_n_before by exact Hk.
      unfold can_enter. simpl.
      transitivity false; [apply Z.leb_gt; lia|symmetry; apply Z.leb_gt; lia].
    + replace k with (Z.to_nat (_remaining m) + (k - Z.to_nat (_remaining m)))%nat
        at 1 by lia.
      rewrite advance_n_add.
      rewrite (CooldownFacts.advance_n_exact (Z.to_nat (_remaining m)) m) by lia.
      rewrite advance_n_at_rest by (simpl; lia).
      unfold can_enter. simpl. symmetry. apply Z.leb_le. exact Hk.
Qed.

(** [activate] and [reset] forget what was done before: after any run they
    give the state they give on the manager the run started from. *)
Theorem activate_forgets_history (m : CooldownManager) (cs : list call)
    (r : CooldownReason) (d : option Z) :
  activate (run m cs) r d = activate m r d /\
  reset (run m cs) = reset m.
Proof.
  unfold activate, reset. rewrite run_keeps_duration. split; reflexivity.
Qed.

End CooldownRuns.

(** ** MarketRegimeDetector: the distance and the two methods *)

Module RegimeMore.

Import Regime.
Local Open Scope Q_scope.




(** A detector with lower thresholds finds TRENDING wherever one with higher
    thresholds and the same ADX flag does. *)
Theorem lower_thresholds_keep_trending (d1 d2 : MarketRegimeDetector)
    (current_price supertrend_value adx : option Q) :
  self_use_adx d1 = self_use_adx d2 ->
  self_adx_threshold d1 <= self_adx_threshold d2 ->
  self_st_distance_sideways_threshold_pct d1
    <= self_st_distance_sideways_threshold_pct d2 ->
  fst (detect d2 current_price supertrend_value adx) = TRENDING ->
  fst (detect d1 current_price supertrend_value adx) = TRENDING.
Proof.
  intros Hu Ha Hd.
  assert (L : forall x t1 t2, t1 <= t2 ->
            (if Py.lt x t2 then SIDEWAYS else TRENDING) = TRENDING ->
            (if Py.lt x t1 then SIDEWAYS else TRENDING) = TRENDING).
  { intros x t1 t2 Ht H.
    destruct (Py.lt x t2) eqn:E2; [discriminate|].
    apply PyFacts.lt_false_iff in E2.
    destruct (Py.lt x t1) eqn:E1; [|reflexivity].
    apply PyFacts.lt_iff in E1. exfalso.
    apply (Qlt_not_le _ _ E1). eapply Qle_trans; eassumption. }
  unfold detect. rewrite Hu.
  destruct (self_use_adx d2); destruct adx as [a|]; cbn [fst];
    try (destruct (distance_pct current_price supertrend_value) as [x|];
         [apply L; exact Hd|discriminate]).
  apply L. exact Ha.
Qed.

(** The default detector against one with a sideways threshold of 0.1, at a
    price of 100 with the line at 99.8. *)
Lemma lower_thresholds_keep_trending_witness :
  fst (detect (init None None (Some 0.1)) (Some 100) (Some 99.8) None) = TRENDING.
Proof.
  apply (lower_thresholds_keep_trending (init None None (Some 0.1))
           (init None None None) (Some 100) (Some 99.8) None).
  - reflexivity.
  - discriminate.
  - discriminate.
  - vm_compute. reflexivity.
Defined.

(** A higher adx value keeps TRENDING under the ADX method, and a price
    further from the line keeps TRENDING under the distance method. *)
Theorem stronger_signal_keeps_trending (self : MarketRegimeDetector) :
  (forall (price line : option Q) (a1 a2 : Q),
     self_use_adx self = true -> a1 <= a2 ->
     fst (detect self price line (Some a1)) = TRENDING ->
     fst (detect self price line (Some a2)) = TRENDING) /\
  (forall (p s1 s2 : Q) (adx : option Q),
     self_use_adx self = false ->
     Qabs (p - s1) <= Qabs (p - s2) ->
     fst (detect self (Some p) (Some s1) adx) = TRENDING ->
     fst (detect self (Some p) (Some s2) adx) = TRENDING).
Proof.
  split.
  - intros price line a1 a2 Hu Ha. unfold detect. rewrite Hu. cbn [fst].
    destruct (Py.lt a1 (self_adx_threshold self)) eqn:E1; [discriminate|].
    intros _. apply PyFacts.lt_false_iff in E1.
    destruct (Py.lt a2 (self_adx_threshold self)) eqn:E2; [|reflexivity].
    apply PyFacts.lt_iff in E2. exfalso.
    apply (Qlt_not_le _ _ E2). eapply Qle_trans; eassumption.
  - intros p s1 s2 adx Hu Hs.
    pose proof (RegimeFacts.distance_regime
                  (self_st_distance_sideways_threshold_pct self) (Some p) (Some s1)) as D1.
    pose proof (RegimeFacts.distance_regime
                  (self_st_distance_sideways_threshold_pct self) (Some p) (Some s2)) as D2.
    cbv zeta in D1, D2. destruct D1 as [D1 _]. destruct D2 as [D2 _].
    unfold detect. rewrite Hu. cbn [fst].
    intros H. apply D1 in H. destruct H as (p' & s' & Hp' & Hs' & Hp & Hge).
    injection Hp' as Hp'. injection Hs' as Hs'. subst p' s'.
    apply D2. exists p, s2. repeat split; [exact Hp|].
    eapply Qle_trans; [exact Hge|].
    unfold Qdiv. apply Qmult_le_compat_r; [|discriminate].
    apply Qmult_le_compat_r; [exact Hs|].
    apply Qinv_le_0_compat. apply Qlt_le_weak. exact Hp.
Qed.

End RegimeMore.

(** ** ConfidenceCalculator: the factors of the entry score *)

Module ConfidenceMore.

Import Confidence.
Local Open Scope Q_scope.

Lemma ge_abs_opp (m t : Q) : Py.ge (Qabs (- m)) t = Py.ge (Qabs m) t.
Proof.
  unfold Py.ge. apply PyFacts.le_compat; [reflexivity|apply Qabs_opp].
Qed.

Lemma ge_abs_mono (m1 m2 t : Q) :
  Qabs m1 <= Qabs m2 -> Py.ge (Qabs m1) t = true -> Py.ge (Qabs m2) t = true.
Proof.
  intros H H1. apply PyFacts.ge_iff in H1. apply PyFacts.ge_iff.
  eapply Qle_trans; eassumption.
Qed.

(** The MACD score does not depend on the sign of the histogram, never goes
    down when its magnitude goes up, and is 0 without a histogram. *)
Theorem macd_momentum_sign_and_order (m1 m2 : Q) :
  macd_momentum_of (Some (- m1)) = macd_momentum_of (Some m1) /\
  (Qabs m1 <= Qabs m2 ->
   macd_momentum_of (Some m1) <= macd_momentum_of (Some m2)) /\
  macd_momentum_of None = 0.
Proof.
  split; [|split; [|reflexivity]].
  - unfold macd_momentum_of. cbv zeta. rewrite !ge_abs_opp. reflexivity.
  - intros H. unfold macd_momentum_of. cbv zeta.
    pose proof (ge_abs_mono m1 m2 1.5 H) as G1.
    pose proof (ge_abs_mono m1 m2 1 H) as G2.
    pose proof (ge_abs_mono m1 m2 0.75 H) as G3.
    pose proof (ge_abs_mono m1 m2 0.5 H) as G4.
    destruct (Py.ge (Qabs m1) 1.5); [rewrite (G1 eq_refl); discriminate|].
    destruct (Py.ge (Qabs m1) 1).
    { rewrite (G2 eq_refl). destruct (Py.ge (Qabs m2) 1.5); discriminate. }
    destruct (Py.ge (Qabs m1) 0.75).
    { rewrite (G3 eq_refl).
      destruct (Py.ge (Qabs m2) 1.5); [discriminate|].
      destruct (Py.ge (Qabs m2) 1); discriminate. }
    destruct (Py.ge (Qabs m1) 0.5).
    { rewrite (G4 eq_refl).
      destruct (Py.ge (Qabs m2) 1.5); [discriminate|].
      destruct (Py.ge (Qabs m2) 1); [discriminate|].
      destruct (Py.ge (Qabs m2) 0.75); discriminate. }
    destruct (Py.ge (Qabs m2) 1.5); [discriminate|].
    destruct (Py.ge (Qabs m2) 1); [discriminate|].
    destruct (Py.ge (Qabs m2) 0.75); [discriminate|].
    destruct (Py.ge (Qabs m2) 0.5); discriminate.
Qed.

End ConfidenceMore.

Module ConfidenceFactors.

Import Confidence.
Local Open Scope Q_scope.

(** An entry score that reaches the minimum of 65 has at least three of the
    four factors: when one sub-score is 0 the other three are not, and without
    the SuperTrend factor the MACD score is at least 25. *)
Theorem entry_minimum_needs_three_factors
    (supertrend_distance_pct candle_open candle_high candle_low candle_close : Q)
    (macd_histogram : option Q) (recent_ranges : option (list Q)) :
  MIN_ENTRY_CONFIDENCE <=
    total (calculate_entry_confidence supertrend_distance_pct candle_open
             candle_high candle_low candle_close macd_histogram recent_ranges) ->
  let b := calculate_entry_confidence supertrend_distance_pct candle_open
             candle_high candle_low candle_close macd_histogram recent_ranges in
  (st_strength b = 0 ->
   candle_body_strength b = 20 /\ 25 <= macd_momentum b /\
   volatility_expansion b = 20) /\
  (candle_body_strength b = 0 ->
   st_strength b = 30 /\ 15 <= macd_momentum b /\ volatility_expansion b = 20) /\
  (macd_momentum b = 0 ->
   st_strength b = 30 /\ candle_body_strength b = 20 /\
   volatility_expansion b = 20) /\
  (volatility_expansion b = 0 ->
   st_strength b = 30 /\ candle_body_strength b = 20 /\ 15 <= macd_momentum b).
Proof.
  cbv zeta. unfold calculate_entry_confidence. cbv zeta.
  cbn [total st_strength candle_body_strength macd_momentum volatility_expansion].
  pose proof (ConfidenceFacts.st_strength_values supertrend_distance_pct) as H1.
  pose proof (ConfidenceFacts.candle_body_strength_values
                (body_pct_of candle_open candle_high candle_low candle_close)) as H2.
  pose proof (ConfidenceFacts.macd_momentum_values macd_histogram) as H3.
  pose proof (ConfidenceFacts.volatility_expansion_values
                (candle_high - candle_low) recent_ranges) as H4.
  set (s1 := st_strength_of _) in *.
  set (s2 := candle_body_strength_of _) in *.
  set (s3 := macd_momentum_of _) in *.
  set (s4 := volatility_expansion_of _ _) in *.
  clearbody s1 s2 s3 s4.
  destruct H1 as [-> | ->]; destruct H2 as [-> | ->];
    destruct H3 as [-> | [-> | [-> | [-> | ->]]]]; destruct H4 as [-> | ->];
    intros H; vm_compute in H;
    try (exfalso; apply H; reflexivity);
    repeat split; intros; try congruence; try reflexivity; try discriminate.
Qed.

(** A score of 65 without the SuperTrend factor: a full body, a histogram of
    1 and a range above the average. *)
Lemma entry_minimum_needs_three_factors_witness :
  25 <= macd_momentum
          (calculate_entry_confidence 0.1 100 110 100 110 (Some 1) (Some [5; 5; 5])).
Proof.
  refine (proj1 (proj2 (proj1
    (entry_minimum_needs_three_factors 0.1 100 110 100 110 (Some 1)
       (Some [5; 5; 5]) _) _))).
  - vm_compute. discriminate.
  - vm_compute. reflexivity.
Defined.

(** A candle without range (high at or below low) scores neither for its body
    nor for volatility, so its total stays below the minimum of 65 whatever the
    other inputs are. *)
Theorem flat_candle_stays_below_minimum
    (supertrend_distance_pct candle_open candle_high candle_low candle_close : Q)
    (macd_histogram : option Q) (recent_ranges : option (list Q)) :
  candle_high <= candle_low ->
  let b := calculate_entry_confidence supertrend_distance_pct candle_open
             candle_high candle_low candle_close macd_histogram recent_ranges in
  candle_body_strength b = 0 /\ volatility_expansion b = 0 /\
  total b < MIN_ENTRY_CONFIDENCE.
Proof.
  intros Hflat. cbv zeta.
  assert (Hr : Py.gt (candle_high - candle_low) 0 = false).
  { apply PyFacts.lt_false_iff. lra. }
  unfold calculate_entry_confidence. cbv zeta.
  cbn [total st_strength candle_body_strength macd_momentum volatility_expansion].
  unfold body_pct_of, volatility_expansion_of. cbv zeta. rewrite Hr.
  change (candle_body_strength_of 0) with 0.
  pose proof (ConfidenceFacts.st_strength_values supertrend_distance_pct) as H1.
  pose proof (ConfidenceFacts.macd_momentum_values macd_histogram) as H3.
  set (s1 := st_strength_of _) in *.
  set (s3 := macd_momentum_of _) in *.
  clearbody s1 s3.
  split; [reflexivity|]. split; [reflexivity|].
  destruct H1 as [-> | ->];
    destruct H3 as [-> | [-> | [-> | [-> | ->]]]]; vm_compute; reflexivity.
Qed.

(** A candle with open, high, low and close all at 100, a strong line and a
    strong histogram: the total is 60. *)
Lemma flat_candle_stays_below_minimum_witness :
  total (calculate_entry_confidence 1 100 100 100 100 (Some 2) (Some [5; 5; 5]))
    < MIN_ENTRY_CONFIDENCE.
Proof.
  refine (proj2 (proj2
    (flat_candle_stays_below_minimum 1 100 100 100 100 (Some 2) (Some [5; 5; 5]) _))).
  apply Qle_refl.
Defined.

(** The score does not depend on the colour of the candle: with open and
    close exchanged the breakdown is the same. *)
Theorem entry_confidence_ignores_candle_colour
    (supertrend_distance_pct candle_open candle_high candle_low candle_close : Q)
    (macd_histogram : option Q) (recent_ranges : option (list Q)) :
  calculate_entry_confidence supertrend_distance_pct candle_open candle_high
    candle_low candle_close macd_histogram recent_ranges =
  calculate_entry_confidence supertrend_distance_pct candle_close candle_high
    candle_low candle_open macd_histogram recent_ranges.
Proof.
  assert (Hb : candle_body_strength_of
                 (body_pct_of candle_open candle_high candle_low candle_close) =
               candle_body_strength_of
                 (body_pct_of candle_close candle_high candle_low candle_open)).
  { unfold candle_body_strength_of, body_pct_of. cbv zeta.
    destruct (Py.gt (candle_high - candle_low) 0); [|reflexivity].
    assert (E : Qabs (candle_close - candle_open) / (candle_high - candle_low) * 100
                == Qabs (candle_open - candle_close) / (candle_high - candle_low) * 100).
    { rewrite (Qabs_Qminus candle_close candle_open). reflexivity. }
    unfold Py.ge.
    rewrite (PyFacts.le_compat _ _ _ _ (Qeq_refl _BODY_STRONG_THRESHOLD_PCT) E).
    reflexivity. }
  unfold calculate_entry_confidence. cbv zeta. rewrite Hb. reflexivity.
Qed.

Lemma last_n_app (old w : list Q) (n : nat) :
  (n <= List.length w)%nat -> Py.last_n n (old ++ w) = Py.last_n n w.
Proof.
  intros H. unfold Py.last_n.
  rewrite skipn_app, length_app.
  rewrite (skipn_all2 old) by lia.
  simpl. f_equal. lia.
Qed.

(** Only the 14 most recent ranges count for the volatility factor: older
    ranges in front of them do not change the breakdown. *)
Theorem only_last_14_ranges_count
    (supertrend_distance_pct candle_open candle_high candle_low candle_close : Q)
    (macd_histogram : option Q) (older recent : list Q) :
  (14 <= List.length recent)%nat ->
  calculate_entry_confidence supertrend_distance_pct candle_open candle_high
    candle_low candle_close macd_histogram (Some (older ++ recent)) =
  calculate_entry_confidence supertrend_distance_pct candle_open candle_high
    candle_low candle_close macd_histogram (Some recent).
Proof.
  intros H.
  assert (Hv : volatility_expansion_of (candle_high - candle_low) (Some (older ++ recent))
               = volatility_expansion_of (candle_high - candle_low) (Some recent)).
  { unfold volatility_expansion_of. cbv zeta.
    unfold _VOL_EXPANSION_WINDOW. rewrite (last_n_app older recent 14 H).
    assert (L1 : (3 <=? List.length (older ++ recent))%nat = true)
      by (apply Nat.leb_le; rewrite length_app; lia).
    assert (L2 : (3 <=? List.length recent)%nat = true)
      by (apply Nat.leb_le; lia).
    rewrite L1, L2. reflexivity. }
  unfold calculate_entry_confidence. cbv zeta. rewrite Hv. reflexivity.
Qed.

(** Fourteen ranges of 5 behind two much larger, older ones: a candle with a
    range of 10 still counts as a volatility expansion. *)
Lemma only_last_14_ranges_count_witness :
  volatility_expansion
    (calculate_entry_confidence 0 100 110 100 105 None
       (Some ([50; 50] ++ repeat 5 14))) = 20.
Proof.
  rewrite (only_last_14_ranges_count 0 100 110 100 105 None [50; 50] (repeat 5 14)).
  - vm_compute. reflexivity.
  - vm_compute. repeat constructor.
Defined.

End ConfidenceFactors.

(** ** ConfidenceCalculator: the runtime update *)

Module ConfidenceRuntime.

Import Confidence.
Local Open Scope Q_scope.

(** A candle body is never weak and strong at once. *)
Lemma weak_excludes_continuation (candle_body_pct : option Q) :
  weak_body candle_body_pct = true -> continuation candle_body_pct = false.
Proof.
  unfold weak_body, continuation. destruct candle_body_pct as [b|]; [|reflexivity].
  intros H. apply PyFacts.lt_iff in H. apply PyFacts.le_false_iff. lra.
Qed.

Lemma clamp_0_100_ge (x lo : Q) : lo <= 100 -> lo <= x -> lo <= clamp_0_100 x.
Proof.
  intros Hlo H. unfold clamp_0_100.
  destruct (Py.le x 0) eqn:E1.
  - apply PyFacts.le_iff in E1. lra.
  - destruct (Py.ge x 100); assumption.
Qed.

(** One update moves a confidence that is within [0, 100] down by at most 25
    and up by at most 5; its reason is one of twelve strings, none of which
    has both WEAK_BODY and CONTINUATION. *)
Theorem runtime_confidence_change_bounded (previous_confidence : Q)
    (candle_body_pct macd_histogram prev_macd_histogram : option Q)
    (candles_held decay_after_candles : Z) :
  0 <= previous_confidence <= 100 ->
  previous_confidence - 25 <=
    fst (calculate_runtime_confidence previous_confidence candle_body_pct
           macd_histogram prev_macd_histogram candles_held decay_after_candles) /\
  fst (calculate_runtime_confidence previous_confidence candle_body_pct
         macd_histogram prev_macd_histogram candles_held decay_after_candles)
    <= previous_confidence + 5 /\
  In (snd (calculate_runtime_confidence previous_confidence candle_body_pct
             macd_histogram prev_macd_histogram candles_held decay_after_candles))
    [ "NO_CHANGE"; "WEAK_BODY"; "MACD_SHRINK"; "TIME_DECAY"; "CONTINUATION";
      "WEAK_BODY+MACD_SHRINK"; "WEAK_BODY+TIME_DECAY"; "MACD_SHRINK+TIME_DECAY";
      "MACD_SHRINK+CONTINUATION"; "TIME_DECAY+CONTINUATION";
      "WEAK_BODY+MACD_SHRINK+TIME_DECAY";
      "MACD_SHRINK+TIME_DECAY+CONTINUATION" ]%string.
Proof.
  intros [Hlo Hhi].
  rewrite ConfidenceFacts.runtime_confidence_refines. cbv zeta. cbn [fst snd].
  pose proof (weak_excludes_continuation candle_body_pct) as Hx.
  unfold rules, apply_rules, tags.
  destruct (weak_body candle_body_pct);
    [rewrite (Hx eq_refl)|destruct (continuation candle_body_pct)];
    destruct (macd_shrink macd_histogram prev_macd_histogram);
    destruct (time_decay candles_held decay_after_candles);
    cbn [fold_left filter map applies delta tag];
    (split; [|split];
     [ apply clamp_0_100_ge; lra
     | apply ConfidenceFacts.clamp_0_100_le; lra
     | vm_compute; repeat first [left; reflexivity | right] ]).
Qed.

(** From 45, with a weak body, a shrinking histogram and the window passed,
    the confidence does not fall below 20. *)
Lemma runtime_confidence_change_bounded_witness :
  45 - 25 <=
    fst (calculate_runtime_confidence 45 (Some 20) (Some 1) (Some 2) 11 10).
Proof.
  refine (proj1 (runtime_confidence_change_bounded 45 (Some 20) (Some 1) (Some 2)
                   11 10 _)).
  split; discriminate.
Defined.

End ConfidenceRuntime.

(** ** EntryLogic: what a decision tells *)

Module EntryMore.

Import Entry Derived.
Local Open Scope Q_scope.

Lemma qle_bool_opp (a b : Q) : Qle_bool (- a) (- b) = Qle_bool b a.
Proof.
  destruct (Qle_bool b a) eqn:E.
  - apply Qle_bool_iff. apply Qle_bool_iff in E. apply Qopp_le_compat. exact E.
  - destruct (Qle_bool (- a) (- b)) eqn:E'; [|reflexivity].
    apply Qle_bool_iff in E'. apply Qopp_le_compat in E'.
    rewrite !Qopp_involutive in E'. apply Qle_bool_iff in E'. congruence.
Qed.

Lemma eqb_opp (a b : Z) : (- a =? - b)%Z = (a =? b)%Z.
Proof.
  destruct (Z.eqb_spec (- a) (- b)); destruct (Z.eqb_spec a b); try reflexivity; lia.
Qed.

(** A decision is an entry exactly when it has a direction, and exactly when
    its reason is "OK"; the reason is one of nine codes; a BULLISH entry comes
    with the flip -1 -> 1 and a close above the line, a BEARISH one with the
    flip 1 -> -1 and a close below it. *)
Theorem entry_decision_consistent (market_regime_is_trending : bool)
    (st_direction : Z) (prev_st_direction : option Z)
    (supertrend_value candle_close : Q) (macd_histogram : option Q)
    (entry_confidence min_entry_confidence : Q) :
  let r := check_entry market_regime_is_trending st_direction prev_st_direction
             supertrend_value candle_close macd_histogram entry_confidence
             min_entry_confidence in
  (should_enter r = true <-> direction r <> None) /\
  (should_enter r = true <-> reason r = "OK"%string) /\
  In (reason r)
    [ "OK"; "SIDEWAYS_REGIME"; "NO_PREV_ST"; "NO_ST_FLIP"; "INVALID_ST_FLIP";
      "PRICE_NOT_ABOVE_ST"; "PRICE_NOT_BELOW_ST"; "MACD_HIST_TOO_SMALL";
      "LOW_ENTRY_CONFIDENCE" ]%string /\
  (direction r = Some BULLISH ->
   prev_st_direction = Some (-1)%Z /\ st_direction = 1%Z /\
   supertrend_value < candle_close) /\
  (direction r = Some BEARISH ->
   prev_st_direction = Some 1%Z /\ st_direction = (-1)%Z /\
   candle_close < supertrend_value).
Proof.
  cbv zeta. unfold check_entry.
  assert (Leaf : forall s : string,
            In s [ "OK"; "SIDEWAYS_REGIME"; "NO_PREV_ST"; "NO_ST_FLIP";
                   "INVALID_ST_FLIP"; "PRICE_NOT_ABOVE_ST"; "PRICE_NOT_BELOW_ST";
                   "MACD_HIST_TOO_SMALL"; "LOW_ENTRY_CONFIDENCE" ]%string ->
            s <> "OK"%string ->
            (should_enter (mkEntryDecision false None s) = true <->
             direction (mkEntryDecision false None s) <> None) /\
            (should_enter (mkEntryDecision false None s) = true <->
             reason (mkEntryDecision false None s) = "OK"%string) /\
            In (reason (mkEntryDecision false None s))
              [ "OK"; "SIDEWAYS_REGIME"; "NO_PREV_ST"; "NO_ST_FLIP";
                "INVALID_ST_FLIP"; "PRICE_NOT_ABOVE_ST"; "PRICE_NOT_BELOW_ST";
                "MACD_HIST_TOO_SMALL"; "LOW_ENTRY_CONFIDENCE" ]%string /\
            (direction (mkEntryDecision false None s) = Some BULLISH ->
             prev_st_direction = Some (-1)%Z /\ st_direction = 1%Z /\
             supertrend_value < candle_close) /\
            (direction (mkEntryDecision false None s) = Some BEARISH ->
             prev_st_direction = Some 1%Z /\ st_direction = (-1)%Z /\
             candle_close < supertrend_value)).
  { intros s Hin Hs. cbn [should_enter direction reason].
    split; [split; [discriminate|congruence]|].
    split; [split; [discriminate|intros H; contradiction]|].
    split; [exact Hin|]. split; discriminate. }
  destruct market_regime_is_trending; cbn [negb];
    [|apply Leaf; [simpl; tauto|discriminate]].
  destruct prev_st_direction as [p|]; [|apply Leaf; [simpl; tauto|discriminate]].
  destruct (st_direction =? p)%Z; [apply Leaf; [simpl; tauto|discriminate]|].
  destruct (Z.eqb_spec p (-1)) as [Hp1|Hp1];
    destruct (Z.eqb_spec st_direction 1) as [Hs1|Hs1]; cbn [andb].
  - (* bullish *)
    destruct (Py.gt candle_close supertrend_value) eqn:Eg; cbn [negb];
      [|apply Leaf; [simpl; tauto|discriminate]].
    destruct macd_histogram as [m|]; [|apply Leaf; [simpl; tauto|discriminate]].
    destruct (Py.lt (Qabs m) MACD_HIST_MIN);
      [apply Leaf; [simpl; tauto|discriminate]|].
    destruct (Py.lt entry_confidence min_entry_confidence);
      [apply Leaf; [simpl; tauto|discriminate]|].
    cbn [should_enter direction reason]. apply PyFacts.gt_iff in Eg. subst.
    repeat split; try discriminate; try reflexivity; try (simpl; tauto);
      try exact Eg.
  - destruct (Z.eqb_spec p 1); [lia|]. cbn [andb].
    apply Leaf; [simpl; tauto|discriminate].
  - destruct (Z.eqb_spec p 1) as [Hp2|Hp2];
      destruct (Z.eqb_spec st_direction (-1)) as [Hs2|Hs2]; cbn [andb];
      try (apply Leaf; [simpl; tauto|discriminate]).
    (* bearish *)
    destruct (Py.lt candle_close supertrend_value) eqn:Eg; cbn [negb];
      [|apply Leaf; [simpl; tauto|discriminate]].
    destruct macd_histogram as [m|]; [|apply Leaf; [simpl; tauto|discriminate]].
    destruct (Py.lt (Qabs m) MACD_HIST_MIN);
      [apply Leaf; [simpl; tauto|discriminate]|].
    destruct (Py.lt entry_confidence min_entry_confidence);
      [apply Leaf; [simpl; tauto|discriminate]|].
    cbn [should_enter direction reason]. apply PyFacts.lt_iff in Eg. subst.
    repeat split; try discriminate; try reflexivity; try (simpl; tauto);
      try exact Eg.
  - destruct (Z.eqb_spec p 1) as [Hp2|Hp2];
      destruct (Z.eqb_spec st_direction (-1)) as [Hs2|Hs2]; cbn [andb];
      try (apply Leaf; [simpl; tauto|discriminate]).
    (* bearish *)
    destruct (Py.lt candle_close supertrend_value) eqn:Eg; cbn [negb];
      [|apply Leaf; [simpl; tauto|discriminate]].
    destruct macd_histogram as [m|]; [|apply Leaf; [simpl; tauto|discriminate]].
    destruct (Py.lt (Qabs m) MACD_HIST_MIN);
      [apply Leaf; [simpl; tauto|discriminate]|].
    destruct (Py.lt entry_confidence min_entry_confidence);
      [apply Leaf; [simpl; tauto|discriminate]|].
    cbn [should_enter direction reason]. apply PyFacts.lt_iff in Eg. subst.
    repeat split; try discriminate; try reflexivity; try (simpl; tauto);
      try exact Eg.
Qed.

(** An entry stays an entry, in the same direction, when the confidence is
    raised or the minimum lowered. *)
Theorem entry_kept_with_more_confidence (market_regime_is_trending : bool)
    (st_direction : Z) (prev_st_direction : option Z)
    (supertrend_value candle_close : Q) (macd_histogram : option Q)
    (entry_confidence min_entry_confidence : Q)
    (entry_confidence' min_entry_confidence' : Q) :
  should_enter
    (check_entry market_regime_is_trending st_direction prev_st_direction
       supertrend_value candle_close macd_histogram entry_confidence
       min_entry_confidence) = true ->
  entry_confidence <= entry_confidence' ->
  min_entry_confidence' <= min_entry_confidence ->
  check_entry market_regime_is_trending st_direction prev_st_direction
    supertrend_value candle_close macd_histogram entry_confidence'
    min_entry_confidence' =
  check_entry market_regime_is_trending st_direction prev_st_direction
    supertrend_value candle_close macd_histogram entry_confidence
    min_entry_confidence.
Proof.
  intros H Hc Hm. revert H.
  assert (L : Py.lt entry_confidence min_entry_confidence = false ->
              Py.lt entry_confidence' min_entry_confidence' = false).
  { intros E. apply PyFacts.lt_false_iff in E. apply PyFacts.lt_false_iff. lra. }
  unfold check_entry.
  destruct market_regime_is_trending; cbn [negb]; [|discriminate].
  destruct prev_st_direction as [p|]; [|discriminate].
  destruct (st_direction =? p)%Z; [discriminate|].
  destruct ((p =? -1) && (st_direction =? 1))%Z%bool.
  - destruct (negb (Py.gt candle_close supertrend_value)); [discriminate|].
    destruct macd_histogram as [m|]; [|discriminate].
    destruct (Py.lt (Qabs m) MACD_HIST_MIN); [discriminate|].
    destruct (Py.lt entry_confidence min_entry_confidence); [discriminate|].
    rewrite (L eq_refl). reflexivity.
  - destruct ((p =? 1) && (st_direction =? -1))%Z%bool; [|discriminate].
    destruct (negb (Py.lt candle_close supertrend_value)); [discriminate|].
    destruct macd_histogram as [m|]; [|discriminate].
    destruct (Py.lt (Qabs m) MACD_HIST_MIN); [discriminate|].
    destruct (Py.lt entry_confidence min_entry_confidence); [discriminate|].
    rewrite (L eq_refl). reflexivity.
Qed.

(** A bullish entry at a confidence of 65 is the same entry at 80. *)
Lemma entry_kept_with_more_confidence_witness :
  check_entry true 1 (Some (-1)%Z) 100 101 (Some 0.5) 80 65 =
  check_entry true 1 (Some (-1)%Z) 100 101 (Some 0.5) 65 65.
Proof.
  apply (entry_kept_with_more_confidence true 1 (Some (-1)%Z) 100 101 (Some 0.5)
           65 65 80 65).
  - vm_compute. reflexivity.
  - discriminate.
  - discriminate.
Defined.

(** The two directions are treated alike: with both SuperTrend directions,
    the line, the close and the histogram negated, the decision is the same
    one for the other direction, with the two price reason codes exchanged. *)
Theorem check_entry_mirror (market_regime_is_trending : bool)
    (st_direction : Z) (prev_st_direction : option Z)
    (supertrend_value candle_close : Q) (macd_histogram : option Q)
    (entry_confidence min_entry_confidence : Q) :
  check_entry market_regime_is_trending (- st_direction)
    (option_map Z.opp prev_st_direction) (- supertrend_value) (- candle_close)
    (option_map Qopp macd_histogram) entry_confidence min_entry_confidence =
  mirror_decision
    (check_entry market_regime_is_trending st_direction prev_st_direction
       supertrend_value candle_close macd_histogram entry_confidence
       min_entry_confidence).
Proof.
  unfold check_entry, mirror_decision.
  destruct market_regime_is_trending; cbn [negb]; [|reflexivity].
  destruct prev_st_direction as [p|]; cbn [option_map]; [|reflexivity].
  rewrite eqb_opp.
  destruct (st_direction =? p)%Z; [reflexivity|].
  change (- p =? -1)%Z with (- p =? - (1))%Z.
  change (- st_direction =? -1)%Z with (- st_direction =? - (1))%Z.
  change (- p =? 1)%Z with (- p =? - (-1))%Z.
  change (- st_direction =? 1)%Z with (- st_direction =? - (-1))%Z.
  rewrite !eqb_opp.
  assert (G : Py.gt (- candle_close) (- supertrend_value)
              = Py.lt candle_close supertrend_value).
  { unfold Py.gt, Py.lt. rewrite qle_bool_opp. reflexivity. }
  assert (L : Py.lt (- candle_close) (- supertrend_value)
              = Py.gt candle_close supertrend_value).
  { unfold Py.gt, Py.lt. rewrite qle_bool_opp. reflexivity. }
  rewrite G, L.
  assert (M : forall m, Py.lt (Qabs (- m)) MACD_HIST_MIN
                        = Py.lt (Qabs m) MACD_HIST_MIN).
  { intros m. apply PyFacts.lt_compat; [apply Qabs_opp|reflexivity]. }
  destruct (Z.eqb_spec p 1) as [Hp|Hp]; destruct (Z.eqb_spec p (-1)) as [Hq|Hq];
    try lia;
    destruct (Z.eqb_spec st_direction 1) as [Hs|Hs];
    destruct (Z.eqb_spec st_direction (-1)) as [Ht|Ht];
    try lia; cbn [andb]; try reflexivity.
  - destruct (Py.lt candle_close supertrend_value); cbn [negb]; [|reflexivity].
    destruct macd_histogram as [m|]; cbn [option_map]; [|reflexivity].
    rewrite M. destruct (Py.lt (Qabs m) MACD_HIST_MIN); [reflexivity|].
    destruct (Py.lt entry_confidence min_entry_confidence); reflexivity.
  - destruct (Py.gt candle_close supertrend_value); cbn [negb]; [|reflexivity].
    destruct macd_histogram as [m|]; cbn [option_map]; [|reflexivity].
    rewrite M. destruct (Py.lt (Qabs m) MACD_HIST_MIN); [reflexivity|].
    destruct (Py.lt entry_confidence min_entry_confidence); reflexivity.
Qed.

End EntryMore.

(** ** ExitLogic: forced exits, the bypass and the position type *)

Module ExitMore.

Import Exit.
Local Open Scope Q_scope.

Lemma upper_ascii_idempotent (c : ascii) :
  Py.upper_ascii (Py.upper_ascii c) = Py.upper_ascii c.
Proof.
  destruct c as [[|] [|] [|] [|] [|] [|] [|] [|]]; vm_compute; reflexivity.
Qed.

Lemma upper_idempotent (s : string) : Py.upper (Py.upper s) = Py.upper s.
Proof.
  induction s as [|c s IH]; [reflexivity|].
  simpl. rewrite upper_ascii_idempotent, IH. reflexivity.
Qed.

(** The cutoff compares hour and minute only. *)
Lemma cutoff_reached_iff (t : time) :
  time_ge t EOD_CUTOFF = true <->
  (15 < hour t \/ (hour t = 15 /\ 20 <= minute t))%nat.
Proof.
  unfold time_ge, time_compare, EOD_CUTOFF. cbn [hour minute second microsecond].
  destruct (Nat.compare_spec (hour t) 15) as [Hh|Hh|Hh].
  - destruct (Nat.compare_spec (minute t) 20) as [Hm|Hm|Hm].
    + destruct (Nat.compare_spec (second t) 0) as [Hs|Hs|Hs]; [|lia|].
      * destruct (Nat.compare_spec (microsecond t) 0) as [Hu|Hu|Hu]; [|lia|];
          split; try reflexivity; intros _; right; lia.
      * split; [intros _; right; lia|reflexivity].
    + split; [discriminate|lia].
    + split; [intros _; right; lia|reflexivity].
  - split; [discriminate|lia].
  - split; [intros _; left; lia|reflexivity].
Qed.

(** An open position is always closed when the runtime confidence is at or
    below the minimum, and always closed from 15:20 on unless the bypass is
    set; the signal then carries a reason. *)
Theorem exit_is_forced (current_option_ltp hard_sl trailing_sl : option Q)
    (runtime_confidence min_runtime_confidence : Q)
    (st_direction prev_st_direction : option Z)
    (position_type : option string) (current_time_ist : time)
    (bypass_eod_exit : bool) :
  runtime_confidence <= min_runtime_confidence \/
  (bypass_eod_exit = false /\
   (15 < hour current_time_ist \/
    (hour current_time_ist = 15 /\ 20 <= minute current_time_ist))%nat) ->
  should_exit
    (check_exit true current_option_ltp hard_sl trailing_sl runtime_confidence
       min_runtime_confidence st_direction prev_st_direction position_type
       current_time_ist bypass_eod_exit) = true /\
  reason
    (check_exit true current_option_ltp hard_sl trailing_sl runtime_confidence
       min_runtime_confidence st_direction prev_st_direction position_type
       current_time_ist bypass_eod_exit) <> None.
Proof.
  intros H.
  pose (i := mkInputs current_option_ltp hard_sl trailing_sl runtime_confidence
               min_runtime_confidence st_direction prev_st_direction
               position_type current_time_ist bypass_eod_exit).
  change (check_exit true current_option_ltp hard_sl trailing_sl
            runtime_confidence min_runtime_confidence st_direction
            prev_st_direction position_type current_time_ist bypass_eod_exit)
    with (check_exit_on true i).
  rewrite ExitFacts.check_exit_first_match.
  assert (Hc : cond_confidence i = true \/ cond_eod i = true).
  { destruct H as [H|[Hb Ht]].
    - left. apply PyFacts.le_iff. exact H.
    - right. unfold cond_eod, i. cbn [Exit.current_time_ist Exit.bypass_eod_exit].
      rewrite Hb. apply cutoff_reached_iff in Ht. rewrite Ht. reflexivity. }
  unfold conditions. cbn [first_match].
  destruct (cond_hard_sl i); [split; [reflexivity|discriminate]|].
  destruct (cond_trailing_sl i); [split; [reflexivity|discriminate]|].
  destruct (cond_confidence i); [split; [reflexivity|discriminate]|].
  destruct (cond_st_reversal i); [split; [reflexivity|discriminate]|].
  destruct (cond_eod i); [split; [reflexivity|discriminate]|].
  destruct Hc; discriminate.
Qed.

(** A position far from its stops and with a confidence of 80, at 15:20 and
    30 seconds. *)
Lemma exit_is_forced_witness :
  should_exit
    (check_exit true (Some 120) (Some 100) (Some 110) 80 40 (Some 1%Z)
       (Some 1%Z) (Some "CE"%string) (mkTime 15 20 30 0) false) = true.
Proof.
  refine (proj1 (exit_is_forced (Some 120) (Some 100) (Some 110) 80 40 (Some 1%Z)
                   (Some 1%Z) (Some "CE"%string) (mkTime 15 20 30 0) false _)).
  right. split; [reflexivity|]. right. split; [reflexivity|].
  cbn [minute]. repeat constructor.
Defined.

(** A signal is an exit exactly when it has a reason, with or without an open
    position; without one there is no exit; EOD_EXIT is only given from 15:20
    on with the bypass not set. *)
Theorem exit_signal_consistent (is_open_position : bool)
    (current_option_ltp hard_sl trailing_sl : option Q)
    (runtime_confidence min_runtime_confidence : Q)
    (st_direction prev_st_direction : option Z)
    (position_type : option string) (current_time_ist : time)
    (bypass_eod_exit : bool) :
  let r := check_exit is_open_position current_option_ltp hard_sl trailing_sl
             runtime_confidence min_runtime_confidence st_direction
             prev_st_direction position_type current_time_ist bypass_eod_exit in
  (should_exit r = true <-> reason r <> None) /\
  (is_open_position = false -> r = mkExitSignal false None) /\
  (reason r = Some EOD_EXIT ->
   is_open_position = true /\ bypass_eod_exit = false /\
   (15 < hour current_time_ist \/
    (hour current_time_ist = 15 /\ 20 <= minute current_time_ist))%nat).
Proof.
  cbv zeta. destruct is_open_position.
  - pose (i := mkInputs current_option_ltp hard_sl trailing_sl runtime_confidence
                 min_runtime_confidence st_direction prev_st_direction
                 position_type current_time_ist bypass_eod_exit).
    change (check_exit true current_option_ltp hard_sl trailing_sl
              runtime_confidence min_runtime_confidence st_direction
              prev_st_direction position_type current_time_ist bypass_eod_exit)
      with (check_exit_on true i).
    rewrite ExitFacts.check_exit_first_match.
    unfold conditions. cbn [first_match].
    destruct (cond_hard_sl i);
      [split; [split; [discriminate|reflexivity]|split; discriminate]|].
    destruct (cond_trailing_sl i);
      [split; [split; [discriminate|reflexivity]|split; discriminate]|].
    destruct (cond_confidence i);
      [split; [split; [discriminate|reflexivity]|split; discriminate]|].
    destruct (cond_st_reversal i);
      [split; [split; [discriminate|reflexivity]|split; discriminate]|].
    destruct (cond_eod i) eqn:E; cbn [signal_of should_exit reason].
    + split; [split; [discriminate|reflexivity]|]. split; [discriminate|].
      intros _. unfold cond_eod, i in E.
      cbn [Exit.current_time_ist Exit.bypass_eod_exit] in E.
      apply andb_true_iff in E. destruct E as [Et Eb].
      apply negb_true_iff in Eb. apply cutoff_reached_iff in Et. auto.
    + split; [split; [discriminate|intros H; contradiction]|split; discriminate].
  - cbn. split; [split; [discriminate|intros H; contradiction]|].
    split; [reflexivity|discriminate].
Qed.

(** The bypass takes away the end-of-day exit and nothing else: with the
    bypass set the signal is the one without it, except that an EOD_EXIT
    becomes no exit. *)
Theorem bypass_only_drops_eod_exit (is_open_position : bool)
    (current_option_ltp hard_sl trailing_sl : option Q)
    (runtime_confidence min_runtime_confidence : Q)
    (st_direction prev_st_direction : option Z)
    (position_type : option string) (current_time_ist : time) :
  check_exit is_open_position current_option_ltp hard_sl trailing_sl
    runtime_confidence min_runtime_confidence st_direction prev_st_direction
    position_type current_time_ist true =
  match reason
          (check_exit is_open_position current_option_ltp hard_sl trailing_sl
             runtime_confidence min_runtime_confidence st_direction
             prev_st_direction position_type current_time_ist false) with
  | Some EOD_EXIT => mkExitSignal false None
  | _ =>
      check_exit is_open_position current_option_ltp hard_sl trailing_sl
        runtime_confidence min_runtime_confidence st_direction
        prev_st_direction position_type current_time_ist false
  end.
Proof.
  unfold check_exit. cbv zeta. cbn [negb andb].
  repeat match goal with
         | |- context [if ?c then _ else _] => destruct c
         end; reflexivity.
Qed.

(** The type of the position is read without regard to case, and an absent
    type is read like the empty one. *)
Theorem position_type_case_insensitive (is_open_position : bool)
    (current_option_ltp hard_sl trailing_sl : option Q)
    (runtime_confidence min_runtime_confidence : Q)
    (st_direction prev_st_direction : option Z)
    (position_type : string) (current_time_ist : time)
    (bypass_eod_exit : bool) :
  check_exit is_open_position current_option_ltp hard_sl trailing_sl
    runtime_confidence min_runtime_confidence st_direction prev_st_direction
    (Some (Py.upper position_type)) current_time_ist bypass_eod_exit =
  check_exit is_open_position current_option_ltp hard_sl trailing_sl
    runtime_confidence min_runtime_confidence st_direction prev_st_direction
    (Some position_type) current_time_ist bypass_eod_exit /\
  check_exit is_open_position current_option_ltp hard_sl trailing_sl
    runtime_confidence min_runtime_confidence st_direction prev_st_direction
    None current_time_ist bypass_eod_exit =
  check_exit is_open_position current_option_ltp hard_sl trailing_sl
    runtime_confidence min_runtime_confidence st_direction prev_st_direction
    (Some ""%string) current_time_ist bypass_eod_exit.
Proof.
  unfold check_exit, position_upper. rewrite upper_idempotent.
  split; reflexivity.
Qed.

(** A hard stop that is hit stays hit at any lower price that is still
    positive, and with any higher stop. *)
Theorem hard_stop_kept_at_lower_price (ltp ltp' sl sl' : Q)
    (trailing_sl : option Q) (runtime_confidence min_runtime_confidence : Q)
    (st_direction prev_st_direction : option Z)
    (position_type : option string) (current_time_ist : time)
    (bypass_eod_exit : bool) :
  check_exit true (Some ltp) (Some sl) trailing_sl runtime_confidence
    min_runtime_confidence st_direction prev_st_direction position_type
    current_time_ist bypass_eod_exit = mkExitSignal true (Some SL_HIT) ->
  0 < ltp' -> ltp' <= ltp -> sl <= sl' ->
  check_exit true (Some ltp') (Some sl') trailing_sl runtime_confidence
    min_runtime_confidence st_direction prev_st_direction position_type
    current_time_ist bypass_eod_exit = mkExitSignal true (Some SL_HIT).
Proof.
  intros H Hpos Hle Hsl.
  pose (i := mkInputs (Some ltp) (Some sl) trailing_sl runtime_confidence
               min_runtime_confidence st_direction prev_st_direction
               position_type current_time_ist bypass_eod_exit).
  pose (i' := mkInputs (Some ltp') (Some sl') trailing_sl runtime_confidence
                min_runtime_confidence st_direction prev_st_direction
                position_type current_time_ist bypass_eod_exit).
  change (check_exit_on true i = mkExitSignal true (Some SL_HIT)) in H.
  change (check_exit_on true i' = mkExitSignal true (Some SL_HIT)).
  rewrite ExitFacts.check_exit_first_match in H.
  rewrite ExitFacts.check_exit_first_match.
  assert (Hh : cond_hard_sl i = true).
  { revert H. unfold conditions. cbn [first_match].
    destruct (cond_hard_sl i); [reflexivity|].
    destruct (cond_trailing_sl i); [discriminate|].
    destruct (cond_confidence i); [discriminate|].
    destruct (cond_st_reversal i); [discriminate|].
    destruct (cond_eod i); discriminate. }
  apply ExitFacts.cond_hard_sl_iff in Hh.
  destruct Hh as (s & Hs & H1 & H2).
  unfold i in Hs, H1, H2. cbn [Exit.hard_sl ltp_of Exit.current_option_ltp] in Hs, H1, H2.
  injection Hs as Hs. subst s.
  assert (Hh' : cond_hard_sl i' = true).
  { apply ExitFacts.cond_hard_sl_iff. exists sl'.
    unfold i'. cbn [Exit.hard_sl ltp_of Exit.current_option_ltp].
    repeat split; [lra|exact Hpos]. }
  unfold conditions. cbn [first_match]. rewrite Hh'. reflexivity.
Qed.

(** The scenario of the stops at 100 and 110: hit at a price of 95, the hard
    stop is hit at 90 as well. *)
Lemma hard_stop_kept_at_lower_price_witness :
  check_exit true (Some 90) (Some 100) (Some 110) 80 40 (Some 1%Z) (Some 1%Z)
    (Some "CE"%string) (mkTime 10 0 0 0) false = mkExitSignal true (Some SL_HIT).
Proof.
  apply (hard_stop_kept_at_lower_price 95 90 100 100 (Some 110) 80 40 (Some 1%Z)
           (Some 1%Z) (Some "CE"%string) (mkTime 10 0 0 0) false).
  - vm_compute. reflexivity.
  - reflexivity.
  - discriminate.
  - discriminate.
Defined.

End ExitMore.

(** ** The calculator's score in front of the entry gate *)

Module EntryOnScore.

Import Confidence.
Local Open Scope Q_scope.

(** Missing inputs cap the score: without a histogram the total is at most 70,
    without at least three earlier ranges the volatility factor is 0 and the
    total at most 80, and without both the total stays below the minimum of
    65. *)
Theorem missing_inputs_cap_score
    (supertrend_distance_pct candle_open candle_high candle_low candle_close : Q)
    (macd_histogram : option Q) (recent_ranges : option (list Q)) :
  let b := calculate_entry_confidence supertrend_distance_pct candle_open
             candle_high candle_low candle_close macd_histogram recent_ranges in
  let few_ranges :=
    recent_ranges = None \/
    exists l, recent_ranges = Some l /\ (List.length l < 3)%nat in
  (macd_histogram = None -> macd_momentum b = 0 /\ total b <= 70) /\
  (few_ranges -> volatility_expansion b = 0 /\ total b <= 80) /\
  (macd_histogram = None -> few_ranges -> total b < MIN_ENTRY_CONFIDENCE).
Proof.
  cbv zeta.
  assert (Hv : recent_ranges = None \/
               (exists l, recent_ranges = Some l /\ (List.length l < 3)%nat) ->
               volatility_expansion_of (candle_high - candle_low) recent_ranges = 0).
  { intros H. unfold volatility_expansion_of. cbv zeta.
    destruct (Py.gt (candle_high - candle_low) 0); [|reflexivity].
    destruct H as [->|(l & -> & Hl)]; [reflexivity|].
    apply Nat.leb_gt in Hl. rewrite Hl. reflexivity. }
  unfold calculate_entry_confidence. cbv zeta.
  cbn [total st_strength candle_body_strength macd_momentum volatility_expansion].
  pose proof (ConfidenceFacts.st_strength_values supertrend_distance_pct) as H1.
  pose proof (ConfidenceFacts.candle_body_strength_values
                (body_pct_of candle_open candle_high candle_low candle_close)) as H2.
  pose proof (ConfidenceFacts.macd_momentum_values macd_histogram) as H3.
  pose proof (ConfidenceFacts.volatility_expansion_values
                (candle_high - candle_low) recent_ranges) as H4.
  assert (Hm : macd_histogram = None -> macd_momentum_of macd_histogram = 0)
    by (intros ->; reflexivity).
  set (s1 := st_strength_of _) in *.
  set (s2 := candle_body_strength_of _) in *.
  set (s3 := macd_momentum_of _) in *.
  set (s4 := volatility_expansion_of _ _) in *.
  clearbody s1 s2 s3 s4.
  split; [|split].
  - intros Hn. rewrite (Hm Hn). split; [reflexivity|].
    destruct H1 as [-> | ->]; destruct H2 as [-> | ->]; destruct H4 as [-> | ->];
      vm_compute; discriminate.
  - intros Hf. rewrite (Hv Hf). split; [reflexivity|].
    destruct H1 as [-> | ->]; destruct H2 as [-> | ->];
      destruct H3 as [-> | [-> | [-> | [-> | ->]]]]; vm_compute; discriminate.
  - intros Hn Hf. rewrite (Hm Hn), (Hv Hf).
    destruct H1 as [-> | ->]; destruct H2 as [-> | ->]; vm_compute; reflexivity.
Qed.

End EntryOnScore.

(** * Properties on binary64 floats *)

(** ** The order of floats *)

Module IeeeFacts.

Import PrimFloat SpecFloat FloatOps FloatAxioms.

Lemma SFcompare_antisym (f1 f2 : spec_float) :
  SFcompare f2 f1 = option_map CompOpp (SFcompare f1 f2).
Proof.
  destruct f1 as [s1|s1| |s1 m1 e1], f2 as [s2|s2| |s2 m2 e2]; simpl;
    try destruct s1; try destruct s2; try reflexivity.
  - rewrite (Z.compare_antisym e1 e2).
    destruct (e1 ?= e2)%Z; simpl; try reflexivity.
    change (Pos.compare_cont Eq m2 m1) with (m2 ?= m1)%positive.
    change (Pos.compare_cont Eq m1 m2) with (m1 ?= m2)%positive.
    rewrite (Pos.compare_antisym m1 m2). reflexivity.
  - rewrite (Z.compare_antisym e1 e2).
    destruct (e1 ?= e2)%Z; simpl; try reflexivity.
    change (Pos.compare_cont Eq m2 m1) with (m2 ?= m1)%positive.
    change (Pos.compare_cont Eq m1 m2) with (m1 ?= m2)%positive.
    rewrite (Pos.compare_antisym m1 m2). reflexivity.
Qed.

Lemma SFcompare_refl (f : spec_float) :
  f <> S754_nan -> SFcompare f f = Some Eq.
Proof.
  destruct f as [s|s| |s m e]; simpl; intros H; try destruct s; try reflexivity.
  - contradiction.
  - rewrite Z.compare_refl.
    change (Pos.compare_cont Eq m m) with (m ?= m)%positive.
    rewrite Pos.compare_refl. reflexivity.
  - rewrite Z.compare_refl.
    change (Pos.compare_cont Eq m m) with (m ?= m)%positive.
    rewrite Pos.compare_refl. reflexivity.
Qed.

Lemma is_nan_spec (x : float) : is_nan x = true <-> Prim2SF x = S754_nan.
Proof.
  unfold is_nan. rewrite eqb_spec. unfold SFeqb. split.
  - intros H. destruct (Prim2SF x) eqn:E; try reflexivity;
      rewrite SFcompare_refl in H by discriminate; discriminate.
  - intros ->. reflexivity.
Qed.

Lemma not_nan_spec (x : float) : is_nan x = false <-> Prim2SF x <> S754_nan.
Proof.
  rewrite <- is_nan_spec. destruct (is_nan x); split; congruence.
Qed.

Lemma compare_defined (x y : float) :
  is_nan x = false -> is_nan y = false ->
  exists c, SFcompare (Prim2SF x) (Prim2SF y) = Some c.
Proof.
  rewrite !not_nan_spec. intros Hx Hy.
  destruct (Prim2SF x), (Prim2SF y); simpl; try contradiction; eauto.
Qed.

Lemma lt_false_ge (x y : float) :
  is_nan x = false -> is_nan y = false ->
  Ieee.lt x y = false -> Ieee.ge x y = true.
Proof.
  intros Hx Hy. unfold Ieee.lt, Ieee.ge. rewrite ltb_spec, leb_spec.
  unfold SFltb, SFleb. rewrite (SFcompare_antisym (Prim2SF x) (Prim2SF y)).
  destruct (compare_defined x y Hx Hy) as [c ->].
  destruct c; simpl; congruence.
Qed.

Lemma ge_lt_false (x y : float) : Ieee.ge x y = true -> Ieee.lt x y = false.
Proof.
  unfold Ieee.lt, Ieee.ge. rewrite ltb_spec, leb_spec.
  unfold SFltb, SFleb. rewrite (SFcompare_antisym (Prim2SF x) (Prim2SF y)).
  destruct (SFcompare (Prim2SF x) (Prim2SF y)) as [[| |]|]; simpl; congruence.
Qed.

Lemma le_not_lt_eq (x y : float) :
  Ieee.le x y = true -> Ieee.lt x y = false -> eqb x y = true.
Proof.
  unfold Ieee.lt, Ieee.le. rewrite ltb_spec, leb_spec, eqb_spec.
  unfold SFltb, SFleb, SFeqb.
  destruct (SFcompare (Prim2SF x) (Prim2SF y)) as [[| |]|]; simpl; congruence.
Qed.

Lemma eqb_sym (x y : float) : eqb x y = eqb y x.
Proof.
  rewrite !eqb_spec. unfold SFeqb.
  rewrite (SFcompare_antisym (Prim2SF x) (Prim2SF y)).
  destruct (SFcompare (Prim2SF x) (Prim2SF y)) as [[| |]|]; reflexivity.
Qed.

Lemma abs_is_nan (x : float) : is_nan (abs x) = is_nan x.
Proof.
  destruct (is_nan x) eqn:E.
  - apply is_nan_spec. rewrite abs_spec. apply is_nan_spec in E. rewrite E. reflexivity.
  - apply not_nan_spec. rewrite abs_spec. apply not_nan_spec in E.
    destruct (Prim2SF x); simpl; congruence.
Qed.

(** A value below a positive constant is not at or above a larger one. *)
Lemma below_constant (x c1 c2 : float) (m1 m2 : positive) (e1 e2 : Z) :
  Prim2SF c1 = S754_finite false m1 e1 ->
  Prim2SF c2 = S754_finite false m2 e2 ->
  (e1 < e2 \/ (e1 = e2 /\ (m1 <= m2)%positive))%Z ->
  Ieee.lt x c1 = true -> Ieee.ge x c2 = false.
Proof.
  intros H1 H2 Hle. unfold Ieee.lt, Ieee.ge. rewrite ltb_spec, leb_spec, H1, H2.
  unfold SFltb, SFleb.
  destruct (Prim2SF x) as [s|s| |s m e]; simpl; try destruct s; try congruence.
  change (Pos.compare_cont Eq m m1) with (m ?= m1)%positive.
  change (Pos.compare_cont Eq m2 m) with (m2 ?= m)%positive.
  destruct (Z.compare_spec e e1); destruct (Z.compare_spec e2 e);
    destruct (Pos.compare_spec m m1); destruct (Pos.compare_spec m2 m);
    try congruence; lia.
Qed.

(** A comparison that holds has no NaN on either side. *)
Lemma le_not_nan (x y : float) :
  Ieee.le x y = true -> is_nan x = false /\ is_nan y = false.
Proof.
  unfold Ieee.le. rewrite leb_spec, !not_nan_spec. unfold SFleb.
  destruct (Prim2SF x), (Prim2SF y); simpl; try discriminate;
    intros _; split; discriminate.
Qed.

Lemma eqb_refl (x : float) : is_nan x = false -> eqb x x = true.
Proof.
  unfold is_nan. intros H. apply negb_false_iff in H. exact H.
Qed.

(** A value strictly above another one is not equal to it. *)
Lemma gt_not_eq (x y : float) : Ieee.gt x y = true -> eqb x y = false.
Proof.
  unfold Ieee.gt. rewrite ltb_spec, eqb_spec. unfold SFltb, SFeqb.
  rewrite (SFcompare_antisym (Prim2SF y) (Prim2SF x)).
  destruct (SFcompare (Prim2SF y) (Prim2SF x)) as [[| |]|]; simpl; congruence.
Qed.

End IeeeFacts.

(** ** EntryLogic on floats *)

Module EntryIeeeFacts.

Import PrimFloat Entry EntryIeee.

(** An entry is a decision with a direction and the reason "OK". *)
Lemma check_entry_enters_some (market_regime_is_trending : bool)
    (st_direction : Z) (prev_st_direction : option Z)
    (supertrend_value candle_close : float) (macd_histogram : option float)
    (entry_confidence min_entry_confidence : float) :
  should_enter
    (check_entry market_regime_is_trending st_direction prev_st_direction
       supertrend_value candle_close macd_histogram entry_confidence
       min_entry_confidence) = true ->
  exists d,
    check_entry market_regime_is_trending st_direction prev_st_direction
      supertrend_value candle_close macd_histogram entry_confidence
      min_entry_confidence = mkEntryDecision true (Some d) "OK".
Proof.
  unfold check_entry.
  destruct market_regime_is_trending; cbn [negb]; [|discriminate].
  destruct prev_st_direction as [p|]; [|discriminate].
  destruct (st_direction =? p)%Z; [discriminate|].
  destruct ((p =? -1) && (st_direction =? 1))%Z%bool.
  - destruct (negb (Ieee.gt candle_close supertrend_value)); [discriminate|].
    destruct macd_histogram as [m|]; [|discriminate].
    destruct (Ieee.lt (abs m) MACD_HIST_MIN); [discriminate|].
    destruct (Ieee.lt entry_confidence min_entry_confidence); [discriminate|].
    intros _. exists BULLISH. reflexivity.
  - destruct ((p =? 1) && (st_direction =? -1))%Z%bool; [|discriminate].
    destruct (negb (Ieee.lt candle_close supertrend_value)); [discriminate|].
    destruct macd_histogram as [m|]; [|discriminate].
    destruct (Ieee.lt (abs m) MACD_HIST_MIN); [discriminate|].
    destruct (Ieee.lt entry_confidence min_entry_confidence); [discriminate|].
    intros _. exists BEARISH. reflexivity.
Qed.

(** On all floats: [check_entry] enters in a direction exactly when the regime
    is trending, the flip is valid for that direction with the close on its
    side of the line, the histogram is there and its magnitude is not below
    0.5, and the confidence is not below the minimum. *)
Lemma check_entry_enters_iff (market_regime_is_trending : bool)
    (st_direction : Z) (prev_st_direction : option Z)
    (supertrend_value candle_close : float) (macd_histogram : option float)
    (entry_confidence min_entry_confidence : float) (d : EntryDirection) :
  check_entry market_regime_is_trending st_direction prev_st_direction
    supertrend_value candle_close macd_histogram entry_confidence
    min_entry_confidence = mkEntryDecision true (Some d) "OK" <->
  market_regime_is_trending = true /\
  confirmed_flip st_direction prev_st_direction supertrend_value candle_close d /\
  (exists h, macd_histogram = Some h /\ Ieee.lt (abs h) MACD_HIST_MIN = false) /\
  Ieee.lt entry_confidence min_entry_confidence = false.
Proof.
  split.
  - unfold check_entry.
    destruct market_regime_is_trending; cbn [negb]; [|discriminate].
    destruct prev_st_direction as [p|]; [|discriminate].
    destruct (st_direction =? p)%Z; [discriminate|].
    destruct (Z.eqb_spec p (-1)) as [Hp|Hp];
      destruct (Z.eqb_spec st_direction 1) as [Hs|Hs]; cbn [andb].
    + destruct (Ieee.gt candle_close supertrend_value) eqn:Eg; cbn [negb];
        [|discriminate].
      destruct macd_histogram as [m|]; [|discriminate].
      destruct (Ieee.lt (abs m) MACD_HIST_MIN) eqn:Em; [discriminate|].
      destruct (Ieee.lt entry_confidence min_entry_confidence) eqn:Ec;
        [discriminate|].
      intros H. injection H as <-. subst. simpl. eauto 10.
    + subst p. change (-1 =? 1)%Z with false. cbn [andb]. discriminate.
    + subst st_direction. change (1 =? -1)%Z with false.
      rewrite andb_false_r. discriminate.
    + destruct (Z.eqb_spec p 1) as [Hq|Hq];
        destruct (Z.eqb_spec st_direction (-1)) as [Ht|Ht]; cbn [andb];
        try discriminate.
      destruct (Ieee.lt candle_close supertrend_value) eqn:Eg; cbn [negb];
        [|discriminate].
      destruct macd_histogram as [m|]; [|discriminate].
      destruct (Ieee.lt (abs m) MACD_HIST_MIN) eqn:Em; [discriminate|].
      destruct (Ieee.lt entry_confidence min_entry_confidence) eqn:Ec;
        [discriminate|].
      intros H. injection H as <-. subst. simpl. eauto 10.
  - intros (-> & Hf & (h & -> & Hh) & Hc).
    destruct d; destruct Hf as (-> & -> & Hg); unfold check_entry; simpl;
      rewrite Hg, Hh, Hc; reflexivity.
Qed.

(** On floats none of which is NaN the last two conditions are the gates of
    the specification: a magnitude of at least 0.5 and a confidence of at least
    the minimum. *)
Lemma check_entry_gates_without_nan (market_regime_is_trending : bool)
    (st_direction : Z) (prev_st_direction : option Z)
    (supertrend_value candle_close : float) (macd_histogram : option float)
    (entry_confidence min_entry_confidence : float) (d : EntryDirection) :
  is_nan entry_confidence = false -> is_nan min_entry_confidence = false ->
  (forall h, macd_histogram = Some h -> is_nan h = false) ->
  (check_entry market_regime_is_trending st_direction prev_st_direction
     supertrend_value candle_close macd_histogram entry_confidence
     min_entry_confidence = mkEntryDecision true (Some d) "OK" <->
   market_regime_is_trending = true /\
   confirmed_flip st_direction prev_st_direction supertrend_value candle_close d /\
   (exists h, macd_histogram = Some h /\ Ieee.ge (abs h) MACD_HIST_MIN = true) /\
   Ieee.ge entry_confidence min_entry_confidence = true).
Proof.
  intros Hc Hm Hh. rewrite check_entry_enters_iff.
  assert (Hmin : is_nan MACD_HIST_MIN = false) by reflexivity.
  split.
  - intros (H1 & H2 & (h & E & H3) & H4). repeat split; try assumption.
    + exists h. split; [exact E|].
      apply IeeeFacts.lt_false_ge; try assumption.
      rewrite IeeeFacts.abs_is_nan. apply Hh. exact E.
    + apply IeeeFacts.lt_false_ge; assumption.
  - intros (H1 & H2 & (h & E & H3) & H4). repeat split; try assumption.
    + exists h. split; [exact E|]. apply IeeeFacts.ge_lt_false. exact H3.
    + apply IeeeFacts.ge_lt_false. exact H4.
Qed.

(** The refusal MACD_HIST_TOO_SMALL is for an absent histogram or one whose
    magnitude is below 0.5. *)
Lemma check_entry_macd_refusal (market_regime_is_trending : bool)
    (st_direction : Z) (prev_st_direction : option Z)
    (supertrend_value candle_close : float) (macd_histogram : option float)
    (entry_confidence min_entry_confidence : float) :
  reason
    (check_entry market_regime_is_trending st_direction prev_st_direction
       supertrend_value candle_close macd_histogram entry_confidence
       min_entry_confidence) = "MACD_HIST_TOO_SMALL"%string ->
  match macd_histogram with
  | None => True
  | Some h => Ieee.lt (abs h) MACD_HIST_MIN = true
  end.
Proof.
  unfold check_entry.
  destruct market_regime_is_trending; cbn [negb]; [|discriminate].
  destruct prev_st_direction as [p|]; [|discriminate].
  destruct (st_direction =? p)%Z; [discriminate|].
  destruct ((p =? -1) && (st_direction =? 1))%Z%bool.
  - destruct (negb (Ieee.gt candle_close supertrend_value)); [discriminate|].
    destruct macd_histogram as [m|]; [|intros _; exact I].
    destruct (Ieee.lt (abs m) MACD_HIST_MIN); [reflexivity|].
    destruct (Ieee.lt entry_confidence min_entry_confidence); discriminate.
  - destruct ((p =? 1) && (st_direction =? -1))%Z%bool; [|discriminate].
    destruct (negb (Ieee.lt candle_close supertrend_value)); [discriminate|].
    destruct macd_histogram as [m|]; [|intros _; exact I].
    destruct (Ieee.lt (abs m) MACD_HIST_MIN); [reflexivity|].
    destruct (Ieee.lt entry_confidence min_entry_confidence); discriminate.
Qed.

(** C1: with the regime trending, the flip -1 -> 1 and the close above the
    line, [check_entry] enters on a histogram that is NaN, whose magnitude is
    not at least 0.5, and on a confidence that is NaN, which is not at least
    the minimum: gates 6 and 7 fail and the decision is should_enter = True
    with the reason "OK". *)
Theorem check_entry_enters_on_nan :
  (check_entry true 1 (Some (-1)%Z) 100 101 (Some nan) 80
     DEFAULT_MIN_ENTRY_CONFIDENCE = mkEntryDecision true (Some BULLISH) "OK" /\
   Ieee.ge (abs nan) MACD_HIST_MIN = false) /\
  (check_entry true 1 (Some (-1)%Z) 100 101 (Some 1%float) nan
     DEFAULT_MIN_ENTRY_CONFIDENCE = mkEntryDecision true (Some BULLISH) "OK" /\
   Ieee.ge nan DEFAULT_MIN_ENTRY_CONFIDENCE = false).
Proof. repeat split; vm_compute; reflexivity. Qed.

End EntryIeeeFacts.

(** ** MarketRegimeDetector on floats *)

Module RegimeIeeeFacts.

Import PrimFloat Regime RegimeIeee.

Lemma float_distance_pct_some (price line : option float) (d : float) :
  distance_pct price line = Some d <->
  exists p s, price = Some p /\ line = Some s /\ Ieee.gt p 0 = true /\
              d = (abs (p - s) / p * 100)%float.
Proof.
  unfold distance_pct. split.
  - destruct price as [p|]; [|discriminate].
    destruct line as [s|]; [|discriminate].
    destruct (Ieee.truthy (Some p) && Ieee.gt p 0)%bool eqn:E; [|discriminate].
    intros H. injection H as <-.
    apply andb_true_iff in E. destruct E as [_ E].
    exists p, s. repeat split. exact E.
  - intros (p & s & -> & -> & Hp & ->).
    assert (E : Ieee.truthy (Some p) = true).
    { simpl. rewrite (IeeeFacts.gt_not_eq p 0 Hp). reflexivity. }
    rewrite E, Hp. reflexivity.
Qed.

(** On all floats, for a detector as the constructor builds it: the ADX method
    is used exactly when [use_adx=True] was given and an adx value is
    supplied, and the regime is then TRENDING iff the value is not below the
    ADX threshold (20 unless given); otherwise the distance method is used,
    the regime is TRENDING iff the distance is computed and not below the
    sideways threshold (0.15 unless given), and SIDEWAYS when the price is
    absent or not above 0. *)
Lemma detect_by_construction (use_adx : option bool)
    (adx_threshold st_distance_sideways_threshold_pct : option float)
    (current_price supertrend_value adx : option float) :
  let self := init use_adx adx_threshold st_distance_sideways_threshold_pct in
  let regime := fst (detect self current_price supertrend_value adx) in
  let info := snd (detect self current_price supertrend_value adx) in
  let adx_thr := match adx_threshold with Some t => t | None => 20%float end in
  let dist_thr :=
    match st_distance_sideways_threshold_pct with
    | Some t => t
    | None => 0.15%float
    end in
  let adx_used := use_adx = Some true /\ adx <> None in
  (adx_used ->
   method info = "ADX"%string /\
   forall a, adx = Some a ->
     (regime = TRENDING <-> Ieee.lt a adx_thr = false)) /\
  (~ adx_used ->
   method info = "ST_DISTANCE"%string /\
   (regime = TRENDING <->
    exists p s, current_price = Some p /\ supertrend_value = Some s /\
                Ieee.gt p 0 = true /\
                Ieee.lt (abs (p - s) / p * 100)%float dist_thr = false) /\
   (current_price = None \/
    (exists p, current_price = Some p /\ Ieee.gt p 0 = false) ->
    regime = SIDEWAYS)).
Proof.
  cbv zeta. unfold detect, init. cbn [self_use_adx self_adx_threshold
    self_st_distance_sideways_threshold_pct].
  change DEFAULT_ADX_THRESHOLD with 20%float.
  change DEFAULT_ST_DISTANCE_SIDEWAYS_THRESHOLD_PCT with 0.15%float.
  set (adx_thr := match adx_threshold with Some t => t | None => 20%float end).
  set (dist_thr := match st_distance_sideways_threshold_pct with
                   | Some t => t | None => 0.15%float end).
  assert (D : let regime :=
                match distance_pct current_price supertrend_value with
                | None => SIDEWAYS
                | Some d => if Ieee.lt d dist_thr then SIDEWAYS else TRENDING
                end in
              (regime = TRENDING <->
               exists p s, current_price = Some p /\ supertrend_value = Some s /\
                           Ieee.gt p 0 = true /\
                           Ieee.lt (abs (p - s) / p * 100)%float dist_thr = false) /\
              (current_price = None \/
               (exists p, current_price = Some p /\ Ieee.gt p 0 = false) ->
               regime = SIDEWAYS)).
  { cbv zeta.
    destruct (distance_pct current_price supertrend_value) as [d|] eqn:Ed.
    - apply float_distance_pct_some in Ed.
      destruct Ed as (p & s & Hp & Hs & Hpos & Hd). subst current_price supertrend_value d.
      destruct (Ieee.lt (abs (p - s) / p * 100)%float dist_thr) eqn:E.
      + split; [|reflexivity]. split; [discriminate|].
        intros (p' & s' & Hp' & Hs' & _ & H). exfalso.
        injection Hp' as Hp'. injection Hs' as Hs'. subst p' s'. congruence.
      + split.
        * split; [|reflexivity]. intros _. exists p, s. auto.
        * intros [H|(p' & Hp' & H)]; [discriminate|].
          injection Hp' as Hp'. subst p'. congruence.
    - split; [|reflexivity]. split; [discriminate|].
      intros (p & s & Hp & Hs & Hpos & _). exfalso.
      assert (H : distance_pct current_price supertrend_value
                  = Some (abs (p - s) / p * 100)%float).
      { apply float_distance_pct_some. exists p, s. auto. }
      congruence. }
  cbv zeta in D.
  destruct use_adx as [[|]|]; destruct adx as [a|]; cbn [fst snd method];
    try (split; [intros [H1 H2]; congruence|]; intros _;
         split; [reflexivity|exact D]).
  split; [|intros H; exfalso; apply H; split; congruence].
  intros _. split; [reflexivity|].
  intros a' Ha'. injection Ha' as Ha'. subst a'.
  destruct (Ieee.lt a adx_thr); split; congruence.
Qed.

(** When neither the value nor its threshold is NaN, "not below" is "at
    least": the regime under the ADX method is TRENDING iff adx >= threshold,
    and a computed distance gives TRENDING iff distance >= threshold. *)
Lemma not_below_is_at_least (x thr : float) :
  is_nan x = false -> is_nan thr = false ->
  (Ieee.lt x thr = false <-> Ieee.ge x thr = true).
Proof.
  intros Hx Ht. split.
  - apply IeeeFacts.lt_false_ge; assumption.
  - apply IeeeFacts.ge_lt_false.
Qed.

(** C7: a detector built with [use_adx=True] and the default thresholds, given
    an adx value that is NaN, uses the ADX method and finds TRENDING although
    the value is not at least the threshold of 20; the default detector, given
    a price of 100 and a SuperTrend value that is NaN, uses the distance
    method, computes a distance that is NaN and finds TRENDING although the
    distance is not at least the threshold of 0.15. *)
Theorem detect_nan_is_trending :
  (fst (detect (init (Some true) None None) (Some 100%float) (Some 99%float)
          (Some nan)) = TRENDING /\
   method (snd (detect (init (Some true) None None) (Some 100%float)
                  (Some 99%float) (Some nan))) = "ADX"%string /\
   Ieee.ge nan (self_adx_threshold (init (Some true) None None)) = false) /\
  (fst (detect (init None None None) (Some 100%float) (Some nan) None)
     = TRENDING /\
   method (snd (detect (init None None None) (Some 100%float) (Some nan) None))
     = "ST_DISTANCE"%string /\
   exists d,
     st_distance_pct
       (snd (detect (init None None None) (Some 100%float) (Some nan) None))
       = Some d /\
     is_nan d = true /\
     Ieee.ge d (self_st_distance_sideways_threshold_pct (init None None None))
       = false).
Proof.
  split; [repeat split; vm_compute; reflexivity|].
  split; [vm_compute; reflexivity|]. split; [vm_compute; reflexivity|].
  exists nan. repeat split; vm_compute; reflexivity.
Qed.

End RegimeIeeeFacts.

(** ** ConfidenceCalculator on floats *)

Module ConfidenceIeeeFacts.

Import PrimFloat SpecFloat FloatOps ConfidenceIeee.

Lemma float_st_strength_values (d : float) :
  st_strength_of d = 0%float \/ st_strength_of d = 30%float.
Proof. unfold st_strength_of. destruct (Ieee.gt _ _); auto. Qed.

Lemma float_candle_body_strength_values (b : float) :
  candle_body_strength_of b = 0%float \/ candle_body_strength_of b = 20%float.
Proof. unfold candle_body_strength_of. destruct (Ieee.ge _ _); auto. Qed.

Lemma float_macd_momentum_values (m : option float) :
  macd_momentum_of m = 0%float \/ macd_momentum_of m = 15%float \/
  macd_momentum_of m = 20%float \/ macd_momentum_of m = 25%float \/
  macd_momentum_of m = 30%float.
Proof.
  unfold macd_momentum_of. destruct m as [m|]; [|auto].
  cbv zeta.
  destruct (Ieee.ge (abs m) 1.5); [auto 6|].
  destruct (Ieee.ge (abs m) 1); [auto 6|].
  destruct (Ieee.ge (abs m) 0.75); [auto 6|].
  destruct (Ieee.ge (abs m) 0.5); auto 6.
Qed.

Lemma float_volatility_expansion_values (r : float) (rs : option (list float)) :
  volatility_expansion_of r rs = 0%float \/ volatility_expansion_of r rs = 20%float.
Proof.
  unfold volatility_expansion_of.
  destruct (Ieee.gt r 0); [|auto].
  cbv zeta.
  destruct (3 <=? _)%nat; [|auto].
  destruct (_ && _)%bool; auto.
Qed.

(** A magnitude of at least 0.5 scores at least 15. *)
Lemma macd_score_at_least_15 (h : float) :
  Ieee.ge (abs h) 0.5 = true -> Ieee.ge (macd_momentum_of (Some h)) 15 = true.
Proof.
  intros H. unfold macd_momentum_of. cbv zeta.
  destruct (Ieee.ge (abs h) 1.5); [reflexivity|].
  destruct (Ieee.ge (abs h) 1); [reflexivity|].
  destruct (Ieee.ge (abs h) 0.75); [reflexivity|].
  rewrite H. reflexivity.
Qed.

(** A magnitude below 0.5 scores 0. *)
Lemma macd_score_zero (h : float) :
  Ieee.lt (abs h) 0.5 = true -> macd_momentum_of (Some h) = 0%float.
Proof.
  intros H. unfold macd_momentum_of. cbv zeta.
  assert (B : forall (c : float) (m : positive) (e : Z),
            Prim2SF c = S754_finite false m e ->
            (-53 < e \/ (-53 = e /\ (4503599627370496 <= m)%positive))%Z ->
            Ieee.ge (abs h) c = false).
  { intros c m e Hc Hle.
    apply (IeeeFacts.below_constant (abs h) 0.5 c 4503599627370496 m (-53) e);
      [reflexivity|exact Hc|exact Hle|exact H]. }
  rewrite (B 1.5%float 6755399441055744%positive (-52)%Z)
    by (try reflexivity; lia).
  rewrite (B 1%float 4503599627370496%positive (-52)%Z)
    by (try reflexivity; lia).
  rewrite (B 0.75%float 6755399441055744%positive (-53)%Z)
    by (try reflexivity; lia).
  rewrite (B 0.5%float 4503599627370496%positive (-53)%Z)
    by (try reflexivity; lia).
  reflexivity.
Qed.

(** [check_entry] and the MACD score agree on a histogram that is not NaN:
    an entry is only decided on a histogram that scores at least 15; the
    refusal MACD_HIST_TOO_SMALL is only given on a histogram that scores 0,
    NaN or not; on a histogram that is NaN an entry is decided although the
    score is 0. *)
Theorem entry_agrees_with_macd_score (market_regime_is_trending : bool)
    (st_direction : Z) (prev_st_direction : option Z)
    (supertrend_value candle_close : float) (h : float)
    (entry_confidence min_entry_confidence : float) :
  is_nan h = false ->
  (Entry.should_enter
     (EntryIeee.check_entry market_regime_is_trending st_direction
        prev_st_direction supertrend_value candle_close (Some h)
        entry_confidence min_entry_confidence) = true ->
   Ieee.ge (macd_momentum_of (Some h)) 15 = true) /\
  (forall macd_histogram : option float,
     Entry.reason
       (EntryIeee.check_entry market_regime_is_trending st_direction
          prev_st_direction supertrend_value candle_close macd_histogram
          entry_confidence min_entry_confidence) = "MACD_HIST_TOO_SMALL"%string ->
     macd_momentum_of macd_histogram = 0%float) /\
  (Entry.should_enter
     (EntryIeee.check_entry true 1 (Some (-1)%Z) 100 101 (Some nan) 80 65) = true /\
   macd_momentum_of (Some nan) = 0%float).
Proof.
  intros Hn. split; [|split].
  - intros H. apply EntryIeeeFacts.check_entry_enters_some in H.
    destruct H as [d H]. apply EntryIeeeFacts.check_entry_enters_iff in H.
    destruct H as (_ & _ & (h' & Hh & Hlt) & _).
    injection Hh as Hh. subst h'.
    apply macd_score_at_least_15.
    apply IeeeFacts.lt_false_ge; [|reflexivity|exact Hlt].
    rewrite IeeeFacts.abs_is_nan. exact Hn.
  - intros macd H. apply EntryIeeeFacts.check_entry_macd_refusal in H.
    destruct macd as [m|]; [|reflexivity].
    apply macd_score_zero. exact H.
  - split; vm_compute; reflexivity.
Qed.

(** A bullish flip with a histogram of 1: the entry is decided and the score
    is 25. *)
Lemma entry_agrees_with_macd_score_witness :
  Ieee.ge (macd_momentum_of (Some 1%float)) 15 = true.
Proof.
  refine (proj1 (entry_agrees_with_macd_score true 1 (Some (-1)%Z) 100 101 1 80 65 _) _);
    vm_compute; reflexivity.
Defined.

(** When [check_entry] is given the total of the calculator for the same
    histogram, which is absent or not NaN, and the default minimum of 65, an
    entry means that the MACD factor scored at least 15 and that at least two
    of the three other factors scored as well (with a MACD score of at least
    25 when the SuperTrend factor did not). *)
Theorem entry_on_calculated_score (market_regime_is_trending : bool)
    (st_direction : Z) (prev_st_direction : option Z) (supertrend_value : float)
    (supertrend_distance_pct candle_open candle_high candle_low candle_close : float)
    (macd_histogram : option float) (recent_ranges : option (list float)) :
  (forall h, macd_histogram = Some h -> is_nan h = false) ->
  Entry.should_enter
    (EntryIeee.check_entry market_regime_is_trending st_direction
       prev_st_direction supertrend_value candle_close macd_histogram
       (total (calculate_entry_confidence supertrend_distance_pct candle_open
                 candle_high candle_low candle_close macd_histogram
                 recent_ranges))
       EntryIeee.DEFAULT_MIN_ENTRY_CONFIDENCE) = true ->
  let b := calculate_entry_confidence supertrend_distance_pct candle_open
             candle_high candle_low candle_close macd_histogram recent_ranges in
  Ieee.ge (macd_momentum b) 15 = true /\
  ((st_strength b = 30%float /\ candle_body_strength b = 20%float) \/
   (st_strength b = 30%float /\ volatility_expansion b = 20%float) \/
   (candle_body_strength b = 20%float /\ volatility_expansion b = 20%float /\
    Ieee.ge (macd_momentum b) 25 = true)).
Proof.
  intros Hn H. cbv zeta.
  apply EntryIeeeFacts.check_entry_enters_some in H.
  destruct H as [d H]. apply EntryIeeeFacts.check_entry_enters_iff in H.
  destruct H as (_ & _ & (h & Hh & Hlt) & Gc).
  assert (Gm : Ieee.ge (macd_momentum_of macd_histogram) 15 = true).
  { rewrite Hh. apply macd_score_at_least_15.
    apply IeeeFacts.lt_false_ge; [|reflexivity|exact Hlt].
    rewrite IeeeFacts.abs_is_nan. apply Hn. exact Hh. }
  clear Hn Hh Hlt h d.
  revert Gm Gc. unfold calculate_entry_confidence. cbv zeta.
  cbn [total st_strength candle_body_strength macd_momentum volatility_expansion].
  pose proof (float_st_strength_values supertrend_distance_pct) as H1.
  pose proof (float_candle_body_strength_values
                (body_pct_of candle_open candle_high candle_low candle_close)) as H2.
  pose proof (float_macd_momentum_values macd_histogram) as H3.
  pose proof (float_volatility_expansion_values
                (candle_high - candle_low)%float recent_ranges) as H4.
  set (s1 := st_strength_of _) in *.
  set (s2 := candle_body_strength_of _) in *.
  set (s3 := macd_momentum_of _) in *.
  set (s4 := volatility_expansion_of _ _) in *.
  clearbody s1 s2 s3 s4.
  destruct H1 as [-> | ->]; destruct H2 as [-> | ->];
    destruct H3 as [-> | [-> | [-> | [-> | ->]]]]; destruct H4 as [-> | ->];
    intros Gm Gc; vm_compute in Gm, Gc; try discriminate;
    (split; [vm_compute; reflexivity|]);
    first [ left; split; reflexivity
          | right; left; split; reflexivity
          | right; right; repeat split; vm_compute; reflexivity ].
Qed.

(** A bullish flip on a full candle with a histogram of 1 and a range above
    the average of three earlier ones, the line close to the price: the
    calculator gives 65 and the entry is decided. *)
Lemma entry_on_calculated_score_witness :
  Ieee.ge
    (macd_momentum
       (calculate_entry_confidence 0.1 100 110 100 110 (Some 1%float)
          (Some [5; 5; 5]%float))) 15 = true.
Proof.
  refine (proj1 (entry_on_calculated_score true 1 (Some (-1)%Z) 109 0.1 100 110
                   100 110 (Some 1%float) (Some [5; 5; 5]%float) _ _)).
  - intros h Hh. injection Hh as <-. reflexivity.
  - vm_compute. reflexivity.
Defined.

(** The clamp of the source gives back a value that is within [0, 100], up to
    the sign of zero. *)
Lemma clamp_keeps_value (p : float) :
  Ieee.le 0 p = true -> Ieee.le p 100 = true ->
  eqb (Ieee.max 0 (Ieee.min 100 p)) p = true.
Proof.
  intros H0 H100.
  destruct (IeeeFacts.le_not_nan 0 p H0) as [_ Hp].
  unfold Ieee.max, Ieee.min, Ieee.gt, Ieee.lt.
  destruct (ltb p 100) eqn:E1.
  - destruct (ltb 0 p) eqn:E2.
    + apply IeeeFacts.eqb_refl. exact Hp.
    + apply IeeeFacts.le_not_lt_eq; assumption.
  - change (ltb 0 100) with true. cbv iota.
    rewrite IeeeFacts.eqb_sym. apply IeeeFacts.le_not_lt_eq; assumption.
Qed.

(** The reason is NO_CHANGE exactly when none of the four tests of the source
    holds, and the confidence is then only clamped. *)
Lemma no_change_iff_no_test (previous_confidence : float)
    (candle_body_pct macd_histogram prev_macd_histogram : option float)
    (candles_held decay_after_candles : Z) :
  let weak := match candle_body_pct with Some b => Ieee.lt b 30 | None => false end in
  let shrink :=
    match macd_histogram, prev_macd_histogram with
    | Some m, Some pm => Ieee.lt (abs m) (abs pm)
    | _, _ => false
    end in
  let late := (decay_after_candles <? candles_held)%Z in
  let strong := match candle_body_pct with Some b => Ieee.ge b 60 | None => false end in
  (snd (calculate_runtime_confidence previous_confidence candle_body_pct
          macd_histogram prev_macd_histogram candles_held decay_after_candles)
     = "NO_CHANGE"%string <->
   weak = false /\ shrink = false /\ late = false /\ strong = false) /\
  (weak = false -> shrink = false -> late = false -> strong = false ->
   fst (calculate_runtime_confidence previous_confidence candle_body_pct
          macd_histogram prev_macd_histogram candles_held decay_after_candles)
     = Ieee.max 0 (Ieee.min 100 previous_confidence)).
Proof.
  cbv zeta. unfold calculate_runtime_confidence.
  destruct candle_body_pct as [b|];
    destruct macd_histogram as [m|]; destruct prev_macd_histogram as [pm|];
    try destruct (Ieee.lt b 30); try destruct (Ieee.ge b 60);
    try destruct (Ieee.lt (abs m) (abs pm));
    destruct (decay_after_candles <? candles_held)%Z;
    cbn [snd fst app];
    (split;
     [ first [ split; [intros _; repeat split|reflexivity]
             | split; [intros H; vm_compute in H; discriminate H
                      |intros (A & B & C & D); discriminate] ]
     | intros A B C D; first [reflexivity | discriminate] ]).
Qed.

(** The reason is NO_CHANGE exactly when the body percentage is absent or
    neither below 30 nor at least 60, a histogram is absent or the magnitude
    of the current one is not below that of the previous one, and the position
    is held for no more candles than the window; for a body percentage that is
    not NaN, "neither below 30 nor at least 60" is "within [30, 60)", and a
    NaN one gives NO_CHANGE as well; a confidence within [0, 100] then comes
    back equal to what it was. *)
Theorem no_change_iff_no_adjustment (previous_confidence : float)
    (candle_body_pct macd_histogram prev_macd_histogram : option float)
    (candles_held decay_after_candles : Z) :
  (snd (calculate_runtime_confidence previous_confidence candle_body_pct
          macd_histogram prev_macd_histogram candles_held decay_after_candles)
     = "NO_CHANGE"%string <->
   (candle_body_pct = None \/
    exists b, candle_body_pct = Some b /\
              Ieee.lt b 30 = false /\ Ieee.ge b 60 = false) /\
   (macd_histogram = None \/ prev_macd_histogram = None \/
    exists m pm, macd_histogram = Some m /\ prev_macd_histogram = Some pm /\
                 Ieee.lt (abs m) (abs pm) = false) /\
   (candles_held <= decay_after_candles)%Z) /\
  (forall b : float, is_nan b = false ->
     (Ieee.lt b 30 = false /\ Ieee.ge b 60 = false <->
      Ieee.ge b 30 = true /\ Ieee.lt b 60 = true)) /\
  (snd (calculate_runtime_confidence previous_confidence candle_body_pct
          macd_histogram prev_macd_histogram candles_held decay_after_candles)
     = "NO_CHANGE"%string ->
   Ieee.le 0 previous_confidence = true ->
   Ieee.le previous_confidence 100 = true ->
   eqb (fst (calculate_runtime_confidence previous_confidence candle_body_pct
               macd_histogram prev_macd_histogram candles_held
               decay_after_candles)) previous_confidence = true) /\
  calculate_runtime_confidence 50 (Some nan) None None 0 10
    = (50%float, "NO_CHANGE"%string).
Proof.
  pose proof (no_change_iff_no_test previous_confidence candle_body_pct
                macd_histogram prev_macd_histogram candles_held
                decay_after_candles) as T.
  cbv zeta in T. destruct T as [T1 T2].
  split; [|split; [|split]].
  - rewrite T1. rewrite Z.ltb_ge. split.
    + intros (A & B & C & D). split; [|split; [|exact C]].
      * destruct candle_body_pct as [b|]; [right|left; reflexivity].
        exists b. auto.
      * destruct macd_histogram as [m|]; [|left; reflexivity].
        destruct prev_macd_histogram as [pm|]; [|right; left; reflexivity].
        right. right. exists m, pm. auto.
    + intros (A & B & C). split; [|split; [|split; [exact C|]]].
      * destruct A as [->|(b & -> & H1 & H2)]; [reflexivity|exact H1].
      * destruct B as [->|[->|(m & pm & -> & -> & H)]];
          [reflexivity|destruct macd_histogram; reflexivity|exact H].
      * destruct A as [->|(b & -> & H1 & H2)]; [reflexivity|exact H2].
  - intros b Hb.
    assert (N30 : is_nan 30%float = false) by reflexivity.
    assert (N60 : is_nan 60%float = false) by reflexivity.
    split.
    + intros [H1 H2]. split.
      * apply IeeeFacts.lt_false_ge; assumption.
      * destruct (Ieee.lt b 60) eqn:E; [reflexivity|].
        apply (IeeeFacts.lt_false_ge b 60 Hb N60) in E. congruence.
    + intros [H1 H2]. split.
      * apply IeeeFacts.ge_lt_false. exact H1.
      * destruct (Ieee.ge b 60) eqn:E; [|reflexivity].
        apply IeeeFacts.ge_lt_false in E. congruence.
  - intros H H0 H100. apply T1 in H. destruct H as (A & B & C & D).
    rewrite (T2 A B C D). apply clamp_keeps_value; assumption.
  - vm_compute. reflexivity.
Qed.

End ConfidenceIeeeFacts.
